(** * sniperBot: the mint dispatcher and the chain mint executors

    A shallow embedding of [controllers/mintController.js] and of the
    four executors ([mintSUI], [mintBASE], [mintBSC], [mintSOL]).

    - JavaScript values are the JSON values plus [undefined]; objects are
      association lists in insertion order, with the property-definition
      semantics of object literals and of the spread operator.
    - Every call that leaves the function (an RPC call, an HTTP request, a
      call into ethers / web3.js / bs58) is answered by a mock that the
      executor receives as an argument; the calls are logged in order, so
      that "before any network call" is a statement about the log.
    - [return], [throw] and [try]/[catch] are the completions of a small
      monad.

    The executors are the four handlers with error handling.  The
    repository also holds two short earlier variants (one posts the SUI
    mutation, one calls [contract.mint] on BSC) that return [{ txHash }]
    alone and let every exception escape; they are not modelled here. *)

From Stdlib Require Import ZArith QArith List String Ascii Bool Lia.
From Stdlib Require DecimalString.
Import ListNotations.

Local Open Scope string_scope.
Local Open Scope Z_scope.

(** ** JavaScript values *)

(** Numbers.  A finite double is written by its exact rational value; the
    comparisons of the source ([< 1], [> 100], [< 32], [> 0]) are exact on
    these. *)
Inductive JSNumber : Type :=
| NaN
| Inf (positive : bool)
| Fin (q : Q).

(** Strings are Rocq strings, one character per code unit. *)
#[warnings="-register-all"]
Inductive JSValue : Type :=
| JUndefined
| JNull
| JBool (b : bool)
| JNumber (n : JSNumber)
| JString (s : string)
| JArray (elems : list JSValue)
| JObject (props : list (string * JSValue)).

Definition JSObject : Type := list (string * JSValue).

Definition JInt (z : Z) : JSValue := JNumber (Fin (inject_Z z)).

(** An [Error] object, as much of it as the handlers read:
    [err.name], [err.message], [err.code]. *)
Record JSError : Type := mkError {
  err_name : string;
  err_message : string;
  err_code : option string
}.

Definition TypeError (msg : string) : JSError := mkError "TypeError" msg None.
Definition SyntaxError (msg : string) : JSError := mkError "SyntaxError" msg None.
Definition Error (msg : string) : JSError := mkError "Error" msg None.

(** The outcome of a call that may throw. *)
Inductive Attempt (A : Type) : Type :=
| Ok (a : A)
| Thrown (e : JSError).
Arguments Ok {A} a.
Arguments Thrown {A} e.

(** Built-ins of the engine that the model does not spell out: the Unicode
    case mapping, the numeric-literal grammar and number printing. *)
Record Host : Type := mkHost {
  toUpperCase : string -> string;        (* String.prototype.toUpperCase *)
  StringToNumber : string -> JSNumber;   (* ToNumber applied to a string *)
  NumberToString : JSNumber -> string;   (* ToString applied to a number *)
  JSON_stringify : JSValue -> string     (* JSON.stringify *)
}.

(** *** Objects *)

Fixpoint lookup (k : string) (o : JSObject) : option JSValue :=
  match o with
  | [] => None
  | (k', v) :: o' => if String.eqb k k' then Some v else lookup k o'
  end.

(** [o.k] on an object: [undefined] when the key is absent. *)
Definition get (o : JSObject) (k : string) : JSValue :=
  match lookup k o with
  | Some v => v
  | None => JUndefined
  end.

(** Defining a property: an existing key keeps its place and takes the new
    value, a new key goes last. *)
Fixpoint define (k : string) (v : JSValue) (o : JSObject) : JSObject :=
  match o with
  | [] => [(k, v)]
  | (k', v') :: o' =>
      if String.eqb k k' then (k, v) :: o' else (k', v') :: define k v o'
  end.

(** [{ ...target, ...source }]: the properties of [source] are defined on
    [target] one by one, in order. *)
Fixpoint spread (target source : JSObject) : JSObject :=
  match source with
  | [] => target
  | (k, v) :: source' => spread (define k v target) source'
  end.

(** The rest pattern [const { k, ...rest } = o]. *)
Fixpoint omit (k : string) (o : JSObject) : JSObject :=
  match o with
  | [] => []
  | (k', v) :: o' =>
      if String.eqb k k' then omit k o' else (k', v) :: omit k o'
  end.

(** A property is present when reading it does not give [undefined]. *)
Definition present (o : JSObject) (k : string) : Prop := get o k <> JUndefined.

Definition presentb (o : JSObject) (k : string) : bool :=
  match get o k with
  | JUndefined => false
  | _ => true
  end.

(** *** Coercions *)

Definition Qltb (x y : Q) : bool := negb (Qle_bool y x).

Definition ToBoolean (v : JSValue) : bool :=
  match v with
  | JUndefined | JNull => false
  | JBool b => b
  | JNumber NaN => false
  | JNumber (Inf _) => true
  | JNumber (Fin q) => negb (Qeq_bool q 0)
  | JString s => negb (String.eqb s "")
  | JArray _ | JObject _ => true
  end.

Definition num_lt (x y : JSNumber) : bool :=
  match x, y with
  | NaN, _ | _, NaN => false
  | Inf false, Inf false => false
  | Inf false, _ => true
  | Inf true, _ => false
  | Fin _, Inf p => p
  | Fin a, Fin b => Qltb a b
  end.

Section Coercions.

Variable host : Host.

(** The values of the model are the values of a parsed JSON text and
    [undefined]: none of them is callable.  Converting an object to a
    primitive calls its [valueOf], then its [toString], and takes the first
    primitive answer.  The inherited [valueOf] returns the object itself and
    the inherited [toString] of a plain object returns ["[object Object]"];
    an own property of either name hides the inherited method and cannot be
    called.  So the conversion of a plain object throws a TypeError exactly
    when the object has an own [toString], and is ["[object Object]"]
    otherwise. *)
Definition cannot_convert : JSError :=
  TypeError "Cannot convert object to primitive value".

(** Whether the conversion goes through; that of an array converts its
    elements. *)
Fixpoint convertible (v : JSValue) : bool :=
  match v with
  | JArray l => forallb convertible l
  | JObject o =>
      match lookup "toString" o with
      | Some _ => false
      | None => true
      end
  | _ => true
  end.

(** The string form of a value whose conversion goes through; an array is
    the join of its elements, [null] and [undefined] elements being
    empty. *)
Fixpoint string_form (v : JSValue) : string :=
  match v with
  | JUndefined => "undefined"
  | JNull => "null"
  | JBool true => "true"
  | JBool false => "false"
  | JNumber n => NumberToString host n
  | JString s => s
  | JArray l =>
      (fix join (l : list JSValue) : string :=
         match l with
         | [] => ""
         | x :: r =>
             let e := match x with
                      | JUndefined | JNull => ""
                      | _ => string_form x
                      end in
             match r with
             | [] => e
             | _ :: _ => e ++ "," ++ join r
             end
         end) l
  | JObject _ => "[object Object]"
  end.

(** ToString. *)
Definition ToString (v : JSValue) : Attempt string :=
  if convertible v then Ok (string_form v) else Thrown cannot_convert.

(** ToNumber; arrays and objects go through their string form. *)
Definition ToNumber (v : JSValue) : Attempt JSNumber :=
  match v with
  | JUndefined => Ok NaN
  | JNull => Ok (Fin 0)
  | JBool true => Ok (Fin 1)
  | JBool false => Ok (Fin 0)
  | JNumber n => Ok n
  | JString s => Ok (StringToNumber host s)
  | JArray _ | JObject _ =>
      match ToString v with
      | Ok s => Ok (StringToNumber host s)
      | Thrown e => Thrown e
      end
  end.

(** [v < n] and [v > n] against a number literal. *)
Definition js_lt (v : JSValue) (n : Z) : Attempt bool :=
  match ToNumber v with
  | Ok x => Ok (num_lt x (Fin (inject_Z n)))
  | Thrown e => Thrown e
  end.

Definition js_gt (v : JSValue) (n : Z) : Attempt bool :=
  match ToNumber v with
  | Ok x => Ok (num_lt (Fin (inject_Z n)) x)
  | Thrown e => Thrown e
  end.

(** [!v || v < n]: the comparison is not evaluated for a falsy [v]. *)
Definition falsy_or_lt (v : JSValue) (n : Z) : Attempt bool :=
  if negb (ToBoolean v) then Ok true else js_lt v n.

End Coercions.

(** [s.includes(t)] on strings. *)
Fixpoint includes (s t : string) : bool :=
  String.prefix t s ||
  match s with
  | EmptyString => false
  | String _ s' => includes s' t
  end.

(** [v[k]] on any value: reading a property of [undefined] or [null]
    throws, a primitive without that property gives [undefined]. *)
Definition getProp (v : JSValue) (k : string) : Attempt JSValue :=
  match v with
  | JUndefined =>
      Thrown (TypeError ("Cannot read properties of undefined (reading '" ++ k ++ "')"))
  | JNull =>
      Thrown (TypeError ("Cannot read properties of null (reading '" ++ k ++ "')"))
  | JBool _ | JNumber _ => Ok JUndefined
  | JString s =>
      if String.eqb k "length" then Ok (JInt (Z.of_nat (String.length s)))
      else if String.eqb k "0" then
        Ok (match s with
            | EmptyString => JUndefined
            | String c _ => JString (String c EmptyString)
            end)
      else Ok JUndefined
  | JArray l =>
      if String.eqb k "length" then Ok (JInt (Z.of_nat (List.length l)))
      else if String.eqb k "0" then Ok (hd JUndefined l)
      else Ok JUndefined
  | JObject o => Ok (get o k)
  end.

(** [v.includes(t)]: a method of strings and of arrays only. *)
Definition callIncludes (what : string) (v : JSValue) (t : string) : Attempt bool :=
  match v with
  | JString s => Ok (includes s t)
  | JArray l =>
      Ok (existsb (fun x => match x with
                            | JString s => String.eqb s t
                            | _ => false
                            end) l)
  | JUndefined =>
      Thrown (TypeError "Cannot read properties of undefined (reading 'includes')")
  | JNull =>
      Thrown (TypeError "Cannot read properties of null (reading 'includes')")
  | _ => Thrown (TypeError (what ++ ".includes is not a function"))
  end.

(** ** Calls that leave the function *)

(** One entry of the call log.  [EvLocal] is a call into a library that
    computes locally (key parsing, address derivation); every other entry is
    a round trip to the network. *)
Inductive Event : Type :=
| EvLocal (what : string)
| EvGetNetwork (rpcUrl : string)
| EvGetBalance (rpcUrl address : string)
| EvGetCode (rpcUrl : string) (address : JSValue)
| EvGetFeeData (rpcUrl : string)
| EvEstimateGas (rpcUrl : string) (name : string) (args : list JSValue)
| EvSend (rpcUrl : string) (name : string) (args : list JSValue) (gasLimit gasPrice : Z)
| EvWait (rpcUrl : string) (txHash : string) (timeout_ms : Z)
| EvGetVersion (rpcUrl : string)
| EvSolGetBalance (rpcUrl publicKey : string)
| EvGetAccountInfo (rpcUrl account : string)
| EvGetLatestBlockhash (rpcUrl : string)
| EvSendRawTransaction (rpcUrl : string) (maxRetries : Z)
| EvConfirmTransaction (rpcUrl : string) (signature : string) (timeout_ms : Z)
| EvAxios (attempt : Z) (timeout_ms : Z)
| EvSleep (ms : Z).

Definition History : Type := list Event.

Definition is_network (e : Event) : bool :=
  match e with
  | EvLocal _ | EvSleep _ => false
  | _ => true
  end.

(** ** Completions *)

(** A statement completes normally, returns from the enclosing function, or
    throws. *)
Inductive Completion (R A : Type) : Type :=
| Normal (a : A)
| Return (r : R)
| Throw (e : JSError).
Arguments Normal {R A} a.
Arguments Return {R A} r.
Arguments Throw {R A} e.

(** A computation reads the log so far and extends it. *)
Definition M (R A : Type) : Type := History -> History * Completion R A.

Definition ret {R A} (a : A) : M R A := fun h => (h, Normal a).

Definition return_ {R A} (r : R) : M R A := fun h => (h, Return r).

Definition throw {R A} (e : JSError) : M R A := fun h => (h, Throw e).

Definition bind {R A B} (m : M R A) (k : A -> M R B) : M R B :=
  fun h =>
    match m h with
    | (h', Normal a) => k a h'
    | (h', Return r) => (h', Return r)
    | (h', Throw e) => (h', Throw e)
    end.

(** [try { m } catch (e) { handler e }]: a [return] inside the block leaves
    the function, only a [throw] enters the handler. *)
Definition try_catch {R A} (m : M R A) (handler : JSError -> M R A) : M R A :=
  fun h =>
    match m h with
    | (h', Throw e) => handler e h'
    | other => other
    end.

(** A call answered by a mock: the mock sees the log so far, the call is
    appended to the log, and a thrown answer is thrown here. *)
Definition call {R A} (ev : Event) (answer : History -> Attempt A) : M R A :=
  fun h =>
    match answer h with
    | Ok a => ((h ++ [ev])%list, Normal a)
    | Thrown e => ((h ++ [ev])%list, Throw e)
    end.

(** A pure operation that may throw (a property read, a method call). *)
Definition attempt {R A} (x : Attempt A) : M R A :=
  fun h =>
    match x with
    | Ok a => (h, Normal a)
    | Thrown e => (h, Throw e)
    end.

(** What the caller of an [async] function observes. *)
Inductive Outcome (R : Type) : Type :=
| Returned (r : R)
| Rejected (e : JSError).
Arguments Returned {R} r.
Arguments Rejected {R} e.

Declare Scope js_scope.
Delimit Scope js_scope with js.
Notation "x <- m ;; k" := (bind m (fun x => k))
  (at level 61, m at next level, right associativity) : js_scope.
Notation "m ;; k" := (bind m (fun _ => k))
  (at level 61, right associativity) : js_scope.
Notation "'when' c 'then_return' r ;; k" :=
  (if c then return_ r else k)
  (at level 61, c at next level, r at next level, right associativity) : js_scope.
Local Open Scope js_scope.

(** Object literals of the shapes the program builds. *)
Definition failure (msg code : string) : JSObject :=
  [("success", JBool false); ("msg", JString msg); ("code", JString code)].

Definition failure_details (msg code : string) (details : JSValue) : JSObject :=
  [("success", JBool false); ("msg", JString msg); ("code", JString code);
   ("details", details)].

(** ** Functions *)

(** The body of an [async] function: every path returns or throws. *)
Definition AsyncFn (R : Type) : Type := History -> History * Outcome R.

Definition run {R} (body : M R Empty_set) : AsyncFn R :=
  fun h =>
    match body h with
    | (h', Return r) => (h', Returned r)
    | (h', Throw e) => (h', Rejected e)
    | (h', Normal a) => match a with end
    end.

(** [await f(...)]. *)
Definition await {R A} (f : AsyncFn A) : M R A :=
  fun h =>
    match f h with
    | (h', Returned a) => (h', Normal a)
    | (h', Rejected e) => (h', Throw e)
    end.

(** ** The dispatcher: [controllers/mintController.js] *)

Record Response : Type := mkResponse {
  status : Z;
  json : JSObject
}.

(** [chain.toUpperCase()]: only a string has the method. *)
Definition call_toUpperCase (host : Host) (chain : JSValue) : Attempt string :=
  match chain with
  | JString s => Ok (toUpperCase host s)
  | JUndefined =>
      Thrown (TypeError "Cannot read properties of undefined (reading 'toUpperCase')")
  | JNull =>
      Thrown (TypeError "Cannot read properties of null (reading 'toUpperCase')")
  | _ => Thrown (TypeError "chain.toUpperCase is not a function")
  end.

(** The result of the [case "SOL"] branch. *)
Definition sol_stub : JSObject :=
  [("success", JBool false); ("msg", JString "SOL mint not yet implemented")].

Section Dispatcher.

Variable host : Host.
(** The three modules the controller requires. *)
Variables mintSUI mintBSC mintBASE : JSObject -> AsyncFn JSObject.

Definition handleMint (req_body : JSObject) : AsyncFn Response :=
  let chain := get req_body "chain" in
  let mintData := omit "chain" req_body in
  run (try_catch
         (tag <- attempt (call_toUpperCase host chain) ;;
          result <-
            (if String.eqb tag "SUI" then await (mintSUI mintData)
             else if String.eqb tag "BSC" then await (mintBSC mintData)
             else if String.eqb tag "BASE" then await (mintBASE mintData)
             else if String.eqb tag "SOL" then ret sol_stub
             else return_ (mkResponse 400
                    [("success", JBool false); ("msg", JString "Unsupported chain")])) ;;
          return_ (mkResponse 200 (spread [("success", JBool true)] result)))
         (fun err =>
            return_ (mkResponse 500
              [("success", JBool false); ("msg", JString "Minting error");
               ("error", JString (err_message err))]))).

End Dispatcher.

(** ** The EVM executors: [mintBASE] and [mintBSC] *)

(** A promise raced against the timer: it settles first, or not in time. *)
Inductive Settled (A : Type) : Type :=
| Resolved (a : A)
| RejectedWith (e : JSError)
| Pending.
Arguments Resolved {A} a.
Arguments RejectedWith {A} e.
Arguments Pending {A}.

(** [Promise.race([p, new Promise((_, reject) => setTimeout(() =>
    reject(new Error("Transaction confirmation timeout")), 300000))])]. *)
Definition race_timeout {A} (p : Settled A) : Attempt A :=
  match p with
  | Resolved a => Ok a
  | RejectedWith e => Thrown e
  | Pending => Thrown (Error "Transaction confirmation timeout")
  end.

Definition confirmation_timeout_ms : Z := 300000.

(** The transaction receipt of ethers 6 (the version whose names the
    executors use: [ethers.JsonRpcProvider], [ethers.isAddress],
    [ethers.parseUnits], gas as [BigInt]), as much of it as matters here:
    [status], [hash], [gasUsed], [blockNumber]. *)
Record Receipt : Type := mkReceipt {
  rc_status : Z;
  rc_hash : string;
  rc_gasUsed : Z;
  rc_blockNumber : Z
}.

(** [receipt.transactionHash], which the executors read: the receipt names
    its hash [hash] and has no property [transactionHash], so that the read
    gives [undefined]. *)
Definition rc_transactionHash (receipt : Receipt) : JSValue := JUndefined.

(** The ethers library: what computes locally. *)
Record Ethers : Type := mkEthers {
  isAddress : JSValue -> bool;
  (* new ethers.Wallet(privateKey, provider): the wallet's address *)
  newWallet : JSValue -> Attempt string;
  (* new ethers.Contract(address, abi, wallet): which of its members are set *)
  newContract : JSValue -> Attempt (string -> bool);
  (* parseFloat(ethers.formatEther(balance)).toFixed(4), balance in wei *)
  etherFixed4 : Z -> string
}.

(** The JSON-RPC endpoints. Balances, gas and prices are in wei. *)
Record EvmNetwork : Type := mkEvmNetwork {
  getNetwork : History -> string -> Attempt unit;
  getBalance : History -> string -> string -> Attempt Z;
  getCode : History -> string -> JSValue -> Attempt string;
  (* feeData.gasPrice, None for null *)
  getFeeData : History -> string -> Attempt (option Z);
  estimateGas : History -> string -> string -> list JSValue -> Attempt Z;
  (* the sent transaction's hash *)
  sendTransaction : History -> string -> string -> list JSValue -> Z -> Z -> Attempt string;
  wait : History -> string -> string -> Settled Receipt
}.

Definition gwei : Z := 1000000000.
Definition ether : Z := 1000000000000000000.

(** [BigInt.prototype.toString]. *)
Definition BigInt_toString (z : Z) : string :=
  DecimalString.NilZero.string_of_int (Z.to_int z).

Definition code_is (e : JSError) (c : string) : bool :=
  match err_code e with
  | Some c' => String.eqb c' c
  | None => false
  end.

(** [errorMsg.match(/reason string '(.+?)'/)?.[1]]: the shortest non-empty
    run without a line terminator between the opening quote and a closing
    one, at the leftmost place where that matches. *)
Definition is_line_terminator (c : ascii) : bool :=
  Ascii.eqb c "010"%char || Ascii.eqb c "013"%char.

Fixpoint lazy_until_quote (acc : string) (s : string) : option string :=
  match s with
  | EmptyString => None
  | String c s' =>
      if Ascii.eqb c "'"%char then Some acc
      else if is_line_terminator c then None
      else lazy_until_quote (acc ++ String c EmptyString) s'
  end.

Definition capture_after_quote (s : string) : option string :=
  match s with
  | EmptyString => None
  | String c s' =>
      if is_line_terminator c then None
      else lazy_until_quote (String c EmptyString) s'
  end.

Fixpoint drop (n : nat) (s : string) : string :=
  match n, s with
  | O, _ => s
  | S n', String _ s' => drop n' s'
  | S _, EmptyString => EmptyString
  end.

Fixpoint match_reason (s : string) : option string :=
  let here :=
    if String.prefix "reason string '" s
    then capture_after_quote (drop 15 s)
    else None in
  match here with
  | Some r => Some r
  | None =>
      match s with
      | EmptyString => None
      | String _ s' => match_reason s'
      end
  end.

Section EVM.

Variable host : Host.
Variable lib : Ethers.
Variable net : EvmNetwork.

Definition MintFunction : Type := (string * list JSValue)%type.

(** [for (const rpcUrl of rpcUrls) { try { provider = ...; await
    provider.getNetwork(); providerConnected = true; break; } catch
    { continue; } }]: the endpoint that answered, if any. *)
Fixpoint connect_provider (rpcUrls : list string) : M JSObject (option string) :=
  match rpcUrls with
  | [] => ret None
  | rpcUrl :: rest =>
      connected <-
        try_catch
          (call (EvGetNetwork rpcUrl) (fun h => getNetwork net h rpcUrl) ;;
           ret true)
          (fun _ => ret false) ;;
      if connected then ret (Some rpcUrl) else connect_provider rest
  end.

(** The [catch (err)] of the whole body; five of its messages differ
    between the two files. *)
Definition evm_outer_catch (m_network m_timeout m_funds m_rate m_default : string)
    (err : JSError) : M JSObject Empty_set :=
  when code_is err "NETWORK_ERROR"
    then_return failure m_network "NETWORK_ERROR" ;;
  when code_is err "TIMEOUT"
    then_return failure m_timeout "TIMEOUT" ;;
  let errorMsg := err_message err in
  when includes errorMsg "insufficient funds"
    then_return failure m_funds "INSUFFICIENT_FUNDS" ;;
  when includes errorMsg "invalid address" || includes errorMsg "invalid contract"
    then_return failure "Invalid or non-existent contract address" "INVALID_CONTRACT" ;;
  when includes errorMsg "gas required exceeds allowance"
    then_return failure "Transaction requires more gas than available" "GAS_LIMIT_EXCEEDED" ;;
  when includes errorMsg "nonce"
    then_return failure "Transaction nonce error. Please try again." "NONCE_ERROR" ;;
  when includes errorMsg "429" || includes errorMsg "rate limit"
    then_return failure m_rate "RATE_LIMITED" ;;
  return_ (failure_details m_default "UNKNOWN_ERROR" (JString (err_message err))).

(** The confirmation wait, the same in both files. *)
Definition evm_confirm (provider txHash : string) : M JSObject Empty_set :=
  try_catch
    (receipt <- call (EvWait provider txHash confirmation_timeout_ms)
                     (fun h => race_timeout (wait net h provider txHash)) ;;
     when (rc_status receipt =? 0)
       then_return failure "Transaction failed during execution" "TRANSACTION_FAILED" ;;
     return_ [("success", JBool true);
              ("txHash", rc_transactionHash receipt);
              ("gasUsed", JString (BigInt_toString (rc_gasUsed receipt)));
              ("blockNumber", JInt (rc_blockNumber receipt))])
    (fun confirmError =>
       when includes (err_message confirmError) "timeout"
         then_return
           [("success", JBool false);
            ("msg", JString "Transaction sent but confirmation timed out. Check transaction status manually.");
            ("code", JString "CONFIRMATION_TIMEOUT");
            ("txHash", JString txHash)] ;;
       throw confirmError).

(** *** BASE *)

Definition base_rpcUrls : list string :=
  ["https://base.drpc.org/";
   "https://mainnet.base.org/";
   "https://base-mainnet.public.blastapi.io"].

(** The minimum balance, in wei.  The source tests
    [parseFloat(ethers.formatEther(balance)) < 0.001] on doubles;
    [formatEther] prints the exact quotient, rounding to the nearest double
    is monotone, and [0.001 - 1e-18] and [0.001] are more than one unit in
    the last place apart (2^-62 there), so that for an integer number of wei
    the test is [balance < 10^15]. *)
Definition base_min_balance : Z := ether / 1000.
Definition base_gasLimit : Z := 500000.
Definition base_gasPrice : Z := 20 * gwei.

Definition base_mintFunctions (wallet : string) (mintQuantity : JSValue)
    : list MintFunction :=
  [("mint", [mintQuantity]);
   ("publicMint", [mintQuantity]);
   ("mint", [JString wallet; mintQuantity]);
   ("mintTo", [JString wallet; mintQuantity])].

(** The loop over [mintFunctions]: the pair [(tx, lastError)] it leaves. *)
Fixpoint base_try_mint (provider : string) (contract : string -> bool)
    (fs : list MintFunction)
    (lastError : option JSError) : M JSObject (option string * option JSError) :=
  match fs with
  | [] => ret (None, lastError)
  | (name, args) :: rest =>
      if contract name then
        estimated <-
          try_catch
            (call (EvEstimateGas provider name args)
                  (fun h => estimateGas net h provider name args) ;;
             ret true)
            (fun gasError => ret false) ;;
        if estimated then
          sent <-
            try_catch
              (tx <- call (EvSend provider name args base_gasLimit base_gasPrice)
                          (fun h => sendTransaction net h provider name args
                                      base_gasLimit base_gasPrice) ;;
               ret (inl tx))
              (fun funcError => ret (inr funcError)) ;;
          match sent with
          | inl tx => ret (Some tx, lastError)
          | inr funcError => base_try_mint provider contract rest (Some funcError)
          end
        else base_try_mint provider contract rest lastError
      else base_try_mint provider contract rest lastError
  end.

Definition base_no_tx (lastError : option JSError) : JSObject :=
  let errorMsg := match lastError with
                  | Some e => err_message e
                  | None => ""
                  end in
  if includes errorMsg "insufficient funds" then
    failure "Insufficient funds for transaction + gas fees" "INSUFFICIENT_FUNDS"
  else if includes errorMsg "execution reverted" then
    let revertReason := match match_reason errorMsg with
                        | Some r => r
                        | None => "Unknown reason"
                        end in
    failure ("Transaction reverted: " ++ revertReason) "TRANSACTION_REVERTED"
  else if includes errorMsg "nonce too low" then
    failure "Transaction nonce error. Please try again." "NONCE_ERROR"
  else if includes errorMsg "replacement transaction underpriced" then
    failure "Gas price too low. Please try again with higher gas." "GAS_PRICE_LOW"
  else if includes errorMsg "intrinsic gas too low" then
    failure "Gas limit too low for this transaction" "GAS_LIMIT_LOW"
  else
    failure "No compatible mint function found or all mint attempts failed"
            "MINT_FUNCTION_FAILED".

(** What [mintBASE] does once [provider] is connected. *)
Definition base_after_connect (provider : string)
    (privateKey contractAddress mintQuantity : JSValue)
    : M JSObject Empty_set :=
  wallet <-
    try_catch
      (call (EvLocal "new ethers.Wallet") (fun _ => newWallet lib privateKey))
      (fun keyError =>
         return_ (failure "Invalid private key format" "INVALID_PRIVATE_KEY")) ;;
  try_catch
    (balance <- call (EvGetBalance provider wallet)
                     (fun h => getBalance net h provider wallet) ;;
     when (balance <? base_min_balance)
       then_return
         failure ("Insufficient balance. Current: " ++ etherFixed4 lib balance
                  ++ " ETH. Minimum required: 0.001 ETH")
                 "INSUFFICIENT_BALANCE" ;;
     ret tt)
    (fun balanceError =>
       return_ (failure "Failed to check wallet balance" "BALANCE_CHECK_FAILED")) ;;
  contract <-
    try_catch
      (call (EvLocal "new ethers.Contract") (fun _ => newContract lib contractAddress))
      (fun contractError =>
         return_ (failure "Failed to create contract instance"
                          "CONTRACT_INSTANCE_FAILED")) ;;
  try_catch
    (code <- call (EvGetCode provider contractAddress)
                  (fun h => getCode net h provider contractAddress) ;;
     when String.eqb code "0x"
       then_return failure "Contract not found at the provided address"
                           "CONTRACT_NOT_FOUND" ;;
     ret tt)
    (fun codeError =>
       return_ (failure "Failed to verify contract existence"
                        "CONTRACT_VERIFICATION_FAILED")) ;;
  minted <- base_try_mint provider contract
              (base_mintFunctions wallet mintQuantity) None ;;
  match minted with
  | (None, lastError) => return_ (base_no_tx lastError)
  | (Some txHash, _) => evm_confirm provider txHash
  end.

Definition mintBASE (input : JSObject) : AsyncFn JSObject :=
  let privateKey := get input "privateKey" in
  let contractAddress := get input "contractAddress" in
  let mintQuantity := get input "mintQuantity" in
  run (try_catch
    (when negb (ToBoolean privateKey)
       then_return failure "Private key is required" "MISSING_PRIVATE_KEY" ;;
     when negb (ToBoolean contractAddress)
       then_return failure "Contract address is required" "MISSING_CONTRACT_ADDRESS" ;;
     too_low <- attempt (falsy_or_lt host mintQuantity 1) ;;
     when too_low
       then_return failure "Mint quantity must be at least 1" "INVALID_QUANTITY" ;;
     when negb (isAddress lib contractAddress)
       then_return failure "Invalid contract address format" "INVALID_ADDRESS_FORMAT" ;;
     connected <- connect_provider base_rpcUrls ;;
     match connected with
     | None =>
         return_ (failure "Unable to connect to BASE network. All RPC endpoints are down."
                          "RPC_CONNECTION_FAILED")
     | Some provider =>
         base_after_connect provider privateKey contractAddress mintQuantity
     end)
    (evm_outer_catch
       "Network connection error. Please check your internet and try again."
       "Request timed out. Network might be congested."
       "Insufficient funds to cover transaction and gas fees"
       "Rate limited by RPC provider. Please try again in a moment."
       "Transaction failed. Please verify your inputs and try again.")).

(** *** BSC *)

Definition bsc_rpcUrls : list string :=
  ["https://bsc-dataseed.binance.org/";
   "https://bsc-dataseed1.defibit.io/";
   "https://bsc-dataseed1.ninicoin.io/";
   "https://bsc.drpc.org/"].

(** The minimum balance, in wei: [parseFloat(...) < 0.005], which for an
    integer number of wei is [balance < 5 * 10^15] ([0.005 - 1e-18] and
    [0.005] are more than one unit in the last place apart, 2^-60 there). *)
Definition bsc_min_balance : Z := 5 * (ether / 1000).
Definition bsc_gas_buffer : Z := 50000.
Definition bsc_fixed_gasLimit : Z := 300000.
Definition bsc_fallback_gasPrice : Z := 5 * gwei.

Definition bsc_mintFunctions (wallet : string) (mintQuantity : JSValue)
    : list MintFunction :=
  [("mint", [mintQuantity]);
   ("publicMint", [mintQuantity]);
   ("batchMint", [mintQuantity]);
   ("mint", [JString wallet; mintQuantity]);
   ("mintTo", [JString wallet; mintQuantity])].

(** [feeData.gasPrice || ethers.parseUnits("5", "gwei")]: [null] and [0n]
    are falsy. *)
Definition gasPrice_or_fallback (gasPrice : option Z) : Z :=
  match gasPrice with
  | Some p => if p =? 0 then bsc_fallback_gasPrice else p
  | None => bsc_fallback_gasPrice
  end.

Definition bsc_gasPrice (provider : string) : M JSObject Z :=
  try_catch
    (feeData <- call (EvGetFeeData provider) (fun h => getFeeData net h provider) ;;
     ret (gasPrice_or_fallback feeData))
    (fun gasPriceError => ret bsc_fallback_gasPrice).

Fixpoint bsc_try_mint (provider : string) (contract : string -> bool) (gasPrice : Z)
    (fs : list MintFunction) (lastError : option JSError)
    : M JSObject (option string * option JSError) :=
  match fs with
  | [] => ret (None, lastError)
  | (name, args) :: rest =>
      if contract name then
        estimated <-
          try_catch
            (gasEstimate <- call (EvEstimateGas provider name args)
                                 (fun h => estimateGas net h provider name args) ;;
             tx <- call (EvSend provider name args (gasEstimate + bsc_gas_buffer) gasPrice)
                        (fun h => sendTransaction net h provider name args
                                    (gasEstimate + bsc_gas_buffer) gasPrice) ;;
             ret (Some tx))
            (fun gasError => ret None) ;;
        match estimated with
        | Some tx => ret (Some tx, lastError)
        | None =>
            fixed <-
              try_catch
                (tx <- call (EvSend provider name args bsc_fixed_gasLimit gasPrice)
                            (fun h => sendTransaction net h provider name args
                                        bsc_fixed_gasLimit gasPrice) ;;
                 ret (inl tx))
                (fun fixedGasError => ret (inr fixedGasError)) ;;
            match fixed with
            | inl tx => ret (Some tx, lastError)
            | inr fixedGasError =>
                bsc_try_mint provider contract gasPrice rest (Some fixedGasError)
            end
        end
      else bsc_try_mint provider contract gasPrice rest lastError
  end.

Definition bsc_no_tx (lastError : option JSError) : JSObject :=
  let errorMsg := match lastError with
                  | Some e => err_message e
                  | None => ""
                  end in
  if includes errorMsg "insufficient funds" then
    failure "Insufficient BNB for transaction + gas fees" "INSUFFICIENT_FUNDS"
  else if includes errorMsg "execution reverted" then
    let revertReason := match match_reason errorMsg with
                        | Some r => r
                        | None => "Unknown reason"
                        end in
    failure ("Transaction reverted: " ++ revertReason) "TRANSACTION_REVERTED"
  else if includes errorMsg "nonce too low" then
    failure "Transaction nonce error. Please try again." "NONCE_ERROR"
  else if includes errorMsg "replacement transaction underpriced" then
    failure "Gas price too low. Please try again." "GAS_PRICE_LOW"
  else if includes errorMsg "intrinsic gas too low" then
    failure "Gas limit too low for this transaction" "GAS_LIMIT_LOW"
  else if includes errorMsg "max fee per gas less than block base fee" then
    failure "Gas fee too low for current network conditions" "GAS_FEE_TOO_LOW"
  else
    failure "No compatible mint function found or all mint attempts failed"
            "MINT_FUNCTION_FAILED".

(** What [mintBSC] does once [provider] is connected. *)
Definition bsc_after_connect (provider : string)
    (privateKey contractAddress mintQuantity : JSValue)
    : M JSObject Empty_set :=
  wallet <-
    try_catch
      (call (EvLocal "new ethers.Wallet") (fun _ => newWallet lib privateKey))
      (fun keyError =>
         return_ (failure "Invalid private key format" "INVALID_PRIVATE_KEY")) ;;
  try_catch
    (balance <- call (EvGetBalance provider wallet)
                     (fun h => getBalance net h provider wallet) ;;
     when (balance <? bsc_min_balance)
       then_return
         failure ("Insufficient BNB balance. Current: " ++ etherFixed4 lib balance
                  ++ " BNB. Minimum required: 0.005 BNB")
                 "INSUFFICIENT_BALANCE" ;;
     ret tt)
    (fun balanceError =>
       return_ (failure "Failed to check wallet balance" "BALANCE_CHECK_FAILED")) ;;
  contract <-
    try_catch
      (call (EvLocal "new ethers.Contract") (fun _ => newContract lib contractAddress))
      (fun contractError =>
         return_ (failure "Failed to create contract instance"
                          "CONTRACT_INSTANCE_FAILED")) ;;
  try_catch
    (code <- call (EvGetCode provider contractAddress)
                  (fun h => getCode net h provider contractAddress) ;;
     when String.eqb code "0x"
       then_return failure "Contract not found at the provided address"
                           "CONTRACT_NOT_FOUND" ;;
     ret tt)
    (fun codeError =>
       return_ (failure "Failed to verify contract existence"
                        "CONTRACT_VERIFICATION_FAILED")) ;;
  gasPrice <- bsc_gasPrice provider ;;
  minted <- bsc_try_mint provider contract gasPrice
              (bsc_mintFunctions wallet mintQuantity) None ;;
  match minted with
  | (None, lastError) => return_ (bsc_no_tx lastError)
  | (Some txHash, _) => evm_confirm provider txHash
  end.

Definition mintBSC (input : JSObject) : AsyncFn JSObject :=
  let privateKey := get input "privateKey" in
  let contractAddress := get input "contractAddress" in
  let mintQuantity := get input "mintQuantity" in
  run (try_catch
    (when negb (ToBoolean privateKey)
       then_return failure "Private key is required" "MISSING_PRIVATE_KEY" ;;
     when negb (ToBoolean contractAddress)
       then_return failure "Contract address is required" "MISSING_CONTRACT_ADDRESS" ;;
     too_low <- attempt (falsy_or_lt host mintQuantity 1) ;;
     when too_low
       then_return failure "Mint quantity must be at least 1" "INVALID_QUANTITY" ;;
     when negb (isAddress lib contractAddress)
       then_return failure "Invalid contract address format" "INVALID_ADDRESS_FORMAT" ;;
     connected <- connect_provider bsc_rpcUrls ;;
     match connected with
     | None =>
         return_ (failure "Unable to connect to BSC network. All RPC endpoints are down."
                          "RPC_CONNECTION_FAILED")
     | Some provider =>
         bsc_after_connect provider privateKey contractAddress mintQuantity
     end)
    (evm_outer_catch
       "BSC network connection error. Please try again."
       "Request timed out. BSC network might be congested."
       "Insufficient BNB to cover transaction and gas fees"
       "Rate limited by BSC RPC provider. Please try again in a moment."
       "BSC transaction failed. Please verify your inputs and try again.")).

End EVM.

(** ** The Solana executor: [services/mintSOL.js] *)

(** @solana/web3.js, @solana/spl-token, bs58 and [JSON.parse]: what computes
    locally.  Keys and accounts are written in base58. *)
Record SolanaLib : Type := mkSolanaLib {
  (* new Uint8Array(JSON.parse(privateKey)) *)
  JSON_parse_bytes : string -> Attempt (list Z);
  bs58_decode : string -> Attempt (list Z);
  (* Keypair.fromSecretKey(secretKey): the public key *)
  Keypair_fromSecretKey : list Z -> Attempt string;
  (* new PublicKey(contractAddress) *)
  newPublicKey : JSValue -> Attempt string;
  getAssociatedTokenAddress : string -> string -> Attempt string;
  createAssociatedTokenAccountInstruction : string -> string -> string -> Attempt unit;
  createMintToInstruction : string -> string -> string -> JSValue -> Attempt unit;
  (* transaction.sign(keypair) and transaction.serialize() *)
  sign_and_serialize : string -> Attempt unit;
  (* (balance / LAMPORTS_PER_SOL).toFixed(4), balance in lamports *)
  solFixed4 : Z -> string
}.

Record AccountInfo : Type := mkAccountInfo {
  ai_owner : string
}.

Record SolanaNetwork : Type := mkSolanaNetwork {
  getVersion : History -> string -> Attempt unit;
  sol_getBalance : History -> string -> string -> Attempt Z;
  (* None for null *)
  getAccountInfo : History -> string -> string -> Attempt (option AccountInfo);
  (* blockhash and lastValidBlockHeight *)
  getLatestBlockhash : History -> string -> Attempt (string * Z);
  (* the signature *)
  sendRawTransaction : History -> string -> Attempt string;
  (* confirmation.value.err *)
  confirmTransaction : History -> string -> string -> Settled JSValue
}.

Definition LAMPORTS_PER_SOL : Z := 1000000000.
Definition TOKEN_PROGRAM_ID : string := "TokenkegQfeZyiNwAJbNbGKPFXCWuBvf9Ss623VQ5DA".

(** [Buffer.from(s, 'hex')]: pairs of hex digits, up to the first pair that
    is not one. *)
Definition hex_digit (c : ascii) : option Z :=
  let n := Z.of_nat (nat_of_ascii c) in
  if (48 <=? n) && (n <=? 57) then Some (n - 48)
  else if (97 <=? n) && (n <=? 102) then Some (n - 87)
  else if (65 <=? n) && (n <=? 70) then Some (n - 55)
  else None.

Fixpoint Buffer_from_hex (s : string) : list Z :=
  match s with
  | String a (String b rest) =>
      match hex_digit a, hex_digit b with
      | Some x, Some y => (16 * x + y) :: Buffer_from_hex rest
      | _, _ => []
      end
  | _ => []
  end.

Definition startsWith (s : string) (c : ascii) : bool :=
  match s with
  | String a _ => Ascii.eqb a c
  | EmptyString => false
  end.

Fixpoint endsWith (s : string) (c : ascii) : bool :=
  match s with
  | EmptyString => false
  | String a EmptyString => Ascii.eqb a c
  | String _ s' => endsWith s' c
  end.

Definition str_length (s : string) : Z := Z.of_nat (String.length s).

Section SOL.

Variable host : Host.
Variable lib : SolanaLib.
Variable net : SolanaNetwork.

Definition sol_rpcUrls : list string :=
  ["https://api.mainnet-beta.solana.com";
   "https://solana-api.projectserum.com";
   "https://rpc.ankr.com/solana";
   "https://solana.drpc.org"].

(** The minimum balance, in lamports: [balance / LAMPORTS_PER_SOL < 0.01]
    on doubles, which for an integer number of lamports is
    [balance < 10^7] (the division is correctly rounded and monotone, and
    [10^7 / 10^9] rounds to the double that the literal 0.01 denotes). *)
Definition sol_min_balance : Z := LAMPORTS_PER_SOL / 100.
Definition sol_maxRetries : Z := 3.

Fixpoint connect_solana (rpcUrls : list string) : M JSObject (option string) :=
  match rpcUrls with
  | [] => ret None
  | rpcUrl :: rest =>
      connected <-
        try_catch
          (call (EvGetVersion rpcUrl) (fun h => getVersion net h rpcUrl) ;;
           ret true)
          (fun rpcError => ret false) ;;
      if connected then ret (Some rpcUrl) else connect_solana rest
  end.

(** The [try] block that turns [privateKey] into a keypair. *)
Definition sol_keypair (privateKey : JSValue) : M JSObject string :=
  try_catch
    (match privateKey with
     | JString s =>
         secretKey <-
           (if startsWith s "["%char && endsWith s "]"%char then
              call (EvLocal "JSON.parse") (fun _ => JSON_parse_bytes lib s)
            else if str_length s =? 128 then
              ret (Buffer_from_hex s)
            else if str_length s =? 88 then
              call (EvLocal "bs58.decode") (fun _ => bs58_decode lib s)
            else
              return_ (failure "Invalid private key format. Use base58, hex, or array format."
                               "INVALID_PRIVATE_KEY_FORMAT")) ;;
         when negb (Z.of_nat (List.length secretKey) =? 64)
           then_return failure "Private key must be 64 bytes long"
                               "INVALID_PRIVATE_KEY_LENGTH" ;;
         call (EvLocal "Keypair.fromSecretKey")
              (fun _ => Keypair_fromSecretKey lib secretKey)
     | _ => throw (TypeError "privateKey.startsWith is not a function")
     end)
    (fun keyError =>
       return_ (failure "Invalid private key format or corrupted key"
                        "INVALID_PRIVATE_KEY")).

Definition sol_transaction_catch (transactionError : JSError) : M JSObject Empty_set :=
  let errorMsg := err_message transactionError in
  when includes errorMsg "insufficient funds"
    then_return failure "Insufficient SOL for transaction fees" "INSUFFICIENT_FUNDS" ;;
  when includes errorMsg "custom program error: 0x1"
    then_return failure "Insufficient funds in mint account" "MINT_INSUFFICIENT_FUNDS" ;;
  when includes errorMsg "custom program error: 0x0"
    then_return failure "Mint authority error - you don't have permission to mint"
                        "MINT_AUTHORITY_ERROR" ;;
  when includes errorMsg "InvalidAccountData"
    then_return failure "Invalid account data - contract address may be incorrect"
                        "INVALID_ACCOUNT_DATA" ;;
  when includes errorMsg "AccountNotFound"
    then_return failure "Account not found - invalid contract address"
                        "ACCOUNT_NOT_FOUND" ;;
  when includes errorMsg "timeout"
    then_return failure "Transaction timed out. It may still be processing."
                        "TRANSACTION_TIMEOUT" ;;
  when includes errorMsg "blockhash not found"
    then_return failure "Transaction expired. Please try again." "BLOCKHASH_EXPIRED" ;;
  return_ (failure_details
             "Solana transaction failed. Please verify contract address and try again."
             "TRANSACTION_ERROR" (JString errorMsg)).

Definition sol_transaction (connection keypair mintPublicKey : string)
    (mintQuantity : JSValue) : M JSObject Empty_set :=
  try_catch
    (associatedTokenAccount <-
       call (EvLocal "getAssociatedTokenAddress")
            (fun _ => getAssociatedTokenAddress lib mintPublicKey keypair) ;;
     accountInfo <-
       call (EvGetAccountInfo connection associatedTokenAccount)
            (fun h => getAccountInfo net h connection associatedTokenAccount) ;;
     (match accountInfo with
      | None =>
          call (EvLocal "createAssociatedTokenAccountInstruction")
               (fun _ => createAssociatedTokenAccountInstruction lib
                           keypair associatedTokenAccount mintPublicKey)
      | Some _ => ret tt
      end) ;;
     call (EvLocal "createMintToInstruction")
          (fun _ => createMintToInstruction lib
                      mintPublicKey associatedTokenAccount keypair mintQuantity) ;;
     latest <- call (EvGetLatestBlockhash connection)
                    (fun h => getLatestBlockhash net h connection) ;;
     call (EvLocal "transaction.sign") (fun _ => sign_and_serialize lib keypair) ;;
     signature <- call (EvSendRawTransaction connection sol_maxRetries)
                       (fun h => sendRawTransaction net h connection) ;;
     confirmation_err <-
       call (EvConfirmTransaction connection signature confirmation_timeout_ms)
            (fun h => race_timeout (confirmTransaction net h connection signature)) ;;
     when ToBoolean confirmation_err
       then_return
         [("success", JBool false);
          ("msg", JString ("Transaction failed: " ++ JSON_stringify host confirmation_err));
          ("code", JString "TRANSACTION_FAILED");
          ("signature", JString signature)] ;;
     return_ [("success", JBool true);
              ("txHash", JString signature);
              ("associatedTokenAccount", JString associatedTokenAccount)])
    sol_transaction_catch.

Definition sol_outer_catch (err : JSError) : M JSObject Empty_set :=
  when code_is err "ENOTFOUND" || code_is err "ECONNREFUSED"
    then_return failure "Network connection error. Please check your internet."
                        "NETWORK_ERROR" ;;
  when code_is err "TIMEOUT"
    then_return failure "Solana network request timed out. Please try again." "TIMEOUT" ;;
  when includes (err_message err) "429" || includes (err_message err) "rate limit"
    then_return failure "Rate limited by Solana RPC. Please try again in a moment."
                        "RATE_LIMITED" ;;
  return_ (failure_details
             "Solana minting failed. Please verify your inputs and try again."
             "UNKNOWN_ERROR" (JString (err_message err))).

(** What [mintSOL] does once [connection] is established. *)
Definition sol_after_connect (connection : string)
    (privateKey contractAddress mintQuantity : JSValue)
    : M JSObject Empty_set :=
  keypair <- sol_keypair privateKey ;;
  mintPublicKey <-
    try_catch
      (call (EvLocal "new PublicKey") (fun _ => newPublicKey lib contractAddress))
      (fun addressError =>
         return_ (failure "Invalid Solana contract address format"
                          "INVALID_ADDRESS_FORMAT")) ;;
  try_catch
    (balance <- call (EvSolGetBalance connection keypair)
                     (fun h => sol_getBalance net h connection keypair) ;;
     when (balance <? sol_min_balance)
       then_return
         failure ("Insufficient SOL balance. Current: " ++ solFixed4 lib balance
                  ++ " SOL. Minimum required: 0.01 SOL")
                 "INSUFFICIENT_BALANCE" ;;
     ret tt)
    (fun balanceError =>
       return_ (failure "Failed to check wallet balance" "BALANCE_CHECK_FAILED")) ;;
  try_catch
    (mintInfo <- call (EvGetAccountInfo connection mintPublicKey)
                      (fun h => getAccountInfo net h connection mintPublicKey) ;;
     match mintInfo with
     | None =>
         return_ (failure "Mint account not found. Invalid contract address."
                          "MINT_NOT_FOUND")
     | Some info =>
         when negb (String.eqb (ai_owner info) TOKEN_PROGRAM_ID)
           then_return failure "Provided address is not a valid SPL token mint"
                               "INVALID_MINT_ACCOUNT" ;;
         ret tt
     end)
    (fun mintError =>
       return_ (failure "Failed to verify mint account" "MINT_VERIFICATION_FAILED")) ;;
  sol_transaction connection keypair mintPublicKey mintQuantity.

Definition mintSOL (input : JSObject) : AsyncFn JSObject :=
  let privateKey := get input "privateKey" in
  let contractAddress := get input "contractAddress" in
  let mintQuantity := get input "mintQuantity" in
  run (try_catch
    (when negb (ToBoolean privateKey)
       then_return failure "Private key is required" "MISSING_PRIVATE_KEY" ;;
     when negb (ToBoolean contractAddress)
       then_return failure "Contract address (Mint Address) is required"
                           "MISSING_CONTRACT_ADDRESS" ;;
     too_low <- attempt (falsy_or_lt host mintQuantity 1) ;;
     when too_low
       then_return failure "Mint quantity must be at least 1" "INVALID_QUANTITY" ;;
     connected <- connect_solana sol_rpcUrls ;;
     match connected with
     | None =>
         return_ (failure "Unable to connect to Solana network. All RPC endpoints are down."
                          "RPC_CONNECTION_FAILED")
     | Some connection =>
         sol_after_connect connection privateKey contractAddress mintQuantity
     end)
    sol_outer_catch).

End SOL.

(** ** The SUI executor: [services/mintSUI.js] *)

(** [process.env]. *)
Record Env : Type := mkEnv {
  INDEXER_ENDPOINT : option string;
  TRADEPORT_API_USER : option string;
  TRADEPORT_API_KEY : option string
}.

(** An unset or empty variable is falsy. *)
Definition env_set (v : option string) : bool :=
  match v with
  | Some s => negb (String.eqb s "")
  | None => false
  end.

Record AxiosResponse : Type := mkAxiosResponse {
  ax_status : Z;
  ax_data : JSValue
}.

(** The indexer: the answer to the n-th attempt of the request. *)
Record Indexer : Type := mkIndexer {
  axios : History -> Z -> Attempt AxiosResponse
}.

(** [/^[a-fA-F0-9]+$/]. *)
Fixpoint all_hex (s : string) : bool :=
  match s with
  | EmptyString => true
  | String c s' =>
      match hex_digit c with
      | Some _ => all_hex s'
      | None => false
      end
  end.

Definition is_hex_id (s : string) : bool :=
  negb (String.eqb s "") && all_hex s.

(** [collectionId.match(re)], as far as its truth value. *)
Definition callMatch (collectionId : JSValue) : Attempt bool :=
  match collectionId with
  | JString s => Ok (is_hex_id s)
  | JUndefined =>
      Thrown (TypeError "Cannot read properties of undefined (reading 'match')")
  | JNull =>
      Thrown (TypeError "Cannot read properties of null (reading 'match')")
  | _ => Thrown (TypeError "collectionId.match is not a function")
  end.

(** [v?.k]. *)
Definition getPropOpt (v : JSValue) (k : string) : Attempt JSValue :=
  match v with
  | JUndefined | JNull => Ok JUndefined
  | _ => getProp v k
  end.

(** [v || d]. *)
Definition js_or (v d : JSValue) : JSValue :=
  if ToBoolean v then v else d.

(** Decimal digits of an integer, as a template literal prints it. *)
Definition decimal (z : Z) : string :=
  DecimalString.NilZero.string_of_int (Z.to_int z).

Section SUI.

Variable host : Host.
Variable env : Env.
Variable indexer : Indexer.

Definition sui_maxRetries : Z := 3.
Definition sui_timeout_ms : Z := 300000.

(** The retry loop, from [attempt] up: the pair [(response, lastError)] it
    leaves. *)
Fixpoint sui_request (attempts : list Z) (lastError : option JSError)
    : M JSObject (option AxiosResponse * option JSError) :=
  match attempts with
  | [] => ret (None, lastError)
  | n :: rest =>
      answered <-
        try_catch
          (response <- call (EvAxios n sui_timeout_ms) (fun h => axios indexer h n) ;;
           ret (inl response))
          (fun networkError => ret (inr networkError)) ;;
      match answered with
      | inl response => ret (Some response, lastError)
      | inr networkError =>
          (if n =? sui_maxRetries then
             when code_is networkError "ECONNABORTED"
               then_return failure "Request timed out. SUI network might be congested."
                                   "REQUEST_TIMEOUT" ;;
             when code_is networkError "ENOTFOUND"
               then_return
                 failure "Cannot reach SUI indexer endpoint. Check network connection."
                         "NETWORK_UNREACHABLE" ;;
             when code_is networkError "ECONNREFUSED"
               then_return failure "SUI indexer endpoint refused connection."
                                   "CONNECTION_REFUSED" ;;
             ret tt
           else
             call (EvSleep (1000 * n)) (fun _ => Ok tt)) ;;
          sui_request rest (Some networkError)
      end
  end.

Definition sui_http_error (response : AxiosResponse) : JSObject :=
  if ax_status response =? 401 then
    failure "Invalid API credentials" "INVALID_CREDENTIALS"
  else if ax_status response =? 403 then
    failure "Access forbidden. Check API permissions." "ACCESS_FORBIDDEN"
  else if ax_status response =? 404 then
    failure "SUI indexer endpoint not found" "ENDPOINT_NOT_FOUND"
  else if ax_status response =? 429 then
    failure "Rate limited by SUI API. Please try again later." "RATE_LIMITED"
  else
    failure_details ("SUI API error: HTTP " ++ decimal (ax_status response))
                    "HTTP_ERROR" (ax_data response).

(** The branch taken when [response.data.errors] is a non-empty list. *)
Definition sui_graphql_error (errors : JSValue) : M JSObject Empty_set :=
  error <- attempt (getProp errors "0") ;;
  message <- attempt (getProp error "message") ;;
  insufficient <- attempt (callIncludes "error.message" message "insufficient") ;;
  when insufficient
    then_return failure_details "Insufficient balance for minting"
                                "INSUFFICIENT_BALANCE" message ;;
  not_found <- attempt (callIncludes "error.message" message "not found") ;;
  when not_found
    then_return failure_details "Collection not found or invalid collection ID"
                                "COLLECTION_NOT_FOUND" message ;;
  unauthorized <- attempt (callIncludes "error.message" message "unauthorized") ;;
  when unauthorized
    then_return failure_details "Unauthorized to mint from this collection"
                                "MINT_UNAUTHORIZED" message ;;
  sold_out <- attempt (callIncludes "error.message" message "sold out") ;;
  exceeds <- (if sold_out then ret true
              else attempt (callIncludes "error.message" message "exceeds")) ;;
  when exceeds
    then_return failure_details "Mint quantity exceeds available supply"
                                "MINT_SOLD_OUT" message ;;
  not_active <- attempt (callIncludes "error.message" message "not active") ;;
  when not_active
    then_return failure_details "Mint stage is not currently active"
                                "MINT_STAGE_INACTIVE" message ;;
  return_ (failure_details "GraphQL error occurred" "GRAPHQL_ERROR" message).

(** What follows the retry loop once a response is there. *)
Definition sui_interpret (response : AxiosResponse)
    (mintQuantity collectionId : JSValue) : M JSObject Empty_set :=
  when (400 <=? ax_status response) then_return sui_http_error response ;;
  let data := ax_data response in
  when negb (ToBoolean data)
    then_return failure "Empty response from SUI API" "EMPTY_RESPONSE" ;;
  errors <- attempt (getProp data "errors") ;;
  has_errors <-
    (if ToBoolean errors then
       len <- attempt (getProp errors "length") ;;
       attempt (js_gt host len 0)
     else ret false) ;;
  if has_errors then sui_graphql_error errors
  else
    data_data <- attempt (getProp data "data") ;;
    mintNFT <- (if ToBoolean data_data then attempt (getProp data_data "mintNFT")
                else ret JUndefined) ;;
    when negb (ToBoolean data_data) || negb (ToBoolean mintNFT)
      then_return failure "Invalid response structure from SUI API"
                          "INVALID_RESPONSE_STRUCTURE" ;;
    let mintResult := mintNFT in
    succeeded <- attempt (getProp mintResult "success") ;;
    if negb (ToBoolean succeeded) then
      mint_error <- attempt (getProp mintResult "error") ;;
      error_message <- attempt (getPropOpt mint_error "message") ;;
      let errorMsg := js_or error_message (JString "Unknown mint error") in
      error_code <- attempt (getPropOpt mint_error "code") ;;
      let errorCode := js_or error_code (JString "MINT_FAILED") in
      errorText <- attempt (ToString host errorMsg) ;;
      return_ [("success", JBool false);
               ("msg", JString ("Mint failed: " ++ errorText));
               ("code", errorCode);
               ("details", mint_error)]
    else
      digest <- attempt (getProp mintResult "transactionBlockDigest") ;;
      if ToBoolean digest then
        (* the digest is printed in a template literal by [console.log] *)
        attempt (ToString host digest) ;;
        quantityText <- attempt (ToString host mintQuantity) ;;
        return_ [("success", JBool true);
                 ("msg", JString ("Successfully minted " ++ quantityText
                                  ++ " NFT(s)"));
                 ("code", JString "MINT_SUCCESS");
                 ("transactionHash", digest);
                 ("quantity", mintQuantity);
                 ("collectionId", collectionId)]
      else
        return_ (failure "Mint completed but no transaction hash returned"
                         "MISSING_TRANSACTION_HASH").

Definition sui_outer_catch (error : JSError) : M JSObject Empty_set :=
  if String.eqb (err_name error) "ValidationError" then
    return_ (failure_details "Validation error occurred" "VALIDATION_ERROR"
                             (JString (err_message error)))
  else if String.eqb (err_name error) "TypeError" then
    return_ (failure_details "Type error in request" "TYPE_ERROR"
                             (JString (err_message error)))
  else
    return_ (failure_details "An unexpected error occurred during minting"
                             "UNEXPECTED_ERROR" (JString (err_message error))).

Definition mintSUI (input : JSObject) : AsyncFn JSObject :=
  let privateKey := get input "privateKey" in
  let collectionId := get input "collectionId" in
  let mintQuantity := get input "mintQuantity" in
  let mintStage := get input "mintStage" in
  run (try_catch
    (when negb (ToBoolean privateKey)
       then_return failure "Private key is required" "MISSING_PRIVATE_KEY" ;;
     when negb (ToBoolean collectionId)
       then_return failure "Collection ID is required" "MISSING_COLLECTION_ID" ;;
     when negb (ToBoolean mintStage)
       then_return failure "Mint stage is required" "MISSING_MINT_STAGE" ;;
     too_low <- attempt (falsy_or_lt host mintQuantity 1) ;;
     when too_low
       then_return failure "Mint quantity must be at least 1" "INVALID_QUANTITY" ;;
     too_high <- attempt (js_gt host mintQuantity 100) ;;
     when too_high
       then_return failure "Mint quantity cannot exceed 100" "QUANTITY_TOO_HIGH" ;;
     key_length <- attempt (getProp privateKey "length") ;;
     too_short <- attempt (js_lt host key_length 32) ;;
     when too_short
       then_return failure "Private key appears to be too short"
                           "INVALID_PRIVATE_KEY_LENGTH" ;;
     matched <- attempt (callMatch collectionId) ;;
     when negb matched
       then_return failure "Invalid collection ID format" "INVALID_COLLECTION_ID_FORMAT" ;;
     when negb (env_set (INDEXER_ENDPOINT env))
       then_return failure "SUI indexer endpoint not configured"
                           "MISSING_INDEXER_ENDPOINT" ;;
     when negb (env_set (TRADEPORT_API_USER env)) || negb (env_set (TRADEPORT_API_KEY env))
       then_return failure "TradePort API credentials not configured"
                           "MISSING_API_CREDENTIALS" ;;
     (* [parseInt(mintQuantity)], in the variables of the request *)
     attempt (ToString host mintQuantity) ;;
     requested <- sui_request [1; 2; 3] None ;;
     match requested with
     | (None, lastError) =>
         return_ (failure_details
                    "Failed to connect to SUI network after multiple attempts"
                    "CONNECTION_FAILED"
                    (match lastError with
                     | Some e => JString (err_message e)
                     | None => JUndefined
                     end))
     | (Some response, _) => sui_interpret response mintQuantity collectionId
     end)
    sui_outer_catch).

End SUI.

(** ** An instance of the built-ins, to run the model

    Enough of the engine to evaluate the model on ASCII text and on integer
    literals: the case mapping of the letters a-z, ToNumber on blank-trimmed
    decimal integers (everything else reads as [NaN] here, which is what the
    engine gives for text that holds no numeric literal), printing of
    integers.  The theorems below are stated for every [Host]. *)

Definition ascii_upper (c : ascii) : ascii :=
  let n := nat_of_ascii c in
  if (97 <=? n)%nat && (n <=? 122)%nat then ascii_of_nat (n - 32) else c.

Fixpoint ascii_toUpperCase (s : string) : string :=
  match s with
  | EmptyString => EmptyString
  | String c s' => String (ascii_upper c) (ascii_toUpperCase s')
  end.

Definition is_blank (c : ascii) : bool :=
  let n := nat_of_ascii c in
  ((9 <=? n)%nat && (n <=? 13)%nat) || (n =? 32)%nat.

Fixpoint trim_left (s : string) : string :=
  match s with
  | String c s' => if is_blank c then trim_left s' else s
  | EmptyString => EmptyString
  end.

Fixpoint string_rev (acc s : string) : string :=
  match s with
  | EmptyString => acc
  | String c s' => string_rev (String c acc) s'
  end.

Definition trim (s : string) : string :=
  string_rev "" (trim_left (string_rev "" (trim_left s))).

Fixpoint digits_value (acc : Z) (s : string) : option Z :=
  match s with
  | EmptyString => Some acc
  | String c s' =>
      let n := Z.of_nat (nat_of_ascii c) in
      if (48 <=? n) && (n <=? 57) then digits_value (10 * acc + (n - 48)) s'
      else None
  end.

Definition unsigned_value (s : string) : option Z :=
  match s with
  | EmptyString => None
  | _ => digits_value 0 s
  end.

Definition integer_StringToNumber (s : string) : JSNumber :=
  match trim s with
  | EmptyString => Fin 0
  | String c s' as t =>
      let parsed :=
        if Ascii.eqb c "-"%char then option_map Z.opp (unsigned_value s')
        else if Ascii.eqb c "+"%char then unsigned_value s'
        else unsigned_value t in
      match parsed with
      | Some z => Fin (inject_Z z)
      | None => NaN
      end
  end.

Definition integer_NumberToString (n : JSNumber) : string :=
  match n with
  | NaN => "NaN"
  | Inf true => "Infinity"
  | Inf false => "-Infinity"
  | Fin q => decimal (Qnum q / Zpos (Qden q))
  end.

Definition quote : string := String (ascii_of_nat 34) EmptyString.

Fixpoint plain_stringify (v : JSValue) : string :=
  match v with
  | JUndefined => "undefined"
  | JNull => "null"
  | JBool true => "true"
  | JBool false => "false"
  | JNumber n => integer_NumberToString n
  | JString s => quote ++ s ++ quote
  | JArray l =>
      "[" ++
      (fix items (l : list JSValue) : string :=
         match l with
         | [] => ""
         | [x] => plain_stringify x
         | x :: r => plain_stringify x ++ "," ++ items r
         end) l ++ "]"
  | JObject o =>
      "{" ++
      (fix fields (o : list (string * JSValue)) : string :=
         match o with
         | [] => ""
         | [(k, x)] => quote ++ k ++ quote ++ ":" ++ plain_stringify x
         | (k, x) :: r => quote ++ k ++ quote ++ ":" ++ plain_stringify x ++ "," ++ fields r
         end) o ++ "}"
  end.

Definition example_host : Host :=
  mkHost ascii_toUpperCase integer_StringToNumber integer_NumberToString plain_stringify.


(** ** Mocks, to run the executors

    Scripted collaborators in the manner of the test doubles the executors
    are exercised with: they answer from a fixed script and ignore the log. *)

(** A number of smallest units printed with four decimals, the exact
    quotient rounded half up. *)
Definition pad4 (s : string) : string :=
  match String.length s with
  | 1%nat => "000" ++ s
  | 2%nat => "00" ++ s
  | 3%nat => "0" ++ s
  | _ => s
  end.

Definition fixed4 (units_per_coin amount : Z) : string :=
  let n := (2 * amount * 10000 + units_per_coin) / (2 * units_per_coin) in
  decimal (n / 10000) ++ "." ++ pad4 (decimal (n mod 10000)).

Definition refused : JSError :=
  mkError "Error" "connect ECONNREFUSED" (Some "ECONNREFUSED").

Definition mock_ethers (exposed : string -> bool) : Ethers :=
  mkEthers
    (fun address => match address with
                    | JString s => String.prefix "0x" s && (str_length s =? 42)
                    | _ => false
                    end)
    (fun privateKey => match privateKey with
                       | JString s =>
                           if str_length s =? 64 then Ok "0xWALLET"
                           else Thrown (TypeError "invalid private key")
                       | _ => Thrown (TypeError "invalid private key")
                       end)
    (fun _ => Ok exposed)
    (fixed4 ether).

Definition scripted_evm (live : string -> bool) (balance : Z)
    (feeData : Attempt (option Z))
    (estimate : string -> list JSValue -> Attempt Z)
    (send : string -> list JSValue -> Z -> Attempt string)
    (waited : Settled Receipt) : EvmNetwork :=
  mkEvmNetwork
    (fun _ rpcUrl => if live rpcUrl then Ok tt else Thrown refused)
    (fun _ _ _ => Ok balance)
    (fun _ _ _ => Ok "0x6080")
    (fun _ _ => feeData)
    (fun _ _ name args => estimate name args)
    (fun _ _ name args gasLimit _ => send name args gasLimit)
    (fun _ _ _ => waited).

Definition offline_evm : EvmNetwork :=
  scripted_evm (fun _ => false) 0 (Thrown refused)
    (fun _ _ => Thrown refused) (fun _ _ _ => Thrown refused) Pending.

Definition mock_solana (parsed : Attempt (list Z)) : SolanaLib :=
  mkSolanaLib
    (fun _ => parsed)
    (fun _ => parsed)
    (fun _ => Ok "OWNER")
    (fun address => match address with
                    | JString s => Ok s
                    | _ => Thrown (Error "Invalid public key input")
                    end)
    (fun _ _ => Ok "ATA")
    (fun _ _ _ => Ok tt)
    (fun _ _ _ _ => Ok tt)
    (fun _ => Ok tt)
    (fixed4 LAMPORTS_PER_SOL).

(** [new Uint8Array(JSON.parse(s))] on the text of an array of numbers
    written without spaces, signs, fractions or exponents: the decimal
    numbers between '[' and ']', separated by commas, each reduced modulo
    256.  [JSON.parse] throws on a number with a leading zero, on an empty
    item and on a trailing comma; this parser answers any other text with a
    syntax error as well. *)
Definition digit_value (c : ascii) : option Z :=
  let n := Z.of_nat (nat_of_ascii c) in
  if (48 <=? n) && (n <=? 57) then Some (n - 48) else None.

Definition unexpected_token : JSError := SyntaxError "Unexpected token in JSON".

Fixpoint parse_items (s : string) (current : option Z) (parsed : list Z)
    : Attempt (list Z) :=
  match s with
  | EmptyString => Thrown (SyntaxError "Unexpected end of JSON input")
  | String c rest =>
      match digit_value c, current with
      | Some d, None => parse_items rest (Some d) parsed
      | Some d, Some 0 => Thrown unexpected_token
      | Some d, Some n => parse_items rest (Some (10 * n + d)) parsed
      | None, _ =>
          if Ascii.eqb c ","%char then
            match current with
            | Some n => parse_items rest None (n mod 256 :: parsed)
            | None => Thrown unexpected_token
            end
          else if Ascii.eqb c "]"%char then
            match rest, current, parsed with
            | EmptyString, Some n, _ => Ok (rev (n mod 256 :: parsed))
            | EmptyString, None, [] => Ok []
            | _, _, _ => Thrown unexpected_token
            end
          else Thrown unexpected_token
      end
  end.

Definition parse_byte_array (s : string) : Attempt (list Z) :=
  match s with
  | String c rest =>
      if Ascii.eqb c "["%char then parse_items rest None [] else Thrown unexpected_token
  | EmptyString => Thrown (SyntaxError "Unexpected end of JSON input")
  end.

(** The library of [mock_solana] with the array encoding really parsed; no
    text is accepted as base58. *)
Definition parsing_solana : SolanaLib :=
  mkSolanaLib
    parse_byte_array
    (fun _ => Thrown (Error "Non-base58 character"))
    (fun _ => Ok "OWNER")
    (fun address => match address with
                    | JString s => Ok s
                    | _ => Thrown (Error "Invalid public key input")
                    end)
    (fun _ _ => Ok "ATA")
    (fun _ _ _ => Ok tt)
    (fun _ _ _ _ => Ok tt)
    (fun _ => Ok tt)
    (fixed4 LAMPORTS_PER_SOL).

Definition scripted_solana (live : string -> bool) (balance : Z)
    (confirmed : Settled JSValue) : SolanaNetwork :=
  mkSolanaNetwork
    (fun _ rpcUrl => if live rpcUrl then Ok tt else Thrown refused)
    (fun _ _ _ => Ok balance)
    (fun _ _ account =>
       if String.eqb account "ATA" then Ok None
       else Ok (Some (mkAccountInfo TOKEN_PROGRAM_ID)))
    (fun _ _ => Ok ("BLOCKHASH", 1000))
    (fun _ _ => Ok "SIGNATURE")
    (fun _ _ _ => confirmed).

Definition example_env : Env :=
  mkEnv (Some "https://indexer.example/graphql") (Some "user") (Some "key").

Definition scripted_indexer (answers : Z -> Attempt AxiosResponse) : Indexer :=
  mkIndexer (fun _ n => answers n).

Definition offline_indexer : Indexer :=
  scripted_indexer (fun _ => Thrown refused).

(** The controller with the three executors it requires. *)
Definition controller (host : Host) (env : Env) (indexer : Indexer)
    (ethers : Ethers) (evm : EvmNetwork) : JSObject -> AsyncFn Response :=
  handleMint host
    (mintSUI host env indexer)
    (mintBSC host ethers evm)
    (mintBASE host ethers evm).

Definition wired_handleMint (evm : EvmNetwork) (indexer : Indexer)
    : JSObject -> AsyncFn Response :=
  controller example_host example_env indexer (mock_ethers (fun _ => true)) evm.

(** * Specification vocabulary *)

(** The invariant of a MintResult: a success carries a transaction hash
    ([txHash], or [transactionHash] as the SUI executor names it), a failure
    carries a code. *)
Definition result_ok (r : JSObject) : bool :=
  match get r "success" with
  | JBool true => presentb r "txHash" || presentb r "transactionHash"
  | JBool false => presentb r "code"
  | _ => false
  end.

Definition any_event (_ : Event) : Prop := True.

Definition well_formed (r : JSObject) : Prop := result_ok r = true.

(** A call that goes to the endpoint [rpcUrl], or to none. *)
Definition speaks_to (rpcUrl : string) (e : Event) : Prop :=
  match e with
  | EvLocal _ | EvSleep _ | EvAxios _ _ => True
  | EvGetNetwork u | EvGetBalance u _ | EvGetCode u _ | EvGetFeeData u
  | EvEstimateGas u _ _ | EvSend u _ _ _ _ | EvWait u _ _
  | EvGetVersion u | EvSolGetBalance u _ | EvGetAccountInfo u _
  | EvGetLatestBlockhash u | EvSendRawTransaction u _
  | EvConfirmTransaction u _ _ => u = rpcUrl
  end.

(** A quantity that is falsy (absent, [null], [false], 0, [NaN], the empty
    text), a number below 1, or text that the engine reads as a number
    below 1. *)
Definition rejected_quantity (host : Host) (q : JSValue) : Prop :=
  ToBoolean q = false
  \/ (exists x, q = JNumber (Fin x) /\ (x < 1)%Q)
  \/ q = JNumber (Inf false)
  \/ (exists s, q = JString s /\ num_lt (StringToNumber host s) (Fin 1) = true).

(** [safe E P throws m]: whatever the log before it, [m] appends only calls
    that satisfy [E], returns only results that satisfy [P], and throws only
    if [throws] allows it. *)
Definition safe {R A} (E : Event -> Prop) (P : R -> Prop) (throws : bool)
    (m : M R A) : Prop :=
  forall h, exists t,
    fst (m h) = (h ++ t)%list /\ Forall E t /\
    match snd (m h) with
    | Normal _ => True
    | Return r => P r
    | Throw _ => throws = true
    end.


(** The two sides of the invariant, as propositions. *)
Definition success_with_hash (r : JSObject) : Prop :=
  get r "success" = JBool true /\ (present r "txHash" \/ present r "transactionHash").

Definition failure_with_code (r : JSObject) : Prop :=
  get r "success" = JBool false /\ present r "code".

Definition exactly_one (A B : Prop) : Prop := (A /\ ~ B) \/ (B /\ ~ A).

(** Keys are unique in an object. *)
Definition unique_keys (o : JSObject) : Prop := NoDup (map fst o).

(** A check that is evaluated without throwing and does not reject. *)
Definition passes (check : Attempt bool) : bool :=
  match check with
  | Ok rejected => negb rejected
  | Thrown _ => false
  end.

(** The input passes the checks that come before the connection. *)
Definition evm_input_valid (host : Host) (lib : Ethers) (input : JSObject) : bool :=
  ToBoolean (get input "privateKey") &&
  ToBoolean (get input "contractAddress") &&
  passes (falsy_or_lt host (get input "mintQuantity") 1) &&
  isAddress lib (get input "contractAddress").

Definition sol_input_valid (host : Host) (input : JSObject) : bool :=
  ToBoolean (get input "privateKey") &&
  ToBoolean (get input "contractAddress") &&
  passes (falsy_or_lt host (get input "mintQuantity") 1).

(** The probe fails on [rpcUrl] whenever it is tried. *)
Definition evm_probe_fails (net : EvmNetwork) (rpcUrl : string) : Prop :=
  forall h, exists e, getNetwork net h rpcUrl = Thrown e.

Definition sol_probe_fails (net : SolanaNetwork) (rpcUrl : string) : Prop :=
  forall h, exists e, getVersion net h rpcUrl = Thrown e.

(** Calls that stay on the machine. *)
Definition local_only (t : list Event) : Prop :=
  Forall (fun e => is_network e = false) t.

(** No transaction was submitted. *)
Definition is_submission (e : Event) : bool :=
  match e with
  | EvSend _ _ _ _ _ | EvSendRawTransaction _ _ | EvAxios _ _ => true
  | _ => false
  end.

Definition nothing_submitted (t : list Event) : Prop :=
  Forall (fun e => is_submission e = false) t.

(** The decoding that [mintSOL] selects, by the shape of the text. *)
Inductive KeyShape : Type :=
| ArrayShape
| HexShape
| Base58Shape
| OtherShape.

Definition key_shape (s : string) : KeyShape :=
  if startsWith s "["%char && endsWith s "]"%char then ArrayShape
  else if str_length s =? 128 then HexShape
  else if str_length s =? 88 then Base58Shape
  else OtherShape.

(** The decoder's answer and the library call it costs, for a shape that
    has a decoder. *)
Definition decode_key (lib : SolanaLib) (s : string)
    : option (list Event * Attempt (list Z)) :=
  match key_shape s with
  | ArrayShape => Some ([EvLocal "JSON.parse"], JSON_parse_bytes lib s)
  | HexShape => Some ([], Ok (Buffer_from_hex s))
  | Base58Shape => Some ([EvLocal "bs58.decode"], bs58_decode lib s)
  | OtherShape => None
  end.

Definition invalid_key_format : JSObject :=
  failure "Invalid private key format. Use base58, hex, or array format."
          "INVALID_PRIVATE_KEY_FORMAT".

Definition invalid_key_length : JSObject :=
  failure "Private key must be 64 bytes long" "INVALID_PRIVATE_KEY_LENGTH".

Definition invalid_key : JSObject :=
  failure "Invalid private key format or corrupted key" "INVALID_PRIVATE_KEY".

(** Sample inputs. *)
Definition key64 : string :=
  "0123456789abcdef0123456789abcdef0123456789abcdef0123456789abcdef".

Definition sample_evm_input (mintQuantity : JSValue) : JSObject :=
  [("privateKey", JString key64);
   ("contractAddress", JString "0x00000000000000000000000000000000000000aa");
   ("mintQuantity", mintQuantity)].

Definition sample_sol_input (privateKey : string) (mintQuantity : JSValue) : JSObject :=
  [("privateKey", JString privateKey);
   ("contractAddress", JString "MintAddress1111111111111111111111111111111");
   ("mintQuantity", mintQuantity)].

Definition sample_sui_input (mintQuantity : JSValue) : JSObject :=
  [("privateKey", JString key64);
   ("collectionId", JString "abc123");
   ("mintQuantity", mintQuantity);
   ("mintStage", JString "public")].

Definition bytes64 : list Z := repeat 7 64.

(** A BASE network whose first endpoint answers and reports [balance]. *)
Definition first_endpoint_evm (balance : Z) (estimate : string -> list JSValue -> Attempt Z)
    (waited : Settled Receipt) : EvmNetwork :=
  scripted_evm (fun u => String.eqb u "https://base.drpc.org/"
                         || String.eqb u "https://bsc-dataseed.binance.org/")
    balance (Ok None) estimate (fun _ _ _ => Ok "0xTX") waited.

(** A candidate the contract does not expose. *)
Definition unexposed (contract : string -> bool) (f : MintFunction) : Prop :=
  contract (fst f) = false.

(** A key in the array encoding: the JSON text of 64 bytes, each 7. *)
Definition sample_key_array : string :=
  Eval cbv in ("[" ++ String.concat "," (repeat "7" 64) ++ "]")%string.


Definition base_log_before_mint : History :=
  [EvGetNetwork "https://base.drpc.org/";
   EvLocal "new ethers.Wallet";
   EvGetBalance "https://base.drpc.org/" "0xWALLET";
   EvLocal "new ethers.Contract";
   EvGetCode "https://base.drpc.org/"
     (JString "0x00000000000000000000000000000000000000aa")].

Definition confirmation_timed_out (txHash : string) : JSObject :=
  [("success", JBool false);
   ("msg", JString "Transaction sent but confirmation timed out. Check transaction status manually.");
   ("code", JString "CONFIRMATION_TIMEOUT");
   ("txHash", JString txHash)].

(** The input and the configuration pass every check that [mintSUI] makes
    before its first request. *)
Definition sui_ready (host : Host) (env : Env) (input : JSObject) : bool :=
  ToBoolean (get input "privateKey") &&
  ToBoolean (get input "collectionId") &&
  ToBoolean (get input "mintStage") &&
  passes (falsy_or_lt host (get input "mintQuantity") 1) &&
  passes (js_gt host (get input "mintQuantity") 100) &&
  match getProp (get input "privateKey") "length" with
  | Ok key_length => passes (js_lt host key_length 32)
  | Thrown _ => false
  end &&
  match callMatch (get input "collectionId") with
  | Ok matched => matched
  | Thrown _ => false
  end &&
  env_set (INDEXER_ENDPOINT env) &&
  env_set (TRADEPORT_API_USER env) &&
  env_set (TRADEPORT_API_KEY env).

(** The codes of the failures that [mintSUI] produces before any request. *)
Definition sui_local_codes : list string :=
  ["MISSING_PRIVATE_KEY"; "MISSING_COLLECTION_ID"; "MISSING_MINT_STAGE";
   "INVALID_QUANTITY"; "QUANTITY_TOO_HIGH"; "INVALID_PRIVATE_KEY_LENGTH";
   "INVALID_COLLECTION_ID_FORMAT"; "TYPE_ERROR";
   "MISSING_INDEXER_ENDPOINT"; "MISSING_API_CREDENTIALS"].

(** What [mintSUI] does with the outcome of the retry loop. *)
Definition sui_after_request (host : Host) (mintQuantity collectionId : JSValue)
    (requested : option AxiosResponse * option JSError) : M JSObject Empty_set :=
  match requested with
  | (None, lastError) =>
      return_ (failure_details
                 "Failed to connect to SUI network after multiple attempts"
                 "CONNECTION_FAILED"
                 (match lastError with
                  | Some e => JString (err_message e)
                  | None => JUndefined
                  end))
  | (Some response, _) => sui_interpret host response mintQuantity collectionId
  end.

(** The logs that the retry loop of [mintSUI] can leave. *)
Definition sui_request_logs : list (list Event) :=
  [[EvAxios 1 300000];
   [EvAxios 1 300000; EvSleep 1000; EvAxios 2 300000];
   [EvAxios 1 300000; EvSleep 1000; EvAxios 2 300000; EvSleep 2000; EvAxios 3 300000]].

(** The result of three failed attempts, by the code of the last error. *)
Definition sui_gave_up (lastError : JSError) : JSObject :=
  if code_is lastError "ECONNABORTED" then
    failure "Request timed out. SUI network might be congested." "REQUEST_TIMEOUT"
  else if code_is lastError "ENOTFOUND" then
    failure "Cannot reach SUI indexer endpoint. Check network connection."
            "NETWORK_UNREACHABLE"
  else if code_is lastError "ECONNREFUSED" then
    failure "SUI indexer endpoint refused connection." "CONNECTION_REFUSED"
  else
    failure_details "Failed to connect to SUI network after multiple attempts"
                    "CONNECTION_FAILED" (JString (err_message lastError)).

Definition no_event (_ : Event) : Prop := False.

Definition is_failure (r : JSObject) : Prop := get r "success" = JBool false.

Definition any_result (_ : JSObject) : Prop := True.

(** The [errors] field of a response that reports no GraphQL error: absent
    or otherwise falsy, or an empty list. *)
Definition no_graphql_errors (errors : JSValue) : Prop :=
  ToBoolean errors = false \/ errors = JArray [].

(** The code that [mintSUI] gives to an HTTP status of 400 or more. *)
Definition sui_http_code (status : Z) : string :=
  if status =? 401 then "INVALID_CREDENTIALS"
  else if status =? 403 then "ACCESS_FORBIDDEN"
  else if status =? 404 then "ENDPOINT_NOT_FOUND"
  else if status =? 429 then "RATE_LIMITED"
  else "HTTP_ERROR".

Definition sui_full_log : list Event :=
  [EvAxios 1 300000; EvSleep 1000; EvAxios 2 300000; EvSleep 2000; EvAxios 3 300000].

(** A response of the indexer that reports a mint with digest [digest]. *)
Definition minted_response (digest : string) : AxiosResponse :=
  mkAxiosResponse 200
    (JObject [("data", JObject [("mintNFT",
       JObject [("success", JBool true);
                ("transactionBlockDigest", JString digest)])])]).

(** An ordered table of rules, each a list of patterns and a code: the code
    of the first rule one of whose patterns occurs in the text, or the
    default. *)
Fixpoint first_rule (rules : list (list string * string)) (default : string)
    (text : string) : string :=
  match rules with
  | [] => default
  | (patterns, code) :: rest =>
      if existsb (includes text) patterns then code
      else first_rule rest default text
  end.

Definition sui_graphql_rules : list (list string * string) :=
  [(["insufficient"], "INSUFFICIENT_BALANCE");
   (["not found"], "COLLECTION_NOT_FOUND");
   (["unauthorized"], "MINT_UNAUTHORIZED");
   (["sold out"; "exceeds"], "MINT_SOLD_OUT");
   (["not active"], "MINT_STAGE_INACTIVE")].

(** The number of submissions in a log. *)
Definition submissions (t : list Event) : nat :=
  List.length (filter is_submission t).

(** The result that the EVM executors build from a receipt. *)
Definition receipt_result (receipt : Receipt) : JSObject :=
  [("success", JBool true);
   ("txHash", rc_transactionHash receipt);
   ("gasUsed", JString (BigInt_toString (rc_gasUsed receipt)));
   ("blockNumber", JInt (rc_blockNumber receipt))].

(** What the EVM executors return: a result that satisfies the invariant, or
    the result built from a receipt. *)
Definition evm_well_formed (r : JSObject) : Prop :=
  well_formed r \/ exists receipt, r = receipt_result receipt.

(** The last call of the log [h] is a submission to [provider], and the
    endpoint answered it with the hash [tx]. *)
Definition just_submitted (net : EvmNetwork) (provider tx : string) (h : History)
    : Prop :=
  exists h0 name args gasLimit gasPrice,
    h = (h0 ++ [EvSend provider name args gasLimit gasPrice])%list /\
    sendTransaction net h0 provider name args gasLimit gasPrice = Ok tx.

(** The log [h'] ends with a submission and the wait for its receipt, the
    receipt came in time with a status other than 0, and [r] is the result
    built from it. *)
Definition confirmed_by_receipt (net : EvmNetwork) (h' : History) (r : JSObject)
    : Prop :=
  exists h provider tx receipt,
    just_submitted net provider tx h /\
    h' = (h ++ [EvWait provider tx 300000])%list /\
    wait net h provider tx = Resolved receipt /\
    rc_status receipt <> 0 /\
    r = receipt_result receipt.

(** The same for Solana: the log ends with the submission of the raw
    transaction and its confirmation, which came in time and reports no
    error. *)
Definition confirmed_on_solana (net : SolanaNetwork) (h' : History) (r : JSObject)
    : Prop :=
  exists h0 connection signature confirmation_err associatedTokenAccount,
    sendRawTransaction net h0 connection = Ok signature /\
    h' = (h0 ++ [EvSendRawTransaction connection 3;
                 EvConfirmTransaction connection signature 300000])%list /\
    confirmTransaction net (h0 ++ [EvSendRawTransaction connection 3])%list
                       connection signature = Resolved confirmation_err /\
    ToBoolean confirmation_err = false /\
    r = [("success", JBool true);
         ("txHash", JString signature);
         ("associatedTokenAccount", JString associatedTokenAccount)].

(** [returns_only Q m]: whatever the log before it, a result that [m]
    returns satisfies [Q] together with the log at that point. *)
Definition returns_only {R A} (Q : History -> R -> Prop) (m : M R A) : Prop :=
  forall h,
    match m h with
    | (h', Return r) => Q h' r
    | _ => True
    end.

Definition failure_or (Q : History -> JSObject -> Prop) (h : History) (r : JSObject)
    : Prop :=
  is_failure r \/ Q h r.

(** The same for SUI: the log ends with a request that the indexer answered
    with a status below 400 and a body whose [data.mintNFT] has a truthy
    [success] and a truthy [transactionBlockDigest], and [r] is the success
    built from that digest and the request. *)
Definition reported_by_indexer (host : Host) (indexer : Indexer) (input : JSObject)
    (h' : History) (r : JSObject) : Prop :=
  exists h n response data_data mintNFT succeeded digest quantityText,
    h' = (h ++ [EvAxios n 300000])%list /\
    axios indexer h n = Ok response /\
    ax_status response < 400 /\
    getProp (ax_data response) "data" = Ok data_data /\
    getProp data_data "mintNFT" = Ok mintNFT /\
    getProp mintNFT "success" = Ok succeeded /\
    ToBoolean succeeded = true /\
    getProp mintNFT "transactionBlockDigest" = Ok digest /\
    ToBoolean digest = true /\
    ToString host (get input "mintQuantity") = Ok quantityText /\
    r = [("success", JBool true);
         ("msg", JString ("Successfully minted " ++ quantityText ++ " NFT(s)"));
         ("code", JString "MINT_SUCCESS");
         ("transactionHash", digest);
         ("quantity", get input "mintQuantity");
         ("collectionId", get input "collectionId")].

(** A call to the mint contract: a gas estimate or a submission. *)
Definition is_contract_call (e : Event) : bool :=
  match e with
  | EvEstimateGas _ _ _ | EvSend _ _ _ _ _ => true
  | _ => false
  end.

Definition no_contract_call (t : list Event) : Prop :=
  Forall (fun e => is_contract_call e = false) t.

(** The checks of the EVM executors between the connection, at log [h], and
    the first call to the mint contract: the key makes a wallet, the endpoint
    reports a balance of at least the minimum, the contract instance is
    built, and the endpoint reports code other than ["0x"] at the address. *)
Definition evm_checks_passed (lib : Ethers) (net : EvmNetwork) (min_balance : Z)
    (provider : string) (privateKey contractAddress : JSValue) (h : History) : Prop :=
  exists wallet balance contract code,
    newWallet lib privateKey = Ok wallet /\
    getBalance net (h ++ [EvLocal "new ethers.Wallet"])%list provider wallet
      = Ok balance /\
    min_balance <= balance /\
    newContract lib contractAddress = Ok contract /\
    getCode net (h ++ [EvLocal "new ethers.Wallet"; EvGetBalance provider wallet;
                       EvLocal "new ethers.Contract"])%list provider contractAddress
      = Ok code /\
    code <> "0x".

(** The checks of the SOL executor between the connection, at log [h], and
    the transaction: the key makes a keypair, the contract address parses,
    the endpoint reports a balance of at least the minimum, and the mint
    account exists and is owned by the token program. *)
Definition sol_checks_passed (lib : SolanaLib) (net : SolanaNetwork)
    (connection : string) (privateKey contractAddress : JSValue) (h : History) : Prop :=
  exists tk keypair mint balance info,
    sol_keypair lib privateKey h = ((h ++ tk)%list, Normal keypair) /\
    newPublicKey lib contractAddress = Ok mint /\
    sol_getBalance net (h ++ tk ++ [EvLocal "new PublicKey"])%list connection keypair
      = Ok balance /\
    sol_min_balance <= balance /\
    getAccountInfo net (h ++ tk ++ [EvLocal "new PublicKey";
                                    EvSolGetBalance connection keypair])%list
                   connection mint = Ok (Some info) /\
    ai_owner info = TOKEN_PROGRAM_ID.

(** The calls of the EVM executors between the connection and the loop over
    the candidates, when every check passes. *)
Definition evm_checks_log (provider wallet : string) (contractAddress : JSValue)
    : list Event :=
  [EvLocal "new ethers.Wallet"; EvGetBalance provider wallet;
   EvLocal "new ethers.Contract"; EvGetCode provider contractAddress].

(** [evm_checks_passed], with the wallet and the contract instance named. *)
Definition evm_checked (lib : Ethers) (net : EvmNetwork) (min_balance : Z)
    (provider : string) (privateKey contractAddress : JSValue) (h : History)
    (wallet : string) (contract : string -> bool) : Prop :=
  exists balance code,
    newWallet lib privateKey = Ok wallet /\
    getBalance net (h ++ [EvLocal "new ethers.Wallet"])%list provider wallet
      = Ok balance /\
    min_balance <= balance /\
    newContract lib contractAddress = Ok contract /\
    getCode net (h ++ [EvLocal "new ethers.Wallet"; EvGetBalance provider wallet;
                       EvLocal "new ethers.Contract"])%list provider contractAddress
      = Ok code /\
    code <> "0x".

(** The gas price that the BSC executor takes from an answer to
    [getFeeData]. *)
Definition bsc_price_of (feeData : Attempt (option Z)) : Z :=
  match feeData with
  | Ok gasPrice => gasPrice_or_fallback gasPrice
  | Thrown _ => bsc_fallback_gasPrice
  end.

(** The rules by which the EVM executors classify the error of the last
    refused submission when the loop leaves no transaction. *)
Definition base_no_tx_rules : list (list string * string) :=
  [(["insufficient funds"], "INSUFFICIENT_FUNDS");
   (["execution reverted"], "TRANSACTION_REVERTED");
   (["nonce too low"], "NONCE_ERROR");
   (["replacement transaction underpriced"], "GAS_PRICE_LOW");
   (["intrinsic gas too low"], "GAS_LIMIT_LOW")].

Definition bsc_no_tx_rules : list (list string * string) :=
  (base_no_tx_rules
     ++ [(["max fee per gas less than block base fee"], "GAS_FEE_TOO_LOW")])%list.

(** How a loop over the candidates that started at log [h] with no error
    recorded has ended at log [h'] with [outcome]: with a transaction, right
    after the submission that the endpoint accepted; or without one, in
    which case either nothing was submitted and no error is recorded, or the
    recorded error is the one that the endpoint threw at the last submission
    of the log, a submission with the gas limit [last_gasLimit]. *)
Definition loop_outcome (net : EvmNetwork) (provider : string)
    (last_gasLimit gasPrice : Z) (start : option JSError) (h h' : History)
    (outcome : option string * option JSError) : Prop :=
  match outcome with
  | (Some tx, _) => just_submitted net provider tx h'
  | (None, lastError) =>
      exists t,
        h' = (h ++ t)%list /\
        ((nothing_submitted t /\ lastError = start)
         \/ exists e t1 t2 name args,
              t = (t1 ++ EvSend provider name args last_gasLimit gasPrice :: t2)%list /\
              nothing_submitted t2 /\
              sendTransaction net (h ++ t1)%list provider name args
                              last_gasLimit gasPrice = Thrown e /\
              lastError = Some e)
  end.

(** The code of a result. *)
Definition code_of (r : JSObject) : JSValue := get r "code".

(** The text that the classification reads. *)
Definition message_of (lastError : option JSError) : string :=
  match lastError with
  | Some e => err_message e
  | None => ""
  end.

(** The endpoint accepts the submission [e], made at log [h]: it answers
    with a transaction instead of throwing. *)
Definition accepted (net : EvmNetwork) (h : History) (e : Event) : bool :=
  match e with
  | EvSend provider name args gasLimit gasPrice =>
      match sendTransaction net h provider name args gasLimit gasPrice with
      | Ok _ => true
      | Thrown _ => false
      end
  | _ => false
  end.

(** The same for the submission of a raw transaction on Solana. *)
Definition sol_accepted (net : SolanaNetwork) (h : History) (e : Event) : bool :=
  match e with
  | EvSendRawTransaction connection _ =>
      match sendRawTransaction net h connection with
      | Ok _ => true
      | Thrown _ => false
      end
  | _ => false
  end.

(** In the log [t], made from the log [h] on, nothing is submitted after a
    submission that was accepted; [acc h e] tells whether the call [e], made
    at log [h], was. *)
Fixpoint stops_when_accepted (acc : History -> Event -> bool) (h : History)
    (t : list Event) : Prop :=
  match t with
  | [] => True
  | e :: t' =>
      (acc h e = true -> nothing_submitted t') /\
      stops_when_accepted acc (h ++ [e])%list t'
  end.

Definition not_submission (e : Event) : Prop := is_submission e = false.

(** [quiet m]: whatever the log before it, [m] submits nothing. *)
Definition quiet {R A} (m : M R A) : Prop :=
  forall h, exists t, fst (m h) = (h ++ t)%list /\ nothing_submitted t.

(** [disciplined acc n m]: whatever the log before it, [m] submits at most
    [n] times and nothing after a submission that was accepted. *)
Definition disciplined {R A} (acc : History -> Event -> bool) (n : nat) (m : M R A)
    : Prop :=
  forall h, exists t,
    fst (m h) = (h ++ t)%list /\
    stops_when_accepted acc h t /\
    (submissions t <= n)%nat.

(** The answer to the first required field that is absent (falsy), in the
    order in which the executor checks them, and [otherwise] when none
    is. *)
Fixpoint first_missing (required : list (string * JSObject)) (input : JSObject)
    (otherwise : JSObject) : JSObject :=
  match required with
  | [] => otherwise
  | (field, answer) :: rest =>
      if ToBoolean (get input field) then first_missing rest input otherwise
      else answer
  end.

Definition evm_required : list (string * JSObject) :=
  [("privateKey", failure "Private key is required" "MISSING_PRIVATE_KEY");
   ("contractAddress",
    failure "Contract address is required" "MISSING_CONTRACT_ADDRESS")].

Definition sol_required : list (string * JSObject) :=
  [("privateKey", failure "Private key is required" "MISSING_PRIVATE_KEY");
   ("contractAddress",
    failure "Contract address (Mint Address) is required" "MISSING_CONTRACT_ADDRESS")].

Definition sui_required : list (string * JSObject) :=
  [("privateKey", failure "Private key is required" "MISSING_PRIVATE_KEY");
   ("collectionId", failure "Collection ID is required" "MISSING_COLLECTION_ID");
   ("mintStage", failure "Mint stage is required" "MISSING_MINT_STAGE")].

Definition invalid_quantity : JSObject :=
  failure "Mint quantity must be at least 1" "INVALID_QUANTITY".

(** The result is not the failure of the connection step. *)
Definition connected_result (r : JSObject) : Prop :=
  get r "code" <> JString "RPC_CONNECTION_FAILED".

(** Whatever the log so far, the computation extends it, and the first call
    it makes is [ev]. *)
Definition extends {R A} (m : M R A) : Prop :=
  forall h, exists t, fst (m h) = (h ++ t)%list.

Definition starts_with {R A} (ev : Event) (m : M R A) : Prop :=
  forall h, exists t, fst (m h) = (h ++ ev :: t)%list.

(** ** The loops over the mint candidates, by the answers of the network *)

Section Candidates.

Variable net : EvmNetwork.
Variable provider : string.
Variable contract : string -> bool.



Variable gasPrice : Z.



End Candidates.


(** The answer of the outer handler of BASE, BSC and SOL to the TypeError of
    a conversion, [msg] being the handler's default message. *)
Definition conversion_failed (msg : string) : JSObject :=
  failure_details msg "UNKNOWN_ERROR" (JString (err_message cannot_convert)).

(** * Reasoning about computations *)

Section SafeRules.

Context {R : Type}.
Variable E : Event -> Prop.
Variable P : R -> Prop.

Lemma safe_ret {A} throws (a : A) : safe E P throws (ret (R := R) a).
Proof.
  intros h. exists []. cbn. rewrite app_nil_r. auto.
Qed.

Lemma safe_return {A} throws (r : R) : P r -> safe E P throws (return_ (A := A) r).
Proof.
  intros Hr h. exists []. cbn. rewrite app_nil_r. auto.
Qed.

Lemma safe_throw {A} (e : JSError) : safe E P true (throw (R := R) (A := A) e).
Proof.
  intros h. exists []. cbn. rewrite app_nil_r. auto.
Qed.

Lemma safe_weaken {A} (m : M R A) : safe E P false m -> safe E P true m.
Proof.
  intros Hm h. destruct (Hm h) as (t & Ht & HE & Hc).
  exists t. repeat split; auto. destruct (snd (m h)); auto.
Qed.

Lemma safe_events {A} (E' : Event -> Prop) throws (m : M R A) :
  (forall e, E e -> E' e) -> safe E P throws m -> safe E' P throws m.
Proof.
  intros HE Hm h. destruct (Hm h) as (t & Ht & Ht' & Hc).
  exists t. repeat split; auto. eapply Forall_impl; eauto.
Qed.

Lemma safe_bind {A B} throws (m : M R A) (k : A -> M R B) :
  safe E P throws m -> (forall a, safe E P throws (k a)) ->
  safe E P throws (bind m k).
Proof.
  intros Hm Hk h. destruct (Hm h) as (t & Ht & HE & Hc).
  unfold bind. destruct (m h) as [h1 c]. cbn in Ht, Hc. subst h1.
  destruct c as [a | r | e].
  - destruct (Hk a (h ++ t)%list) as (t' & Ht' & HE' & Hc').
    exists (t ++ t')%list. rewrite app_assoc. repeat split; auto.
    apply Forall_app; auto.
  - exists t. cbn. auto.
  - exists t. cbn. auto.
Qed.

Lemma safe_try {A} throws (m : M R A) (handler : JSError -> M R A) :
  safe E P true m -> (forall e, safe E P throws (handler e)) ->
  safe E P throws (try_catch m handler).
Proof.
  intros Hm Hh h. destruct (Hm h) as (t & Ht & HE & Hc).
  unfold try_catch. destruct (m h) as [h1 c]. cbn in Ht, Hc. subst h1.
  destruct c as [a | r | e].
  - exists t. cbn. auto.
  - exists t. cbn. auto.
  - destruct (Hh e (h ++ t)%list) as (t' & Ht' & HE' & Hc').
    exists (t ++ t')%list. rewrite app_assoc. repeat split; auto.
    apply Forall_app; auto.
Qed.

Lemma safe_call {A} (ev : Event) (answer : History -> Attempt A) :
  E ev -> safe E P true (call (R := R) ev answer).
Proof.
  intros Hev h. exists [ev]. unfold call.
  destruct (answer h); cbn; repeat split; auto.
Qed.

Lemma safe_call_ok {A} throws (ev : Event) (a : A) :
  E ev -> safe E P throws (call (R := R) ev (fun _ => Ok a)).
Proof.
  intros Hev h. exists [ev]. cbn. repeat split; auto.
Qed.

Lemma safe_attempt {A} (x : Attempt A) : safe E P true (attempt (R := R) x).
Proof.
  intros h. exists []. unfold attempt. rewrite app_nil_r.
  destruct x; cbn; auto.
Qed.

(** A function whose body is a [try] with a handler that cannot throw
    always returns. *)
Lemma run_try_returns (body : M R Empty_set) (handler : JSError -> M R Empty_set) :
  safe E P true body -> (forall e, safe E P false (handler e)) ->
  forall h, exists t r,
    run (try_catch body handler) h = ((h ++ t)%list, Returned r) /\
    Forall E t /\ P r.
Proof.
  intros Hb Hh h.
  destruct (safe_try false body handler Hb Hh h) as (t & Ht & HE & Hc).
  unfold run. destruct (try_catch body handler h) as [h1 c].
  cbn in Ht, Hc. subst h1. destruct c as [[] | r | e].
  - exists t, r. auto.
  - discriminate.
Qed.

End SafeRules.

(** One step of a [safe] derivation, following the shape of the term. *)
Ltac safe_step :=
  match goal with
  | |- safe _ _ _ (ret _) => apply safe_ret
  | |- safe _ _ _ (return_ _) => apply safe_return
  | |- safe _ _ true (throw _) => apply safe_throw
  | |- safe _ _ _ (bind _ _) => apply safe_bind; [ | intros ? ]
  | |- safe _ _ _ (try_catch _ _) => apply safe_try; [ | intros ? ]
  | |- safe _ _ _ (call _ (fun _ => Ok _)) => apply safe_call_ok
  | |- safe _ _ true (call _ _) => apply safe_call
  | |- safe _ _ true (attempt _) => apply safe_attempt
  | |- safe _ _ _ (if ?c then _ else _) => destruct c eqn:?
  | |- safe _ _ _ (match ?x with _ => _ end) => destruct x eqn:?
  end.

Create HintDb safe_db.
#[local] Hint Extern 1 (any_event _) => exact I : safe_db.
#[local] Hint Extern 1 (speaks_to _ _) => cbn; auto : safe_db.
#[local] Hint Extern 1 (well_formed _) => reflexivity : safe_db.
#[local] Hint Extern 1 (evm_well_formed _) =>
  first [ left; reflexivity | right; eexists; reflexivity ] : safe_db.

Ltac safe_auto :=
  repeat (safe_step; auto with safe_db).

Section ExecutorsReturn.

Variable host : Host.

Lemma connect_provider_safe (P : JSObject -> Prop) net urls :
  safe any_event P true (connect_provider net urls).
Proof.
  induction urls as [| u urls IH]; cbn [connect_provider]; safe_auto.
Qed.

Lemma evm_outer_catch_safe E a b c d e err :
  safe E evm_well_formed false (evm_outer_catch a b c d e err).
Proof.
  unfold evm_outer_catch. safe_auto.
Qed.

Lemma evm_confirm_safe net provider tx :
  safe (speaks_to provider) evm_well_formed true (evm_confirm net provider tx).
Proof.
  unfold evm_confirm. safe_auto.
Qed.

Lemma base_try_mint_safe (P : JSObject -> Prop) net provider contract fs lastError :
  safe (speaks_to provider) P true (base_try_mint net provider contract fs lastError).
Proof.
  revert lastError.
  induction fs as [| [name args] fs IH]; intros lastError;
    cbn [base_try_mint]; safe_auto.
Qed.

Lemma base_no_tx_ok lastError : well_formed (base_no_tx lastError).
Proof.
  unfold well_formed, base_no_tx.
  repeat match goal with
         | |- context [if ?c then _ else _] => destruct c
         end; reflexivity.
Qed.

Lemma bsc_try_mint_safe (P : JSObject -> Prop) net provider contract gasPrice fs lastError :
  safe (speaks_to provider) P true
       (bsc_try_mint net provider contract gasPrice fs lastError).
Proof.
  revert lastError.
  induction fs as [| [name args] fs IH]; intros lastError;
    cbn [bsc_try_mint]; safe_auto.
Qed.

Lemma bsc_no_tx_ok lastError : well_formed (bsc_no_tx lastError).
Proof.
  unfold well_formed, bsc_no_tx.
  repeat match goal with
         | |- context [if ?c then _ else _] => destruct c
         end; reflexivity.
Qed.

Lemma bsc_gasPrice_safe (P : JSObject -> Prop) net provider :
  safe (speaks_to provider) P true (bsc_gasPrice net provider).
Proof.
  unfold bsc_gasPrice. safe_auto.
Qed.

Lemma base_no_tx_evm_ok lastError : evm_well_formed (base_no_tx lastError).
Proof. left. apply base_no_tx_ok. Qed.

Lemma bsc_no_tx_evm_ok lastError : evm_well_formed (bsc_no_tx lastError).
Proof. left. apply bsc_no_tx_ok. Qed.

#[local] Hint Resolve connect_provider_safe evm_confirm_safe base_try_mint_safe
  base_no_tx_ok bsc_try_mint_safe bsc_no_tx_ok bsc_gasPrice_safe
  base_no_tx_evm_ok bsc_no_tx_evm_ok : safe_db.

Lemma base_after_connect_safe lib net provider pk ca q :
  safe (speaks_to provider) evm_well_formed true (base_after_connect lib net provider pk ca q).
Proof.
  unfold base_after_connect. safe_auto.
Qed.

Lemma bsc_after_connect_safe lib net provider pk ca q :
  safe (speaks_to provider) evm_well_formed true (bsc_after_connect lib net provider pk ca q).
Proof.
  unfold bsc_after_connect. safe_auto.
Qed.

Lemma connect_solana_safe (P : JSObject -> Prop) net urls :
  safe any_event P true (connect_solana net urls).
Proof.
  induction urls as [| u urls IH]; cbn [connect_solana]; safe_auto.
Qed.

Lemma sol_keypair_local lib pk :
  safe (fun e => is_network e = false) well_formed true (sol_keypair lib pk).
Proof.
  unfold sol_keypair. safe_auto.
Qed.

Lemma sol_keypair_safe connection lib pk :
  safe (speaks_to connection) well_formed true (sol_keypair lib pk).
Proof.
  eapply safe_events; [| apply sol_keypair_local ].
  intros [] H; cbn in *; auto; discriminate.
Qed.

Lemma sol_transaction_catch_safe connection err :
  safe (speaks_to connection) well_formed false (sol_transaction_catch err).
Proof.
  unfold sol_transaction_catch. safe_auto.
Qed.

Lemma sol_transaction_safe lib net connection keypair mint q :
  safe (speaks_to connection) well_formed true
       (sol_transaction host lib net connection keypair mint q).
Proof.
  unfold sol_transaction.
  apply safe_try; [ | intros e; apply safe_weaken, sol_transaction_catch_safe ].
  safe_auto.
Qed.

Lemma sol_outer_catch_safe E err :
  safe E well_formed false (sol_outer_catch err).
Proof.
  unfold sol_outer_catch. safe_auto.
Qed.

#[local] Hint Resolve connect_solana_safe sol_keypair_safe sol_transaction_safe
  : safe_db.

Lemma sol_after_connect_safe lib net connection pk ca q :
  safe (speaks_to connection) well_formed true
       (sol_after_connect host lib net connection pk ca q).
Proof.
  unfold sol_after_connect. safe_auto.
Qed.

Lemma sui_request_safe indexer attempts lastError :
  safe any_event well_formed true (sui_request indexer attempts lastError).
Proof.
  revert lastError.
  induction attempts as [| n attempts IH]; intros lastError;
    cbn [sui_request]; safe_auto.
Qed.

Lemma sui_http_error_ok response : well_formed (sui_http_error response).
Proof.
  unfold well_formed, sui_http_error.
  repeat match goal with
         | |- context [if ?c then _ else _] => destruct c
         end; reflexivity.
Qed.

Lemma sui_graphql_error_safe errors :
  safe any_event well_formed true (sui_graphql_error errors).
Proof.
  unfold sui_graphql_error. safe_auto.
Qed.

Lemma truthy_present (k : string) (v : JSValue) (o1 o2 : JSObject) :
  ToBoolean v = true -> lookup k o1 = None ->
  presentb (o1 ++ (k, v) :: o2)%list k = true.
Proof.
  intros Hv Ho. unfold presentb, get.
  induction o1 as [| [k' v'] o1 IH]; cbn in *.
  - rewrite String.eqb_refl. destruct v; try reflexivity. discriminate.
  - destruct (String.eqb k k'); [discriminate | auto].
Qed.

Lemma js_or_truthy (v : JSValue) (s : string) :
  s <> "" -> ToBoolean (js_or v (JString s)) = true.
Proof.
  intros Hs. unfold js_or. destruct (ToBoolean v) eqn:Hv; [exact Hv |].
  cbn. destruct (String.eqb_spec s ""); [contradiction | reflexivity].
Qed.

#[local] Hint Resolve sui_request_safe sui_http_error_ok sui_graphql_error_safe
  : safe_db.

Lemma sui_interpret_safe response q c :
  safe any_event well_formed true (sui_interpret host response q c).
Proof.
  unfold sui_interpret. safe_auto.
  - unfold well_formed, result_ok. cbn [get lookup String.eqb Ascii.eqb Bool.eqb].
    apply (truthy_present "code" _ [("success", JBool false); ("msg", _)]);
      [ apply js_or_truthy; discriminate | reflexivity ].
  - unfold well_formed, result_ok. cbn [get lookup String.eqb Ascii.eqb Bool.eqb].
    apply orb_true_iff. right.
    apply (truthy_present "transactionHash" _
             [("success", JBool true); ("msg", _); ("code", _)]);
      [ assumption | reflexivity ].
Qed.

Lemma sui_outer_catch_safe err :
  safe any_event well_formed false (sui_outer_catch err).
Proof.
  unfold sui_outer_catch. safe_auto.
Qed.

End ExecutorsReturn.

(** Every executor returns, and what it returns is well formed. *)
Section ExecutorsTotal.

Variable host : Host.

Lemma mintBASE_returns lib net input h :
  exists t r, mintBASE host lib net input h = ((h ++ t)%list, Returned r) /\
              Forall any_event t /\ evm_well_formed r.
Proof.
  unfold mintBASE. apply run_try_returns.
  - safe_auto; auto using connect_provider_safe.
    eapply safe_events; [| apply base_after_connect_safe ]. intros; exact I.
  - intros e. apply evm_outer_catch_safe.
Qed.

Lemma mintBSC_returns lib net input h :
  exists t r, mintBSC host lib net input h = ((h ++ t)%list, Returned r) /\
              Forall any_event t /\ evm_well_formed r.
Proof.
  unfold mintBSC. apply run_try_returns.
  - safe_auto; auto using connect_provider_safe.
    eapply safe_events; [| apply bsc_after_connect_safe ]. intros; exact I.
  - intros e. apply evm_outer_catch_safe.
Qed.

Lemma mintSOL_returns lib net input h :
  exists t r, mintSOL host lib net input h = ((h ++ t)%list, Returned r) /\
              Forall any_event t /\ well_formed r.
Proof.
  unfold mintSOL. apply run_try_returns.
  - safe_auto; auto using connect_solana_safe.
    eapply safe_events; [| apply sol_after_connect_safe ]. intros; exact I.
  - intros e. apply sol_outer_catch_safe.
Qed.

Lemma mintSUI_returns env indexer input h :
  exists t r, mintSUI host env indexer input h = ((h ++ t)%list, Returned r) /\
              Forall any_event t /\ well_formed r.
Proof.
  unfold mintSUI. apply run_try_returns.
  - safe_auto; auto using sui_request_safe, sui_interpret_safe.
  - intros e. apply sui_outer_catch_safe.
Qed.

End ExecutorsTotal.

(** * Objects and the spread *)

Lemma get_define_same k v o : get (define k v o) k = v.
Proof.
  unfold get. induction o as [| [k' v'] o IH]; cbn.
  - now rewrite String.eqb_refl.
  - destruct (String.eqb k k') eqn:Hk; cbn.
    + now rewrite String.eqb_refl.
    + now rewrite Hk.
Qed.

Lemma get_define_other k k' v o : k <> k' -> get (define k' v o) k = get o k.
Proof.
  intros Hk. unfold get. induction o as [| [k'' v''] o IH]; cbn.
  - apply String.eqb_neq in Hk. now rewrite Hk.
  - destruct (String.eqb k' k'') eqn:Hk'; cbn.
    + apply String.eqb_eq in Hk'. subst k''.
      apply String.eqb_neq in Hk. now rewrite Hk.
    + destruct (String.eqb k k''); auto.
Qed.

Lemma lookup_None_not_In k (o : JSObject) :
  ~ In k (map fst o) -> lookup k o = None.
Proof.
  induction o as [| [k' v'] o IH]; cbn; intros H; [reflexivity |].
  destruct (String.eqb_spec k k') as [-> | Hk].
  - exfalso. auto.
  - auto.
Qed.

(** A property the source does not have keeps the target's value. *)
Lemma get_spread_absent k source : forall target,
  lookup k source = None -> get (spread target source) k = get target k.
Proof.
  induction source as [| [k' v'] source IH]; cbn; intros target H; [reflexivity |].
  destruct (String.eqb_spec k k') as [-> | Hk]; [discriminate |].
  rewrite IH by assumption. now apply get_define_other.
Qed.

(** A property the source has overrides the target's. *)
Lemma get_spread_present k v source : forall target,
  NoDup (map fst source) -> lookup k source = Some v ->
  get (spread target source) k = v.
Proof.
  induction source as [| [k' v'] source IH]; cbn; intros target Hnd H; [discriminate |].
  inversion Hnd as [| ? ? Hnotin Hnd']; subst.
  destruct (String.eqb_spec k k') as [-> | Hk].
  - injection H as ->.
    rewrite get_spread_absent by now apply lookup_None_not_In.
    apply get_define_same.
  - now apply IH.
Qed.

(** The body of the 200 response, read property by property. *)
Lemma get_wrapped (result : JSObject) (k : string) :
  NoDup (map fst result) ->
  get (spread [("success", JBool true)] result) k =
  match lookup k result with
  | Some v => v
  | None => if String.eqb k "success" then JBool true else JUndefined
  end.
Proof.
  intros Hnd. destruct (lookup k result) as [v |] eqn:Hl.
  - now apply get_spread_present.
  - rewrite get_spread_absent by assumption. unfold get. cbn.
    now destruct (String.eqb k "success").
Qed.

(** * The dispatcher *)

Section DispatcherFacts.

Variable host : Host.
Variables mintSUI mintBSC mintBASE : JSObject -> AsyncFn JSObject.

Let dispatch := handleMint host mintSUI mintBSC mintBASE.

(** What the dispatcher answers once the selected executor has returned. *)
Lemma handleMint_dispatched (executor : JSObject -> AsyncFn JSObject)
    body s h h' result :
  get body "chain" = JString s ->
  (toUpperCase host s = "SUI" /\ executor = mintSUI \/
   toUpperCase host s = "BSC" /\ executor = mintBSC \/
   toUpperCase host s = "BASE" /\ executor = mintBASE) ->
  executor (omit "chain" body) h = (h', Returned result) ->
  dispatch body h =
    (h', Returned (mkResponse 200 (spread [("success", JBool true)] result))).
Proof.
  intros Hchain Htag Hexec.
  unfold dispatch, handleMint, run, try_catch, bind, attempt, await.
  rewrite Hchain. cbn [call_toUpperCase].
  destruct Htag as [[-> ->] | [[-> ->] | [-> ->]]]; cbn;
    rewrite Hexec; reflexivity.
Qed.

End DispatcherFacts.

(** C3.  A request whose chain tag is a string that, upper-cased, is none
    of SUI, BSC, BASE, SOL is answered at once with HTTP 400 and
    [{success: false, msg: "Unsupported chain"}]: whatever the executors
    are, none is invoked, and the call log is left as it was. *)
Theorem unsupported_chain_is_rejected
    (host : Host) (mintSUI mintBSC mintBASE : JSObject -> AsyncFn JSObject)
    (body : JSObject) (s : string) (h : History) :
  get body "chain" = JString s ->
  toUpperCase host s <> "SUI" ->
  toUpperCase host s <> "BSC" ->
  toUpperCase host s <> "BASE" ->
  toUpperCase host s <> "SOL" ->
  handleMint host mintSUI mintBSC mintBASE body h =
    (h, Returned (mkResponse 400
           [("success", JBool false); ("msg", JString "Unsupported chain")])).
Proof.
  intros Hchain H1 H2 H3 H4.
  apply String.eqb_neq in H1, H2, H3, H4.
  unfold handleMint, run, try_catch, bind, attempt.
  rewrite Hchain. cbn [call_toUpperCase].
  now rewrite H1, H2, H3, H4.
Qed.

Lemma unsupported_chain_is_rejected_witness :
  wired_handleMint offline_evm offline_indexer
    [("chain", JString "eth"); ("mintQuantity", JInt 1)] [] =
  ([], Returned (mkResponse 400
         [("success", JBool false); ("msg", JString "Unsupported chain")])).
Proof.
  apply (unsupported_chain_is_rejected example_host _ _ _ _ "eth");
    [ reflexivity | discriminate .. ].
Defined.

(** C10.  When the chain field of the body is absent, or is anything but a
    string, [chain.toUpperCase()] throws a TypeError and the dispatcher
    answers HTTP 500 with [{success: false, msg: "Minting error", error:
    <the TypeError's message>}], not the 400 of an unsupported chain; no
    executor is invoked. *)
Theorem missing_chain_is_a_server_error
    (host : Host) (mintSUI mintBSC mintBASE : JSObject -> AsyncFn JSObject)
    (body : JSObject) (h : History) :
  (forall s, get body "chain" <> JString s) ->
  exists e,
    call_toUpperCase host (get body "chain") = Thrown e /\
    err_name e = "TypeError" /\
    (get body "chain" = JUndefined ->
     err_message e = "Cannot read properties of undefined (reading 'toUpperCase')") /\
    handleMint host mintSUI mintBSC mintBASE body h =
      (h, Returned (mkResponse 500
             [("success", JBool false); ("msg", JString "Minting error");
              ("error", JString (err_message e))])) /\
    status (mkResponse 500
             [("success", JBool false); ("msg", JString "Minting error");
              ("error", JString (err_message e))]) <> 400.
Proof.
  intros Hnot.
  unfold handleMint, run, try_catch, bind, attempt.
  destruct (get body "chain") as [| | b | n | s | l | o] eqn:Hchain;
    try (eexists; cbn; repeat split; intros; solve [ reflexivity | discriminate ]).
  exfalso. now apply (Hnot s).
Qed.

Lemma missing_chain_is_a_server_error_witness :
  exists e,
    call_toUpperCase example_host JUndefined = Thrown e /\
    err_name e = "TypeError" /\
    wired_handleMint offline_evm offline_indexer
      [("privateKey", JString "k"); ("mintQuantity", JInt 1)] [] =
    ([], Returned (mkResponse 500
           [("success", JBool false); ("msg", JString "Minting error");
            ("error", JString (err_message e))])).
Proof.
  destruct (missing_chain_is_a_server_error example_host
              (mintSUI example_host example_env offline_indexer)
              (mintBSC example_host (mock_ethers (fun _ => true)) offline_evm)
              (mintBASE example_host (mock_ethers (fun _ => true)) offline_evm)
              [("privateKey", JString "k"); ("mintQuantity", JInt 1)] [])
    as (e & He & Hname & _ & Hrun & _).
  - intros s. cbn. discriminate.
  - exists e. auto.
Defined.

(** C2, as stated, fails: the BSC executor answers a request without a
    private key with [success: false], and the 200 response of the
    dispatcher reads [success: false] too, since the spread comes after the
    literal [success: true] and overrides it. *)
Lemma wrapped_failure_reads_false :
  exists result response,
    mintBSC example_host (mock_ethers (fun _ => true)) offline_evm [] [] =
      ([], Returned result) /\
    get result "success" = JBool false /\
    wired_handleMint offline_evm offline_indexer [("chain", JString "bsc")] [] =
      ([], Returned response) /\
    status response = 200 /\
    get (json response) "success" = JBool false /\
    get (json response) "success" <> JBool true.
Proof.
  do 2 eexists. repeat split; try reflexivity. discriminate.
Qed.

(** C2, amended.  When the selected executor returns a result, the
    dispatcher answers HTTP 200 with [{success: true, ...result}], in which
    every property of the result, its [success] flag included, overrides
    the literal: a result carrying [success: false] is answered with
    [success: false], and [success: true] is only the default for a result
    without the flag. *)
Theorem response_carries_result_success
    (host : Host) (mintSUI mintBSC mintBASE executor : JSObject -> AsyncFn JSObject)
    (body : JSObject) (s : string) (h h' : History) (result : JSObject) :
  get body "chain" = JString s ->
  (toUpperCase host s = "SUI" /\ executor = mintSUI \/
   toUpperCase host s = "BSC" /\ executor = mintBSC \/
   toUpperCase host s = "BASE" /\ executor = mintBASE) ->
  executor (omit "chain" body) h = (h', Returned result) ->
  unique_keys result ->
  exists j,
    handleMint host mintSUI mintBSC mintBASE body h =
      (h', Returned (mkResponse 200 j)) /\
    (forall k v, lookup k result = Some v -> get j k = v) /\
    (lookup "success" result = None -> get j "success" = JBool true) /\
    (lookup "success" result = Some (JBool false) -> get j "success" = JBool false).
Proof.
  intros Hchain Htag Hexec Hnd.
  exists (spread [("success", JBool true)] result).
  split; [ now apply (handleMint_dispatched host _ _ _ executor body s) |].
  split; [| split].
  - intros k v Hl. rewrite get_wrapped by assumption. now rewrite Hl.
  - intros Hl. rewrite get_wrapped by assumption. now rewrite Hl.
  - intros Hl. rewrite get_wrapped by assumption. now rewrite Hl.
Qed.

Lemma response_carries_result_success_witness :
  exists j,
    wired_handleMint offline_evm offline_indexer
      [("chain", JString "base"); ("mintQuantity", JInt 1)] [] =
      ([], Returned (mkResponse 200 j)) /\
    get j "success" = JBool false /\
    get j "code" = JString "MISSING_PRIVATE_KEY".
Proof.
  destruct (response_carries_result_success example_host
              (mintSUI example_host example_env offline_indexer)
              (mintBSC example_host (mock_ethers (fun _ => true)) offline_evm)
              (mintBASE example_host (mock_ethers (fun _ => true)) offline_evm)
              (mintBASE example_host (mock_ethers (fun _ => true)) offline_evm)
              [("chain", JString "base"); ("mintQuantity", JInt 1)] "base" [] []
              (failure "Private key is required" "MISSING_PRIVATE_KEY"))
    as (j & Hrun & Hget & _ & Hfalse).
  - reflexivity.
  - right. right. split; reflexivity.
  - reflexivity.
  - unfold unique_keys. cbn. repeat constructor; cbn; intuition discriminate.
  - exists j. split; [ exact Hrun |]. split.
    + apply Hfalse. reflexivity.
    + apply Hget. reflexivity.
Defined.

(** * The invariant of results *)

Lemma result_ok_spec (r : JSObject) :
  result_ok r = true ->
  exactly_one (success_with_hash r) (failure_with_code r).
Proof.
  unfold result_ok, exactly_one, success_with_hash, failure_with_code, present, presentb.
  destruct (get r "success") as [| | [|] | | | |] eqn:Hs; try discriminate; intros H.
  - left. split.
    + split; [ reflexivity |].
      apply orb_true_iff in H. destruct H as [H | H]; [left | right];
        intros Hu; rewrite Hu in H; discriminate.
    + intros [Hf _]. discriminate.
  - right. split.
    + split; [ reflexivity |]. intros Hu. rewrite Hu in H. discriminate.
    + intros [Hf _]. discriminate.
Qed.

(** C1, as stated, fails at the dispatcher's SOL branch: its result is a
    failure without a code.  The request [{chain: "sol"}] is answered with
    exactly that object. *)
Lemma sol_branch_result_has_no_code :
  get sol_stub "success" = JBool false /\
  get sol_stub "code" = JUndefined /\
  ~ exactly_one (success_with_hash sol_stub) (failure_with_code sol_stub) /\
  wired_handleMint offline_evm offline_indexer [("chain", JString "sol")] [] =
    ([], Returned (mkResponse 200 sol_stub)).
Proof.
  repeat split; try reflexivity.
  unfold exactly_one, success_with_hash, failure_with_code, present. cbn.
  intros [[[H _] _] | [[_ H] _]]; [ discriminate | now apply H ].
Qed.

Lemma evm_well_formed_spec (r : JSObject) :
  evm_well_formed r ->
  exactly_one (get r "success" = JBool true) (failure_with_code r).
Proof.
  intros [Hok | (receipt & ->)].
  - destruct (result_ok_spec r Hok) as [[[Hs _] Hn] | [Hf Hn]].
    + left. auto.
    + right. split; [ exact Hf |]. destruct Hf as [Hf _]. congruence.
  - left. split; [ reflexivity |]. intros [Hf _]. discriminate.
Qed.

(** C1, amended.  Each of the four chain executors (SUI, BASE, BSC, SOL)
    returns, for every input and whatever the network and the libraries
    answer, and every failure it returns carries a code.  For SUI and SOL
    exactly one of {success = true with a transaction hash present} and
    {success = false with a code present} holds; for BASE and BSC exactly
    one of {success = true} and {success = false with a code present}
    holds, and nothing is said here of the hash of their successes.  (The
    dispatcher's SOL branch is not an executor: it answers a fixed
    [{success: false, msg}] without a code.) *)
Theorem executor_results_are_well_formed
    (host : Host) (ethers : Ethers) (evm : EvmNetwork)
    (solana : SolanaLib) (solnet : SolanaNetwork)
    (env : Env) (indexer : Indexer) (input : JSObject) (h : History) :
  (exists h' r, mintSUI host env indexer input h = (h', Returned r) /\
                exactly_one (success_with_hash r) (failure_with_code r)) /\
  (exists h' r, mintBASE host ethers evm input h = (h', Returned r) /\
                exactly_one (get r "success" = JBool true) (failure_with_code r)) /\
  (exists h' r, mintBSC host ethers evm input h = (h', Returned r) /\
                exactly_one (get r "success" = JBool true) (failure_with_code r)) /\
  (exists h' r, mintSOL host solana solnet input h = (h', Returned r) /\
                exactly_one (success_with_hash r) (failure_with_code r)).
Proof.
  repeat split.
  - destruct (mintSUI_returns host env indexer input h) as (t & r & Hrun & _ & Hr).
    eauto using result_ok_spec.
  - destruct (mintBASE_returns host ethers evm input h) as (t & r & Hrun & _ & Hr).
    eauto using evm_well_formed_spec.
  - destruct (mintBSC_returns host ethers evm input h) as (t & r & Hrun & _ & Hr).
    eauto using evm_well_formed_spec.
  - destruct (mintSOL_returns host solana solnet input h) as (t & r & Hrun & _ & Hr).
    eauto using result_ok_spec.
Qed.

(** * Input validation *)

Lemma rejected_quantity_fails_check (host : Host) (q : JSValue) :
  rejected_quantity host q -> falsy_or_lt host q 1 = Ok true.
Proof.
  unfold falsy_or_lt.
  intros [Hfalsy | [(x & -> & Hx) | [-> | (s & -> & Hs)]]].
  - now rewrite Hfalsy.
  - destruct (negb (ToBoolean (JNumber (Fin x)))); [ reflexivity |].
    unfold js_lt, ToNumber, num_lt, Qltb. f_equal. apply negb_true_iff.
    destruct (Qle_bool (inject_Z 1) x) eqn:Hle; [| reflexivity ].
    apply Qle_bool_iff in Hle. exfalso. revert Hle. now apply Qlt_not_le.
  - reflexivity.
  - destruct (negb (ToBoolean (JString s))); [ reflexivity |].
    unfold js_lt, ToNumber. f_equal. exact Hs.
Qed.

Section RunLemmas.

Context {R A : Type}.

Lemma run_try_bind_normal (m : M R A) (k : A -> M R Empty_set)
    (handler : JSError -> M R Empty_set) h h1 a :
  m h = (h1, Normal a) ->
  run (try_catch (bind m k) handler) h = run (try_catch (k a) handler) h1.
Proof.
  intros Hm. unfold run, try_catch, bind. now rewrite Hm.
Qed.

End RunLemmas.

Section LowQuantity.

Variable host : Host.
Variable input : JSObject.
Hypothesis Hq : rejected_quantity host (get input "mintQuantity").

Lemma mintBASE_low_quantity lib net h :
  mintBASE host lib net input h =
    (h, Returned (first_missing evm_required input invalid_quantity)).
Proof.
  pose proof (rejected_quantity_fails_check host _ Hq) as Hcheck.
  unfold mintBASE, first_missing, evm_required.
  destruct (ToBoolean (get input "privateKey")); [| reflexivity ].
  destruct (ToBoolean (get input "contractAddress")); [| reflexivity ].
  unfold run, try_catch, bind, attempt. now rewrite Hcheck.
Qed.

Lemma mintBSC_low_quantity lib net h :
  mintBSC host lib net input h =
    (h, Returned (first_missing evm_required input invalid_quantity)).
Proof.
  pose proof (rejected_quantity_fails_check host _ Hq) as Hcheck.
  unfold mintBSC, first_missing, evm_required.
  destruct (ToBoolean (get input "privateKey")); [| reflexivity ].
  destruct (ToBoolean (get input "contractAddress")); [| reflexivity ].
  unfold run, try_catch, bind, attempt. now rewrite Hcheck.
Qed.

Lemma mintSOL_low_quantity lib net h :
  mintSOL host lib net input h =
    (h, Returned (first_missing sol_required input invalid_quantity)).
Proof.
  pose proof (rejected_quantity_fails_check host _ Hq) as Hcheck.
  unfold mintSOL, first_missing, sol_required.
  destruct (ToBoolean (get input "privateKey")); [| reflexivity ].
  destruct (ToBoolean (get input "contractAddress")); [| reflexivity ].
  unfold run, try_catch, bind, attempt. now rewrite Hcheck.
Qed.

Lemma mintSUI_low_quantity env indexer h :
  mintSUI host env indexer input h =
    (h, Returned (first_missing sui_required input invalid_quantity)).
Proof.
  pose proof (rejected_quantity_fails_check host _ Hq) as Hcheck.
  unfold mintSUI, first_missing, sui_required.
  destruct (ToBoolean (get input "privateKey")); [| reflexivity ].
  destruct (ToBoolean (get input "collectionId")); [| reflexivity ].
  destruct (ToBoolean (get input "mintStage")); [| reflexivity ].
  unfold run, try_catch, bind, attempt. now rewrite Hcheck.
Qed.

End LowQuantity.

(** C4, as stated, fails.  A quantity that is text without a number in it
    ("abc") passes [!mintQuantity || mintQuantity < 1], since the comparison
    with NaN is false: each executor goes on to the network.  And a quantity
    of 0 in a request without a private key is answered with
    MISSING_PRIVATE_KEY, the check that comes first. *)
Lemma text_quantity_reaches_the_network :
  ToNumber example_host (JString "abc") = Ok NaN /\
  mintBASE example_host (mock_ethers (fun _ => true)) offline_evm
           (sample_evm_input (JString "abc")) [] =
    (map EvGetNetwork base_rpcUrls,
     Returned (failure "Unable to connect to BASE network. All RPC endpoints are down."
                       "RPC_CONNECTION_FAILED")) /\
  mintBSC example_host (mock_ethers (fun _ => true)) offline_evm
          (sample_evm_input (JString "abc")) [] =
    (map EvGetNetwork bsc_rpcUrls,
     Returned (failure "Unable to connect to BSC network. All RPC endpoints are down."
                       "RPC_CONNECTION_FAILED")) /\
  mintSOL example_host (mock_solana (Ok bytes64))
          (scripted_solana (fun _ => false) 0 Pending)
          (sample_sol_input "[7,7,7]" (JString "abc")) [] =
    (map EvGetVersion sol_rpcUrls,
     Returned (failure "Unable to connect to Solana network. All RPC endpoints are down."
                       "RPC_CONNECTION_FAILED")) /\
  mintSUI example_host example_env offline_indexer
          (sample_sui_input (JString "abc")) [] =
    ([EvAxios 1 300000; EvSleep 1000; EvAxios 2 300000; EvSleep 2000; EvAxios 3 300000],
     Returned (failure "SUI indexer endpoint refused connection." "CONNECTION_REFUSED")) /\
  mintBASE example_host (mock_ethers (fun _ => true)) offline_evm
           [("mintQuantity", JInt 0)] [] =
    ([], Returned (failure "Private key is required" "MISSING_PRIVATE_KEY")).
Proof.
  repeat split; reflexivity.
Qed.

(** C4, amended.  For every executor (SUI, BASE, BSC, SOL) and every input
    whose mintQuantity is falsy (absent, null, false, 0, NaN, the empty
    text), a number below 1, or text that reads as a number below 1, the
    executor returns a failure without making any call at all.  The failure
    is that of the first required field that is absent, in the order of the
    checks (privateKey, then contractAddress; for SUI privateKey,
    collectionId, mintStage), with its MISSING_* code; when all of them are
    present it is INVALID_QUANTITY. *)
Theorem low_quantity_is_rejected_locally
    (host : Host) (ethers : Ethers) (evm : EvmNetwork)
    (solana : SolanaLib) (solnet : SolanaNetwork)
    (env : Env) (indexer : Indexer) (input : JSObject) (h : History) :
  rejected_quantity host (get input "mintQuantity") ->
  mintSUI host env indexer input h =
    (h, Returned (first_missing sui_required input invalid_quantity)) /\
  mintBASE host ethers evm input h =
    (h, Returned (first_missing evm_required input invalid_quantity)) /\
  mintBSC host ethers evm input h =
    (h, Returned (first_missing evm_required input invalid_quantity)) /\
  mintSOL host solana solnet input h =
    (h, Returned (first_missing sol_required input invalid_quantity)).
Proof.
  intros Hq. repeat split.
  - now apply mintSUI_low_quantity.
  - now apply mintBASE_low_quantity.
  - now apply mintBSC_low_quantity.
  - now apply mintSOL_low_quantity.
Qed.

Lemma low_quantity_is_rejected_locally_witness :
  rejected_quantity example_host (get (sample_evm_input (JString "0")) "mintQuantity") /\
  mintBASE example_host (mock_ethers (fun _ => true)) offline_evm
           (sample_evm_input (JString "0")) [] =
    ([], Returned (failure "Mint quantity must be at least 1" "INVALID_QUANTITY")) /\
  mintSUI example_host example_env offline_indexer
          [("privateKey", JString key64); ("mintQuantity", JString "0")] [] =
    ([], Returned (failure "Collection ID is required" "MISSING_COLLECTION_ID")).
Proof.
  assert (Hq : rejected_quantity example_host (JString "0")).
  { right. right. right. exists "0". split; reflexivity. }
  split; [ exact Hq |]. split.
  - exact (proj1 (proj2 (low_quantity_is_rejected_locally example_host
             (mock_ethers (fun _ => true)) offline_evm
             (mock_solana (Ok bytes64)) (scripted_solana (fun _ => false) 0 Pending)
             example_env offline_indexer (sample_evm_input (JString "0")) [] Hq))).
  - exact (proj1 (low_quantity_is_rejected_locally example_host
             (mock_ethers (fun _ => true)) offline_evm
             (mock_solana (Ok bytes64)) (scripted_solana (fun _ => false) 0 Pending)
             example_env offline_indexer
             [("privateKey", JString key64); ("mintQuantity", JString "0")] [] Hq)).
Defined.

(** * Connection establishment *)

Lemma connect_provider_all_fail net urls : forall h,
  (forall u, In u urls -> evm_probe_fails net u) ->
  connect_provider net urls h = ((h ++ map EvGetNetwork urls)%list, Normal None).
Proof.
  induction urls as [| u urls IH]; intros h Hfail; cbn [connect_provider map].
  - unfold ret. now rewrite app_nil_r.
  - destruct (Hfail u (or_introl eq_refl) h) as [e He].
    unfold bind, try_catch, call. rewrite He. cbn.
    rewrite IH by (intros v Hv; apply Hfail; now right).
    now rewrite <- app_assoc.
Qed.

Lemma connect_provider_first net pre u post : forall h,
  (forall v, In v pre -> evm_probe_fails net v) ->
  getNetwork net (h ++ map EvGetNetwork pre)%list u = Ok tt ->
  connect_provider net (pre ++ u :: post) h =
    ((h ++ map EvGetNetwork (pre ++ [u]))%list, Normal (Some u)).
Proof.
  induction pre as [| v pre IH]; intros h Hfail Hlive; cbn [connect_provider map app].
  - cbn in Hlive. rewrite app_nil_r in Hlive.
    unfold bind, try_catch, call. rewrite Hlive. reflexivity.
  - destruct (Hfail v (or_introl eq_refl) h) as [e He].
    unfold bind, try_catch, call. rewrite He. cbn.
    rewrite IH.
    + now rewrite <- app_assoc.
    + intros w Hw. apply Hfail. now right.
    + cbn in Hlive. now rewrite <- app_assoc.
Qed.

Lemma connect_solana_all_fail net urls : forall h,
  (forall u, In u urls -> sol_probe_fails net u) ->
  connect_solana net urls h = ((h ++ map EvGetVersion urls)%list, Normal None).
Proof.
  induction urls as [| u urls IH]; intros h Hfail; cbn [connect_solana map].
  - unfold ret. now rewrite app_nil_r.
  - destruct (Hfail u (or_introl eq_refl) h) as [e He].
    unfold bind, try_catch, call. rewrite He. cbn.
    rewrite IH by (intros v Hv; apply Hfail; now right).
    now rewrite <- app_assoc.
Qed.

Lemma connect_solana_first net pre u post : forall h,
  (forall v, In v pre -> sol_probe_fails net v) ->
  getVersion net (h ++ map EvGetVersion pre)%list u = Ok tt ->
  connect_solana net (pre ++ u :: post) h =
    ((h ++ map EvGetVersion (pre ++ [u]))%list, Normal (Some u)).
Proof.
  induction pre as [| v pre IH]; intros h Hfail Hlive; cbn [connect_solana map app].
  - cbn in Hlive. rewrite app_nil_r in Hlive.
    unfold bind, try_catch, call. rewrite Hlive. reflexivity.
  - destruct (Hfail v (or_introl eq_refl) h) as [e He].
    unfold bind, try_catch, call. rewrite He. cbn.
    rewrite IH.
    + now rewrite <- app_assoc.
    + intros w Hw. apply Hfail. now right.
    + cbn in Hlive. now rewrite <- app_assoc.
Qed.

Lemma passes_inv (check : Attempt bool) : passes check = true -> check = Ok false.
Proof.
  destruct check as [[|] | e]; cbn; intros H; try discriminate; reflexivity.
Qed.

Lemma evm_input_valid_inv host lib input :
  evm_input_valid host lib input = true ->
  ToBoolean (get input "privateKey") = true /\
  ToBoolean (get input "contractAddress") = true /\
  falsy_or_lt host (get input "mintQuantity") 1 = Ok false /\
  isAddress lib (get input "contractAddress") = true.
Proof.
  unfold evm_input_valid. intros H.
  repeat (apply andb_true_iff in H; destruct H as [H ?]).
  repeat split; auto. now apply passes_inv.
Qed.

Lemma sol_input_valid_inv host input :
  sol_input_valid host input = true ->
  ToBoolean (get input "privateKey") = true /\
  ToBoolean (get input "contractAddress") = true /\
  falsy_or_lt host (get input "mintQuantity") 1 = Ok false.
Proof.
  unfold sol_input_valid. intros H.
  repeat (apply andb_true_iff in H; destruct H as [H ?]).
  repeat split; auto. now apply passes_inv.
Qed.

(** The executor, once the input is valid, as its connection step and what
    follows it. *)
Lemma mintBASE_valid host lib net input h :
  evm_input_valid host lib input = true ->
  mintBASE host lib net input h =
  run (try_catch
         (connected <- connect_provider net base_rpcUrls ;;
          match connected with
          | None =>
              return_ (failure "Unable to connect to BASE network. All RPC endpoints are down."
                               "RPC_CONNECTION_FAILED")
          | Some provider =>
              base_after_connect lib net provider (get input "privateKey")
                (get input "contractAddress") (get input "mintQuantity")
          end)
         (evm_outer_catch
            "Network connection error. Please check your internet and try again."
            "Request timed out. Network might be congested."
            "Insufficient funds to cover transaction and gas fees"
            "Rate limited by RPC provider. Please try again in a moment."
            "Transaction failed. Please verify your inputs and try again.")) h.
Proof.
  intros Hv. apply evm_input_valid_inv in Hv. destruct Hv as (H1 & H2 & H3 & H4).
  unfold mintBASE. rewrite H1, H2. cbn [negb].
  unfold run, try_catch. unfold bind at 2. unfold attempt. now rewrite H3, H4.
Qed.

Lemma mintBSC_valid host lib net input h :
  evm_input_valid host lib input = true ->
  mintBSC host lib net input h =
  run (try_catch
         (connected <- connect_provider net bsc_rpcUrls ;;
          match connected with
          | None =>
              return_ (failure "Unable to connect to BSC network. All RPC endpoints are down."
                               "RPC_CONNECTION_FAILED")
          | Some provider =>
              bsc_after_connect lib net provider (get input "privateKey")
                (get input "contractAddress") (get input "mintQuantity")
          end)
         (evm_outer_catch
            "BSC network connection error. Please try again."
            "Request timed out. BSC network might be congested."
            "Insufficient BNB to cover transaction and gas fees"
            "Rate limited by BSC RPC provider. Please try again in a moment."
            "BSC transaction failed. Please verify your inputs and try again.")) h.
Proof.
  intros Hv. apply evm_input_valid_inv in Hv. destruct Hv as (H1 & H2 & H3 & H4).
  unfold mintBSC. rewrite H1, H2. cbn [negb].
  unfold run, try_catch. unfold bind at 2. unfold attempt. now rewrite H3, H4.
Qed.

Lemma mintSOL_valid host lib net input h :
  sol_input_valid host input = true ->
  mintSOL host lib net input h =
  run (try_catch
         (connected <- connect_solana net sol_rpcUrls ;;
          match connected with
          | None =>
              return_ (failure
                         "Unable to connect to Solana network. All RPC endpoints are down."
                         "RPC_CONNECTION_FAILED")
          | Some connection =>
              sol_after_connect host lib net connection (get input "privateKey")
                (get input "contractAddress") (get input "mintQuantity")
          end)
         sol_outer_catch) h.
Proof.
  intros Hv. apply sol_input_valid_inv in Hv. destruct Hv as (H1 & H2 & H3).
  unfold mintSOL. rewrite H1, H2. cbn [negb].
  unfold run, try_catch. unfold bind at 2. unfold attempt. now rewrite H3.
Qed.

Section FirstCall.

Context {R : Type}.

Lemma safe_extends {A} E (P : R -> Prop) throws (m : M R A) :
  safe E P throws m -> extends m.
Proof.
  intros Hm h. destruct (Hm h) as (t & Ht & _). eauto.
Qed.

Lemma starts_call {A} ev (answer : History -> Attempt A) :
  starts_with ev (call (R := R) ev answer).
Proof.
  intros h. exists []. unfold call. now destruct (answer h).
Qed.

Lemma starts_bind {A B} ev (m : M R A) (k : A -> M R B) :
  starts_with ev m -> (forall a, extends (k a)) -> starts_with ev (bind m k).
Proof.
  intros Hm Hk h. destruct (Hm h) as [t Ht]. unfold bind.
  destruct (m h) as [h1 c]. cbn in Ht. subst h1. destruct c as [a | r | e].
  - destruct (Hk a (h ++ ev :: t)%list) as [t' Ht']. exists (t ++ t')%list.
    etransitivity; [ exact Ht' | rewrite <- app_assoc; reflexivity ].
  - exists t. reflexivity.
  - exists t. reflexivity.
Qed.

Lemma starts_try {A} ev (m : M R A) (handler : JSError -> M R A) :
  starts_with ev m -> (forall e, extends (handler e)) ->
  starts_with ev (try_catch m handler).
Proof.
  intros Hm Hh h. destruct (Hm h) as [t Ht]. unfold try_catch.
  destruct (m h) as [h1 c]. cbn in Ht. subst h1. destruct c as [a | r | e].
  - exists t. reflexivity.
  - exists t. reflexivity.
  - destruct (Hh e (h ++ ev :: t)%list) as [t' Ht']. exists (t ++ t')%list.
    etransitivity; [ exact Ht' | rewrite <- app_assoc; reflexivity ].
Qed.

(** A function whose body starts with the call [ev]. *)
Lemma run_try_starts ev E (P : R -> Prop)
    (body : M R Empty_set) (handler : JSError -> M R Empty_set) :
  starts_with ev body ->
  safe E P true body -> (forall e, safe E P false (handler e)) ->
  forall h, exists t r,
    run (try_catch body handler) h = ((h ++ ev :: t)%list, Returned r) /\
    Forall E t /\ P r.
Proof.
  intros Hs Hb Hh h.
  destruct (run_try_returns E P body handler Hb Hh h) as (t & r & Hrun & Ht & Hr).
  assert (Hst : starts_with ev (try_catch body handler)).
  { apply starts_try; [ exact Hs | intros e; eapply safe_extends; apply Hh ]. }
  destruct (Hst h) as [t' Ht'].
  assert (Hfst : fst (run (try_catch body handler) h) = fst (try_catch body handler h)).
  { unfold run. destruct (try_catch body handler h) as [h1 [[] | r' | e]]; reflexivity. }
  rewrite Hrun, Ht' in Hfst. cbn in Hfst. apply app_inv_head in Hfst. subst t.
  exists t', r. rewrite Hrun. inversion Ht; subst. auto.
Qed.

(** A first statement [const a = try { lib(...) } catch { return ... }]. *)
Lemma run_try_bind_call_ok {A} ev (x : Attempt A) a (hd : JSError -> M R A)
    (k : A -> M R Empty_set) (handler : JSError -> M R Empty_set) h :
  x = Ok a ->
  run (try_catch (bind (try_catch (call ev (fun _ => x)) hd) k) handler) h =
  run (try_catch (k a) handler) (h ++ [ev])%list.
Proof.
  intros ->. reflexivity.
Qed.

Lemma run_try_bind_call_thrown {A} ev (x : Attempt A) e r
    (k : A -> M R Empty_set) (handler : JSError -> M R Empty_set) h :
  x = Thrown e ->
  run (try_catch (bind (try_catch (call ev (fun _ => x)) (fun _ => return_ r)) k)
                 handler) h =
  ((h ++ [ev])%list, Returned r).
Proof.
  intros ->. reflexivity.
Qed.

End FirstCall.

(** The first call of a term, following its shape. *)
Ltac starts_auto E P :=
  repeat first
    [ apply starts_call
    | apply starts_bind; [ | intros ?; apply (safe_extends E P true); safe_auto ]
    | apply starts_try; [ | intros ?; apply (safe_extends E P true); safe_auto ] ].

Section Fallback.

Variable host : Host.

Lemma mintBASE_unreachable lib net input h :
  evm_input_valid host lib input = true ->
  (forall u, In u base_rpcUrls -> evm_probe_fails net u) ->
  mintBASE host lib net input h =
    ((h ++ map EvGetNetwork base_rpcUrls)%list,
     Returned (failure "Unable to connect to BASE network. All RPC endpoints are down."
                       "RPC_CONNECTION_FAILED")).
Proof.
  intros Hv Hfail. rewrite mintBASE_valid by assumption.
  erewrite run_try_bind_normal by now apply connect_provider_all_fail.
  reflexivity.
Qed.

Lemma mintBSC_unreachable lib net input h :
  evm_input_valid host lib input = true ->
  (forall u, In u bsc_rpcUrls -> evm_probe_fails net u) ->
  mintBSC host lib net input h =
    ((h ++ map EvGetNetwork bsc_rpcUrls)%list,
     Returned (failure "Unable to connect to BSC network. All RPC endpoints are down."
                       "RPC_CONNECTION_FAILED")).
Proof.
  intros Hv Hfail. rewrite mintBSC_valid by assumption.
  erewrite run_try_bind_normal by now apply connect_provider_all_fail.
  reflexivity.
Qed.

Lemma mintSOL_unreachable lib net input h :
  sol_input_valid host input = true ->
  (forall u, In u sol_rpcUrls -> sol_probe_fails net u) ->
  mintSOL host lib net input h =
    ((h ++ map EvGetVersion sol_rpcUrls)%list,
     Returned (failure "Unable to connect to Solana network. All RPC endpoints are down."
                       "RPC_CONNECTION_FAILED")).
Proof.
  intros Hv Hfail. rewrite mintSOL_valid by assumption.
  erewrite run_try_bind_normal by now apply connect_solana_all_fail.
  reflexivity.
Qed.

(** Past the connection step no result carries the code of that step. *)
#[local] Hint Extern 1 (connected_result _) =>
  unfold connected_result; cbn; discriminate : safe_db.

Lemma base_no_tx_connected lastError : connected_result (base_no_tx lastError).
Proof.
  unfold base_no_tx.
  repeat match goal with
         | |- context [if ?c then _ else _] => destruct c
         end; unfold connected_result; cbn; discriminate.
Qed.

Lemma bsc_no_tx_connected lastError : connected_result (bsc_no_tx lastError).
Proof.
  unfold bsc_no_tx.
  repeat match goal with
         | |- context [if ?c then _ else _] => destruct c
         end; unfold connected_result; cbn; discriminate.
Qed.

Lemma evm_outer_catch_connected E a b c d e err :
  safe E connected_result false (evm_outer_catch a b c d e err).
Proof.
  unfold evm_outer_catch. safe_auto.
Qed.

Lemma evm_confirm_connected net provider tx :
  safe (speaks_to provider) connected_result true (evm_confirm net provider tx).
Proof.
  unfold evm_confirm. safe_auto.
Qed.

Lemma sol_outer_catch_connected E err :
  safe E connected_result false (sol_outer_catch err).
Proof.
  unfold sol_outer_catch. safe_auto.
Qed.

Lemma sol_transaction_connected lib net connection keypair mint q :
  safe (speaks_to connection) connected_result true
       (sol_transaction host lib net connection keypair mint q).
Proof.
  unfold sol_transaction.
  apply safe_try; [ | intros e; apply safe_weaken; unfold sol_transaction_catch ];
    safe_auto.
Qed.

#[local] Hint Resolve base_try_mint_safe bsc_try_mint_safe bsc_gasPrice_safe
  base_no_tx_connected bsc_no_tx_connected evm_confirm_connected
  sol_transaction_connected : safe_db.

Lemma mintBASE_first_live lib net input h pre u post :
  evm_input_valid host lib input = true ->
  base_rpcUrls = (pre ++ u :: post)%list ->
  (forall v, In v pre -> evm_probe_fails net v) ->
  getNetwork net (h ++ map EvGetNetwork pre)%list u = Ok tt ->
  exists t r,
    mintBASE host lib net input h =
      (((h ++ map EvGetNetwork (pre ++ [u])) ++ EvLocal "new ethers.Wallet" :: t)%list,
       Returned r) /\
    Forall (speaks_to u) t /\
    connected_result r /\
    (forall wallet, newWallet lib (get input "privateKey") = Ok wallet ->
       exists t', t = EvGetBalance u wallet :: t').
Proof.
  intros Hv Hurls Hfail Hlive. rewrite mintBASE_valid by assumption.
  rewrite Hurls.
  erewrite run_try_bind_normal by now apply connect_provider_first.
  unfold base_after_connect.
  destruct (newWallet lib (get input "privateKey")) as [wallet | e] eqn:Hw.
  - erewrite run_try_bind_call_ok by reflexivity.
    lazymatch goal with
    | |- context [run (try_catch ?b ?hd) ?h1] =>
        destruct (run_try_starts (EvGetBalance u wallet) (speaks_to u) connected_result
                    b hd) with (h := h1) as (t & r & Hrun & Ht & Hr)
    end.
    + starts_auto (speaks_to u) connected_result.
    + safe_auto.
    + intros e. apply evm_outer_catch_connected.
    + exists (EvGetBalance u wallet :: t), r. rewrite Hrun, <- app_assoc.
      repeat split; auto.
      * constructor; [ cbn; auto | exact Ht ].
      * intros w [= <-]. eauto.
  - erewrite run_try_bind_call_thrown by reflexivity.
    exists [], (failure "Invalid private key format" "INVALID_PRIVATE_KEY").
    repeat split; auto with safe_db. intros w [=].
Qed.

Lemma mintBSC_first_live lib net input h pre u post :
  evm_input_valid host lib input = true ->
  bsc_rpcUrls = (pre ++ u :: post)%list ->
  (forall v, In v pre -> evm_probe_fails net v) ->
  getNetwork net (h ++ map EvGetNetwork pre)%list u = Ok tt ->
  exists t r,
    mintBSC host lib net input h =
      (((h ++ map EvGetNetwork (pre ++ [u])) ++ EvLocal "new ethers.Wallet" :: t)%list,
       Returned r) /\
    Forall (speaks_to u) t /\
    connected_result r /\
    (forall wallet, newWallet lib (get input "privateKey") = Ok wallet ->
       exists t', t = EvGetBalance u wallet :: t').
Proof.
  intros Hv Hurls Hfail Hlive. rewrite mintBSC_valid by assumption.
  rewrite Hurls.
  erewrite run_try_bind_normal by now apply connect_provider_first.
  unfold bsc_after_connect.
  destruct (newWallet lib (get input "privateKey")) as [wallet | e] eqn:Hw.
  - erewrite run_try_bind_call_ok by reflexivity.
    lazymatch goal with
    | |- context [run (try_catch ?b ?hd) ?h1] =>
        destruct (run_try_starts (EvGetBalance u wallet) (speaks_to u) connected_result
                    b hd) with (h := h1) as (t & r & Hrun & Ht & Hr)
    end.
    + starts_auto (speaks_to u) connected_result.
    + safe_auto.
    + intros e. apply evm_outer_catch_connected.
    + exists (EvGetBalance u wallet :: t), r. rewrite Hrun, <- app_assoc.
      repeat split; auto.
      * constructor; [ cbn; auto | exact Ht ].
      * intros w [= <-]. eauto.
  - erewrite run_try_bind_call_thrown by reflexivity.
    exists [], (failure "Invalid private key format" "INVALID_PRIVATE_KEY").
    repeat split; auto with safe_db. intros w [=].
Qed.

Lemma sol_keypair_connected lib pk :
  safe (fun e => is_network e = false) connected_result false (sol_keypair lib pk).
Proof.
  unfold sol_keypair. apply safe_try; [ | intros e ]; safe_auto.
Qed.

Lemma local_speaks_to u (t : list Event) :
  Forall (fun e => is_network e = false) t -> Forall (speaks_to u) t.
Proof.
  apply Forall_impl. intros [] H; cbn in *; auto; discriminate.
Qed.

Lemma mintSOL_first_live lib net input h pre u post :
  sol_input_valid host input = true ->
  sol_rpcUrls = (pre ++ u :: post)%list ->
  (forall v, In v pre -> sol_probe_fails net v) ->
  getVersion net (h ++ map EvGetVersion pre)%list u = Ok tt ->
  exists t r,
    mintSOL host lib net input h =
      (((h ++ map EvGetVersion (pre ++ [u])) ++ t)%list, Returned r) /\
    Forall (speaks_to u) t /\
    connected_result r /\
    (forall tk keypair mint,
       sol_keypair lib (get input "privateKey") (h ++ map EvGetVersion (pre ++ [u]))%list =
         (((h ++ map EvGetVersion (pre ++ [u])) ++ tk)%list, Normal keypair) ->
       newPublicKey lib (get input "contractAddress") = Ok mint ->
       Forall (fun e => is_network e = false) tk /\
       exists t', t = (tk ++ EvLocal "new PublicKey"
                          :: EvSolGetBalance u keypair :: t')%list).
Proof.
  intros Hv Hurls Hfail Hlive. rewrite mintSOL_valid by assumption.
  rewrite Hurls.
  erewrite run_try_bind_normal by now apply connect_solana_first.
  unfold sol_after_connect.
  set (h0 := (h ++ map EvGetVersion (pre ++ [u]))%list).
  destruct (sol_keypair_connected lib (get input "privateKey") h0)
    as (tk & Htk & Hlocal & Hc).
  destruct (sol_keypair lib (get input "privateKey") h0) as [h1 c] eqn:Hk.
  cbn in Htk, Hc. subst h1. destruct c as [keypair | r | e]; [ | | discriminate ].
  - erewrite run_try_bind_normal by exact Hk.
    destruct (newPublicKey lib (get input "contractAddress")) as [mint | e] eqn:Hm.
    + erewrite run_try_bind_call_ok by reflexivity.
      lazymatch goal with
      | |- context [run (try_catch ?b ?hd) ?h1] =>
          destruct (run_try_starts (EvSolGetBalance u keypair) (speaks_to u)
                      connected_result b hd) with (h := h1)
            as (t & r & Hrun & Ht & Hr)
      end.
      * starts_auto (speaks_to u) connected_result.
      * safe_auto.
      * intros e. apply sol_outer_catch_connected.
      * exists (tk ++ EvLocal "new PublicKey" :: EvSolGetBalance u keypair :: t)%list, r.
        rewrite Hrun. repeat rewrite <- app_assoc. cbn [app].
        split; [ reflexivity | ]. split; [ | split; [ exact Hr | ] ].
        -- apply Forall_app. split; [ now apply local_speaks_to | ].
           repeat constructor; cbn; auto.
        -- intros tk' keypair' mint' Hk' _.
           injection Hk' as Hh <-. apply app_inv_head in Hh. subst tk'. eauto.
    + erewrite run_try_bind_call_thrown by reflexivity.
      exists (tk ++ [EvLocal "new PublicKey"])%list,
             (failure "Invalid Solana contract address format" "INVALID_ADDRESS_FORMAT").
      rewrite <- app_assoc. split; [ reflexivity | ].
      split; [ | split; [ auto with safe_db | intros ? ? ? _ [=] ] ].
      apply Forall_app. split; [ now apply local_speaks_to | ].
      repeat constructor; cbn; auto.
  - exists tk, r. split.
    + unfold run, try_catch, bind. now rewrite Hk.
    + split; [ now apply local_speaks_to | ]. split; [ exact Hc | intros ? ? ? [=] ].
Qed.

End Fallback.

(** C5.  For BASE, BSC and SOL, on an input that passes the checks before
    the connection step: if the liveness probe fails on every endpoint of
    the executor's list, the executor returns RPC_CONNECTION_FAILED and the
    probes, in the order of the list, are the only calls it made (no key
    parsing, no balance query, no submission); otherwise the probes stop at
    the first endpoint that answers, the executor goes on to parse the key,
    its result is not RPC_CONNECTION_FAILED, every later call goes to that
    endpoint, and once the key is parsed (for SOL, the mint address too) the
    next call is the balance query at that endpoint. *)
Theorem endpoints_are_tried_in_order
    (host : Host) (ethers : Ethers) (evm : EvmNetwork)
    (solana : SolanaLib) (solnet : SolanaNetwork) (input : JSObject) (h : History) :
  (evm_input_valid host ethers input = true ->
   ((forall u, In u base_rpcUrls -> evm_probe_fails evm u) ->
    mintBASE host ethers evm input h =
      ((h ++ map EvGetNetwork base_rpcUrls)%list,
       Returned (failure "Unable to connect to BASE network. All RPC endpoints are down."
                         "RPC_CONNECTION_FAILED"))) /\
   ((forall u, In u bsc_rpcUrls -> evm_probe_fails evm u) ->
    mintBSC host ethers evm input h =
      ((h ++ map EvGetNetwork bsc_rpcUrls)%list,
       Returned (failure "Unable to connect to BSC network. All RPC endpoints are down."
                         "RPC_CONNECTION_FAILED"))) /\
   (forall pre u post,
      base_rpcUrls = (pre ++ u :: post)%list ->
      (forall v, In v pre -> evm_probe_fails evm v) ->
      getNetwork evm (h ++ map EvGetNetwork pre)%list u = Ok tt ->
      exists t r,
        mintBASE host ethers evm input h =
          (((h ++ map EvGetNetwork (pre ++ [u]))
              ++ EvLocal "new ethers.Wallet" :: t)%list, Returned r) /\
        Forall (speaks_to u) t /\
        connected_result r /\
        (forall wallet, newWallet ethers (get input "privateKey") = Ok wallet ->
           exists t', t = EvGetBalance u wallet :: t')) /\
   (forall pre u post,
      bsc_rpcUrls = (pre ++ u :: post)%list ->
      (forall v, In v pre -> evm_probe_fails evm v) ->
      getNetwork evm (h ++ map EvGetNetwork pre)%list u = Ok tt ->
      exists t r,
        mintBSC host ethers evm input h =
          (((h ++ map EvGetNetwork (pre ++ [u]))
              ++ EvLocal "new ethers.Wallet" :: t)%list, Returned r) /\
        Forall (speaks_to u) t /\
        connected_result r /\
        (forall wallet, newWallet ethers (get input "privateKey") = Ok wallet ->
           exists t', t = EvGetBalance u wallet :: t'))) /\
  (sol_input_valid host input = true ->
   ((forall u, In u sol_rpcUrls -> sol_probe_fails solnet u) ->
    mintSOL host solana solnet input h =
      ((h ++ map EvGetVersion sol_rpcUrls)%list,
       Returned (failure "Unable to connect to Solana network. All RPC endpoints are down."
                         "RPC_CONNECTION_FAILED"))) /\
   (forall pre u post,
      sol_rpcUrls = (pre ++ u :: post)%list ->
      (forall v, In v pre -> sol_probe_fails solnet v) ->
      getVersion solnet (h ++ map EvGetVersion pre)%list u = Ok tt ->
      exists t r,
        mintSOL host solana solnet input h =
          (((h ++ map EvGetVersion (pre ++ [u])) ++ t)%list, Returned r) /\
        Forall (speaks_to u) t /\
        connected_result r /\
        (forall tk keypair mint,
           sol_keypair solana (get input "privateKey")
                       (h ++ map EvGetVersion (pre ++ [u]))%list =
             (((h ++ map EvGetVersion (pre ++ [u])) ++ tk)%list, Normal keypair) ->
           newPublicKey solana (get input "contractAddress") = Ok mint ->
           Forall (fun e => is_network e = false) tk /\
           exists t', t = (tk ++ EvLocal "new PublicKey"
                              :: EvSolGetBalance u keypair :: t')%list))).
Proof.
  split; intros Hv; repeat split.
  - now apply mintBASE_unreachable.
  - now apply mintBSC_unreachable.
  - intros pre u post. now apply mintBASE_first_live.
  - intros pre u post. now apply mintBSC_first_live.
  - now apply mintSOL_unreachable.
  - intros pre u post. now apply mintSOL_first_live.
Qed.

Lemma endpoints_are_tried_in_order_witness :
  let second_live :=
    scripted_evm (fun u => String.eqb u "https://bsc-dataseed1.defibit.io/")
      0 (Ok None) (fun _ _ => Ok 100000) (fun _ _ _ => Ok "0xTX") Pending in
  (evm_input_valid example_host (mock_ethers (fun _ => true))
     (sample_evm_input (JInt 1)) = true /\
   (forall u, In u base_rpcUrls -> evm_probe_fails offline_evm u) /\
   mintBASE example_host (mock_ethers (fun _ => true)) offline_evm
            (sample_evm_input (JInt 1)) [] =
     (map EvGetNetwork base_rpcUrls,
      Returned (failure "Unable to connect to BASE network. All RPC endpoints are down."
                        "RPC_CONNECTION_FAILED"))) /\
  (evm_probe_fails second_live "https://bsc-dataseed.binance.org/" /\
   exists t r,
     mintBSC example_host (mock_ethers (fun _ => true)) second_live
             (sample_evm_input (JInt 1)) [] =
       (([EvGetNetwork "https://bsc-dataseed.binance.org/";
          EvGetNetwork "https://bsc-dataseed1.defibit.io/"]
           ++ EvLocal "new ethers.Wallet" :: t)%list, Returned r) /\
     Forall (speaks_to "https://bsc-dataseed1.defibit.io/") t /\
     connected_result r /\
     (forall wallet,
        newWallet (mock_ethers (fun _ => true))
                  (get (sample_evm_input (JInt 1)) "privateKey") = Ok wallet ->
        exists t', t = EvGetBalance "https://bsc-dataseed1.defibit.io/" wallet :: t')).
Proof.
  intros second_live.
  assert (Hv : evm_input_valid example_host (mock_ethers (fun _ => true))
                 (sample_evm_input (JInt 1)) = true) by reflexivity.
  assert (Hdead : forall u, In u base_rpcUrls -> evm_probe_fails offline_evm u)
    by (intros u _ h; eexists; reflexivity).
  assert (Hfirst : evm_probe_fails second_live "https://bsc-dataseed.binance.org/")
    by (intros h; eexists; reflexivity).
  split.
  - split; [ exact Hv | split; [ exact Hdead | ] ].
    exact (proj1 (proj1 (endpoints_are_tried_in_order example_host
                           (mock_ethers (fun _ => true)) offline_evm
                           (mock_solana (Ok bytes64))
                           (scripted_solana (fun _ => false) 0 Pending)
                           (sample_evm_input (JInt 1)) []) Hv) Hdead).
  - split; [ exact Hfirst |].
    refine (proj2 (proj2 (proj2 (proj1 (endpoints_are_tried_in_order example_host
                           (mock_ethers (fun _ => true)) second_live
                           (mock_solana (Ok bytes64))
                           (scripted_solana (fun _ => false) 0 Pending)
                           (sample_evm_input (JInt 1)) []) Hv)))
                  ["https://bsc-dataseed.binance.org/"]
                  "https://bsc-dataseed1.defibit.io/"
                  ["https://bsc-dataseed1.ninicoin.io/"; "https://bsc.drpc.org/"]
                  eq_refl _ eq_refl).
    intros v [<- | []]. exact Hfirst.
Defined.

(** * The balance precheck *)

Lemma base_low_balance lib net provider pk ca q h wallet balance :
  newWallet lib pk = Ok wallet ->
  getBalance net (h ++ [EvLocal "new ethers.Wallet"])%list provider wallet = Ok balance ->
  balance < base_min_balance ->
  base_after_connect lib net provider pk ca q h =
    ((h ++ [EvLocal "new ethers.Wallet"; EvGetBalance provider wallet])%list,
     Return (failure ("Insufficient balance. Current: " ++ etherFixed4 lib balance
                      ++ " ETH. Minimum required: 0.001 ETH")
                     "INSUFFICIENT_BALANCE")).
Proof.
  intros Hw Hb Hlt. apply Z.ltb_lt in Hlt.
  unfold base_after_connect, bind, try_catch, call.
  rewrite Hw, Hb, Hlt. cbn. now rewrite <- app_assoc.
Qed.

Lemma bsc_low_balance lib net provider pk ca q h wallet balance :
  newWallet lib pk = Ok wallet ->
  getBalance net (h ++ [EvLocal "new ethers.Wallet"])%list provider wallet = Ok balance ->
  balance < bsc_min_balance ->
  bsc_after_connect lib net provider pk ca q h =
    ((h ++ [EvLocal "new ethers.Wallet"; EvGetBalance provider wallet])%list,
     Return (failure ("Insufficient BNB balance. Current: " ++ etherFixed4 lib balance
                      ++ " BNB. Minimum required: 0.005 BNB")
                     "INSUFFICIENT_BALANCE")).
Proof.
  intros Hw Hb Hlt. apply Z.ltb_lt in Hlt.
  unfold bsc_after_connect, bind, try_catch, call.
  rewrite Hw, Hb, Hlt. cbn. now rewrite <- app_assoc.
Qed.

Lemma sol_low_balance host lib net connection pk ca q h tk keypair mint balance :
  sol_keypair lib pk h = ((h ++ tk)%list, Normal keypair) ->
  newPublicKey lib ca = Ok mint ->
  sol_getBalance net ((h ++ tk) ++ [EvLocal "new PublicKey"])%list connection keypair
    = Ok balance ->
  balance < sol_min_balance ->
  sol_after_connect host lib net connection pk ca q h =
    ((h ++ tk ++ [EvLocal "new PublicKey"; EvSolGetBalance connection keypair])%list,
     Return (failure ("Insufficient SOL balance. Current: " ++ solFixed4 lib balance
                      ++ " SOL. Minimum required: 0.01 SOL")
                     "INSUFFICIENT_BALANCE")).
Proof.
  intros Hk Hm Hb Hlt. apply Z.ltb_lt in Hlt.
  unfold sol_after_connect, bind.
  rewrite Hk. unfold try_catch, call.
  rewrite Hm, Hb, Hlt. cbn. now rewrite <- !app_assoc.
Qed.

Lemma sol_keypair_calls_are_local lib pk h :
  exists t, fst (sol_keypair lib pk h) = (h ++ t)%list /\ local_only t.
Proof.
  destruct (sol_keypair_local lib pk h) as (t & Ht & Hl & _). eauto.
Qed.

Lemma probes_submit_nothing (probe : string -> Event) (urls : list string) :
  (forall u, is_submission (probe u) = false) ->
  nothing_submitted (map probe urls).
Proof.
  intros Hp. apply Forall_forall. intros e He.
  apply in_map_iff in He. destruct He as (u & <- & _). apply Hp.
Qed.

Lemma local_calls_submit_nothing (t : list Event) :
  local_only t -> nothing_submitted t.
Proof.
  apply Forall_impl. intros [] H; cbn in *; auto; discriminate.
Qed.

(** C8.  For BASE, BSC and SOL, on an input that passes the checks before
    the connection step, once an endpoint has answered the probe and the key
    has been turned into a wallet (for SOL: into a keypair, and the mint
    address parsed): if the balance the endpoint reports is below the
    minimum (0.001 ETH, 0.005 BNB, 0.01 SOL), the executor returns
    INSUFFICIENT_BALANCE with a message that holds the balance printed with
    four decimals and the minimum, and the balance query is the last call it
    made: nothing was submitted. *)
Theorem low_balance_stops_before_submission
    (host : Host) (ethers : Ethers) (evm : EvmNetwork)
    (solana : SolanaLib) (solnet : SolanaNetwork) (input : JSObject) (h : History) :
  (base_min_balance * 1000 = ether /\
   bsc_min_balance * 1000 = 5 * ether /\
   sol_min_balance * 100 = LAMPORTS_PER_SOL) /\
  (evm_input_valid host ethers input = true ->
   forall pre u post wallet balance,
     (forall v, In v pre -> evm_probe_fails evm v) ->
     getNetwork evm (h ++ map EvGetNetwork pre)%list u = Ok tt ->
     newWallet ethers (get input "privateKey") = Ok wallet ->
     getBalance evm ((h ++ map EvGetNetwork (pre ++ [u]))
                       ++ [EvLocal "new ethers.Wallet"])%list u wallet = Ok balance ->
     let calls := (map EvGetNetwork (pre ++ [u])
                     ++ [EvLocal "new ethers.Wallet"; EvGetBalance u wallet])%list in
     nothing_submitted calls /\
     (base_rpcUrls = (pre ++ u :: post)%list ->
      balance < base_min_balance ->
      mintBASE host ethers evm input h =
        ((h ++ calls)%list,
         Returned (failure ("Insufficient balance. Current: " ++ etherFixed4 ethers balance
                            ++ " ETH. Minimum required: 0.001 ETH")
                           "INSUFFICIENT_BALANCE"))) /\
     (bsc_rpcUrls = (pre ++ u :: post)%list ->
      balance < bsc_min_balance ->
      mintBSC host ethers evm input h =
        ((h ++ calls)%list,
         Returned (failure ("Insufficient BNB balance. Current: "
                            ++ etherFixed4 ethers balance
                            ++ " BNB. Minimum required: 0.005 BNB")
                           "INSUFFICIENT_BALANCE")))) /\
  (sol_input_valid host input = true ->
   forall pre u post tk keypair mint balance,
     sol_rpcUrls = (pre ++ u :: post)%list ->
     (forall v, In v pre -> sol_probe_fails solnet v) ->
     getVersion solnet (h ++ map EvGetVersion pre)%list u = Ok tt ->
     sol_keypair solana (get input "privateKey") (h ++ map EvGetVersion (pre ++ [u]))%list
       = (((h ++ map EvGetVersion (pre ++ [u])) ++ tk)%list, Normal keypair) ->
     newPublicKey solana (get input "contractAddress") = Ok mint ->
     sol_getBalance solnet (((h ++ map EvGetVersion (pre ++ [u])) ++ tk)
                              ++ [EvLocal "new PublicKey"])%list u keypair = Ok balance ->
     balance < sol_min_balance ->
     let calls := (map EvGetVersion (pre ++ [u]) ++ tk
                     ++ [EvLocal "new PublicKey"; EvSolGetBalance u keypair])%list in
     nothing_submitted calls /\
     mintSOL host solana solnet input h =
       ((h ++ calls)%list,
        Returned (failure ("Insufficient SOL balance. Current: " ++ solFixed4 solana balance
                           ++ " SOL. Minimum required: 0.01 SOL")
                          "INSUFFICIENT_BALANCE"))).
Proof.
  split; [ repeat split; reflexivity |].
  split.
  - intros Hv pre u post wallet balance Hfail Hlive Hw Hb calls.
    split; [| split ].
    + apply Forall_app. split.
      * apply probes_submit_nothing. reflexivity.
      * repeat constructor.
    + intros Hurls Hlt. rewrite mintBASE_valid by assumption. rewrite Hurls.
      erewrite run_try_bind_normal by now apply connect_provider_first.
      cbn beta iota. unfold run, try_catch.
      erewrite (base_low_balance ethers evm u _ _ _ _ wallet balance) by eassumption.
      subst calls. now rewrite <- app_assoc.
    + intros Hurls Hlt. rewrite mintBSC_valid by assumption. rewrite Hurls.
      erewrite run_try_bind_normal by now apply connect_provider_first.
      cbn beta iota. unfold run, try_catch.
      erewrite (bsc_low_balance ethers evm u _ _ _ _ wallet balance) by eassumption.
      subst calls. now rewrite <- app_assoc.
  - intros Hv pre u post tk keypair mint balance Hurls Hfail Hlive Hk Hm Hb Hlt calls.
    split.
    + apply Forall_app. split; [ apply probes_submit_nothing; reflexivity |].
      apply Forall_app. split; [| repeat constructor ].
      apply local_calls_submit_nothing.
      destruct (sol_keypair_calls_are_local solana (get input "privateKey")
                  (h ++ map EvGetVersion (pre ++ [u]))%list) as (t & Ht & Hl).
      rewrite Hk in Ht. cbn in Ht. apply app_inv_head in Ht. now subst t.
    + rewrite mintSOL_valid by assumption. rewrite Hurls.
      erewrite run_try_bind_normal by now apply connect_solana_first.
      cbn beta iota. unfold run, try_catch.
      erewrite (sol_low_balance host solana solnet u _ _ _ _ tk keypair mint balance)
        by eassumption.
      subst calls. now rewrite <- !app_assoc.
Qed.

Lemma low_balance_stops_before_submission_witness :
  (evm_input_valid example_host (mock_ethers (fun _ => true))
     (sample_evm_input (JInt 1)) = true /\
   500000000000000 < base_min_balance /\
   mintBASE example_host (mock_ethers (fun _ => true))
            (first_endpoint_evm 500000000000000 (fun _ _ => Ok 100000) Pending)
            (sample_evm_input (JInt 1)) [] =
     ([EvGetNetwork "https://base.drpc.org/";
       EvLocal "new ethers.Wallet";
       EvGetBalance "https://base.drpc.org/" "0xWALLET"],
      Returned (failure "Insufficient balance. Current: 0.0005 ETH. Minimum required: 0.001 ETH"
                        "INSUFFICIENT_BALANCE"))) /\
  (sol_input_valid example_host (sample_sol_input sample_key_array (JInt 1)) = true /\
   5000000 < sol_min_balance /\
   mintSOL example_host parsing_solana
           (scripted_solana (fun _ => true) 5000000 Pending)
           (sample_sol_input sample_key_array (JInt 1)) [] =
     ([EvGetVersion "https://api.mainnet-beta.solana.com";
       EvLocal "JSON.parse";
       EvLocal "Keypair.fromSecretKey";
       EvLocal "new PublicKey";
       EvSolGetBalance "https://api.mainnet-beta.solana.com" "OWNER"],
      Returned (failure "Insufficient SOL balance. Current: 0.0050 SOL. Minimum required: 0.01 SOL"
                        "INSUFFICIENT_BALANCE"))).
Proof.
  assert (Hv : evm_input_valid example_host (mock_ethers (fun _ => true))
                 (sample_evm_input (JInt 1)) = true) by reflexivity.
  assert (Hlt : 500000000000000 < base_min_balance) by reflexivity.
  assert (Hs : sol_input_valid example_host
                 (sample_sol_input sample_key_array (JInt 1)) = true) by reflexivity.
  assert (Hsl : 5000000 < sol_min_balance) by reflexivity.
  split.
  - split; [ exact Hv | split; [ exact Hlt | ] ].
    destruct (low_balance_stops_before_submission example_host
                (mock_ethers (fun _ => true))
                (first_endpoint_evm 500000000000000 (fun _ _ => Ok 100000) Pending)
                (mock_solana (Ok bytes64)) (scripted_solana (fun _ => false) 0 Pending)
                (sample_evm_input (JInt 1)) []) as (_ & Hevm & _).
    destruct (Hevm Hv [] "https://base.drpc.org/"
                ["https://mainnet.base.org/"; "https://base-mainnet.public.blastapi.io"]
                "0xWALLET" 500000000000000) as (_ & Hbase & _).
    + intros v [].
    + reflexivity.
    + reflexivity.
    + reflexivity.
    + exact (Hbase eq_refl Hlt).
  - split; [ exact Hs | split; [ exact Hsl | ] ].
    destruct (low_balance_stops_before_submission example_host
                (mock_ethers (fun _ => true)) offline_evm
                parsing_solana
                (scripted_solana (fun _ => true) 5000000 Pending)
                (sample_sol_input sample_key_array (JInt 1)) []) as (_ & _ & Hsol).
    destruct (Hsol Hs [] "https://api.mainnet-beta.solana.com"
                ["https://solana-api.projectserum.com"; "https://rpc.ankr.com/solana";
                 "https://solana.drpc.org"]
                [EvLocal "JSON.parse"; EvLocal "Keypair.fromSecretKey"]
                "OWNER" "MintAddress1111111111111111111111111111111" 5000000)
      as (_ & Hrun).
    + reflexivity.
    + intros v [].
    + reflexivity.
    + reflexivity.
    + reflexivity.
    + reflexivity.
    + exact Hsl.
    + exact Hrun.
Defined.

(** * The Solana key parser *)

Lemma sol_keypair_cases (lib : SolanaLib) (s : string) (h : History) :
  sol_keypair lib (JString s) h =
  match decode_key lib s with
  | None => (h, Return invalid_key_format)
  | Some (calls, Thrown _) => ((h ++ calls)%list, Return invalid_key)
  | Some (calls, Ok bytes) =>
      if Z.of_nat (List.length bytes) =? 64 then
        match Keypair_fromSecretKey lib bytes with
        | Ok keypair =>
            ((h ++ calls ++ [EvLocal "Keypair.fromSecretKey"])%list, Normal keypair)
        | Thrown _ =>
            ((h ++ calls ++ [EvLocal "Keypair.fromSecretKey"])%list, Return invalid_key)
        end
      else ((h ++ calls)%list, Return invalid_key_length)
  end.
Proof.
  unfold sol_keypair, decode_key, key_shape, try_catch, bind, call, ret, return_.
  destruct (startsWith s "[" && endsWith s "]").
  - destruct (JSON_parse_bytes lib s) as [bytes | e]; [| reflexivity ].
    destruct (Z.of_nat (List.length bytes) =? 64); [| reflexivity ].
    cbn. destruct (Keypair_fromSecretKey lib bytes);
      now rewrite <- app_assoc.
  - destruct (str_length s =? 128).
    + rewrite app_nil_r.
      destruct (Z.of_nat (List.length (Buffer_from_hex s)) =? 64); [| reflexivity ].
      cbn. now destruct (Keypair_fromSecretKey lib (Buffer_from_hex s)).
    + destruct (str_length s =? 88); [| reflexivity ].
      destruct (bs58_decode lib s) as [bytes | e]; [| reflexivity ].
      destruct (Z.of_nat (List.length bytes) =? 64); [| reflexivity ].
      cbn. destruct (Keypair_fromSecretKey lib bytes);
        now rewrite <- app_assoc.
Qed.

(** C9, as stated, fails: the text "[abc]" is none of the three encodings,
    yet it is not answered with INVALID_PRIVATE_KEY_FORMAT.  It has the shape
    of the array encoding, [JSON.parse] throws on it, and the [catch] of the
    parser answers INVALID_PRIVATE_KEY. *)
Lemma malformed_array_key_is_not_a_format_error :
  mintSOL example_host
          (mock_solana (Thrown (SyntaxError "Unexpected token a in JSON at position 1")))
          (scripted_solana (fun _ => true) 0 Pending)
          (sample_sol_input "[abc]" (JInt 1)) [] =
    ([EvGetVersion "https://api.mainnet-beta.solana.com"; EvLocal "JSON.parse"],
     Returned (failure "Invalid private key format or corrupted key" "INVALID_PRIVATE_KEY"))
  /\ "INVALID_PRIVATE_KEY" <> "INVALID_PRIVATE_KEY_FORMAT"
  /\ "INVALID_PRIVATE_KEY" <> "INVALID_PRIVATE_KEY_LENGTH".
Proof.
  repeat split; try reflexivity; discriminate.
Qed.

(** C9, amended.  The SOL executor selects the decoding of the private key by
    the shape of the text: text that starts with '[' and ends with ']' is
    parsed as a JSON array of bytes, text of 128 characters is decoded as hex,
    text of 88 characters as base58.  Text of any other shape is answered with
    INVALID_PRIVATE_KEY_FORMAT; a decoded key that is not 64 bytes long with
    INVALID_PRIVATE_KEY_LENGTH; a decoder or a keypair construction that
    throws, and a key that is not text, with INVALID_PRIVATE_KEY.  All three
    are produced locally: the parser makes no network call. *)
Theorem sol_key_parser_outcomes (lib : SolanaLib) (privateKey : JSValue) (h : History) :
  (forall s, privateKey = JString s -> decode_key lib s = None ->
     sol_keypair lib privateKey h = (h, Return invalid_key_format)) /\
  (forall s calls bytes,
     privateKey = JString s -> decode_key lib s = Some (calls, Ok bytes) ->
     Z.of_nat (List.length bytes) <> 64 ->
     sol_keypair lib privateKey h = ((h ++ calls)%list, Return invalid_key_length)) /\
  (forall s calls e,
     privateKey = JString s -> decode_key lib s = Some (calls, Thrown e) ->
     sol_keypair lib privateKey h = ((h ++ calls)%list, Return invalid_key)) /\
  (forall s calls bytes e,
     privateKey = JString s -> decode_key lib s = Some (calls, Ok bytes) ->
     Z.of_nat (List.length bytes) = 64 ->
     Keypair_fromSecretKey lib bytes = Thrown e ->
     sol_keypair lib privateKey h =
       ((h ++ calls ++ [EvLocal "Keypair.fromSecretKey"])%list, Return invalid_key)) /\
  (forall s calls bytes keypair,
     privateKey = JString s -> decode_key lib s = Some (calls, Ok bytes) ->
     Z.of_nat (List.length bytes) = 64 ->
     Keypair_fromSecretKey lib bytes = Ok keypair ->
     sol_keypair lib privateKey h =
       ((h ++ calls ++ [EvLocal "Keypair.fromSecretKey"])%list, Normal keypair)) /\
  ((forall s, privateKey <> JString s) ->
     sol_keypair lib privateKey h = (h, Return invalid_key)) /\
  (exists t, fst (sol_keypair lib privateKey h) = (h ++ t)%list /\ local_only t).
Proof.
  repeat split.
  - intros s -> Hd. now rewrite sol_keypair_cases, Hd.
  - intros s calls bytes -> Hd Hlen. rewrite sol_keypair_cases, Hd.
    apply Z.eqb_neq in Hlen. now rewrite Hlen.
  - intros s calls e -> Hd. now rewrite sol_keypair_cases, Hd.
  - intros s calls bytes e -> Hd Hlen Hk. rewrite sol_keypair_cases, Hd.
    apply Z.eqb_eq in Hlen. now rewrite Hlen, Hk.
  - intros s calls bytes keypair -> Hd Hlen Hk. rewrite sol_keypair_cases, Hd.
    apply Z.eqb_eq in Hlen. now rewrite Hlen, Hk.
  - intros Hns. destruct privateKey; try reflexivity. now destruct (Hns s).
  - apply sol_keypair_calls_are_local.
Qed.

Lemma sol_key_parser_outcomes_witness :
  decode_key (mock_solana (Ok bytes64)) "not a key" = None /\
  sol_keypair (mock_solana (Ok bytes64)) (JString "not a key") [] =
    ([], Return invalid_key_format) /\
  decode_key (mock_solana (Ok [1; 2; 3])) "[1,2,3]" =
    Some ([EvLocal "JSON.parse"], Ok [1; 2; 3]) /\
  sol_keypair (mock_solana (Ok [1; 2; 3])) (JString "[1,2,3]") [] =
    ([EvLocal "JSON.parse"], Return invalid_key_length).
Proof.
  split; [ reflexivity | split; [| split; [ reflexivity |] ] ].
  - exact (proj1 (sol_key_parser_outcomes (mock_solana (Ok bytes64))
                    (JString "not a key") [])
                 "not a key" eq_refl eq_refl).
  - refine (proj1 (proj2 (sol_key_parser_outcomes (mock_solana (Ok [1; 2; 3]))
                            (JString "[1,2,3]") []))
                  "[1,2,3]" [EvLocal "JSON.parse"] [1; 2; 3] eq_refl eq_refl _).
    discriminate.
Defined.

(** * The confirmation timeout *)

(** On BASE and BSC a confirmation that does not come in time is answered
    with CONFIRMATION_TIMEOUT and the hash of the sent transaction. *)
Lemma evm_timeout_keeps_hash net provider txHash h :
  wait net h provider txHash = Pending ->
  evm_confirm net provider txHash h =
    ((h ++ [EvWait provider txHash 300000])%list,
     Return (confirmation_timed_out txHash)).
Proof.
  intros Hw. unfold evm_confirm, try_catch, bind, call. now rewrite Hw.
Qed.

(** On SOL the [catch] that classifies a failed transaction has no access to
    the signature: none of its results carries it. *)
Lemma sol_transaction_catch_has_no_hash (e : JSError) (h : History) :
  exists r, sol_transaction_catch e h = (h, Return r) /\
            lookup "txHash" r = None /\ lookup "signature" r = None.
Proof.
  unfold sol_transaction_catch.
  repeat match goal with
         | |- context [if ?c then _ else _] => destruct c
         end; eexists; repeat split.
Qed.


(** * Gas budget and gas price *)

Section Gas.

Variable net : EvmNetwork.
Variable provider : string.
Variable contract : string -> bool.

Lemma base_skips_unexposed skipped fs lastError h :
  Forall (unexposed contract) skipped ->
  base_try_mint net provider contract (skipped ++ fs) lastError h =
  base_try_mint net provider contract fs lastError h.
Proof.
  induction 1 as [| [name args] skipped Hname _ IH]; [ reflexivity |].
  cbn [app base_try_mint]. unfold unexposed in Hname. cbn in Hname.
  now rewrite Hname.
Qed.

Lemma bsc_skips_unexposed gasPrice skipped fs lastError h :
  Forall (unexposed contract) skipped ->
  bsc_try_mint net provider contract gasPrice (skipped ++ fs) lastError h =
  bsc_try_mint net provider contract gasPrice fs lastError h.
Proof.
  induction 1 as [| [name args] skipped Hname _ IH]; [ reflexivity |].
  cbn [app bsc_try_mint]. unfold unexposed in Hname. cbn in Hname.
  now rewrite Hname.
Qed.

Lemma bsc_estimated_budget gasPrice name args rest lastError h gasEstimate tx :
  contract name = true ->
  estimateGas net h provider name args = Ok gasEstimate ->
  sendTransaction net (h ++ [EvEstimateGas provider name args])%list provider name args
                  (gasEstimate + 50000) gasPrice = Ok tx ->
  bsc_try_mint net provider contract gasPrice ((name, args) :: rest) lastError h =
    ((h ++ [EvEstimateGas provider name args;
            EvSend provider name args (gasEstimate + 50000) gasPrice])%list,
     Normal (Some tx, lastError)).
Proof.
  intros Hc He Hs. cbn [bsc_try_mint]. rewrite Hc.
  unfold bind, try_catch, call, bsc_gas_buffer. rewrite He, Hs. cbn.
  now rewrite <- app_assoc.
Qed.


Lemma base_fixed_budget name args rest lastError h gasEstimate tx :
  contract name = true ->
  estimateGas net h provider name args = Ok gasEstimate ->
  sendTransaction net (h ++ [EvEstimateGas provider name args])%list provider name args
                  500000 (20 * gwei) = Ok tx ->
  base_try_mint net provider contract ((name, args) :: rest) lastError h =
    ((h ++ [EvEstimateGas provider name args;
            EvSend provider name args 500000 (20 * gwei)])%list,
     Normal (Some tx, lastError)).
Proof.
  intros Hc He Hs. cbn [base_try_mint]. rewrite Hc.
  unfold bind, try_catch, call, ret, base_gasLimit, base_gasPrice.
  rewrite He. cbv beta iota. rewrite Hs. cbv beta iota.
  now rewrite <- app_assoc.
Qed.

End Gas.


Lemma base_try_mint_step net provider contract name args rest lastError h :
  base_try_mint net provider contract ((name, args) :: rest) lastError h =
  if contract name then
    match estimateGas net h provider name args with
    | Ok _ =>
        match sendTransaction net (h ++ [EvEstimateGas provider name args])%list
                provider name args 500000 (20 * gwei) with
        | Ok tx =>
            ((h ++ [EvEstimateGas provider name args;
                    EvSend provider name args 500000 (20 * gwei)])%list,
             Normal (Some tx, lastError))
        | Thrown e =>
            base_try_mint net provider contract rest (Some e)
              (h ++ [EvEstimateGas provider name args;
                     EvSend provider name args 500000 (20 * gwei)])%list
        end
    | Thrown _ =>
        base_try_mint net provider contract rest lastError
          (h ++ [EvEstimateGas provider name args])%list
    end
  else base_try_mint net provider contract rest lastError h.
Proof.
  cbn [base_try_mint]. destruct (contract name); [| reflexivity ].
  unfold bind, try_catch, call, ret, base_gasLimit, base_gasPrice.
  destruct (estimateGas net h provider name args); [| reflexivity ].
  cbv beta iota.
  destruct (sendTransaction net (h ++ [EvEstimateGas provider name args])%list
              provider name args 500000 (20 * gwei));
    cbv beta iota; now rewrite <- app_assoc.
Qed.

Lemma bsc_try_mint_step net provider contract gasPrice name args rest lastError h :
  bsc_try_mint net provider contract gasPrice ((name, args) :: rest) lastError h =
  if contract name then
    let h1 := (h ++ [EvEstimateGas provider name args])%list in
    let fixed h2 :=
      match sendTransaction net h2 provider name args 300000 gasPrice with
      | Ok tx =>
          ((h2 ++ [EvSend provider name args 300000 gasPrice])%list,
           Normal (Some tx, lastError))
      | Thrown e =>
          bsc_try_mint net provider contract gasPrice rest (Some e)
            (h2 ++ [EvSend provider name args 300000 gasPrice])%list
      end in
    match estimateGas net h provider name args with
    | Ok gasEstimate =>
        match sendTransaction net h1 provider name args
                (gasEstimate + 50000) gasPrice with
        | Ok tx =>
            ((h1 ++ [EvSend provider name args (gasEstimate + 50000) gasPrice])%list,
             Normal (Some tx, lastError))
        | Thrown _ =>
            fixed (h1 ++ [EvSend provider name args (gasEstimate + 50000) gasPrice])%list
        end
    | Thrown _ => fixed h1
    end
  else bsc_try_mint net provider contract gasPrice rest lastError h.
Proof.
  cbn [bsc_try_mint]. destruct (contract name); [| reflexivity ].
  unfold bind, try_catch, call, ret, bsc_gas_buffer, bsc_fixed_gasLimit.
  cbv zeta.
  destruct (estimateGas net h provider name args) as [gasEstimate | e]; cbv beta iota.
  - destruct (sendTransaction net (h ++ [EvEstimateGas provider name args])%list
                provider name args (gasEstimate + 50000) gasPrice);
      cbv beta iota; [ reflexivity |].
    match goal with
    | |- context [sendTransaction net ?h2 provider name args 300000 gasPrice] =>
        destruct (sendTransaction net h2 provider name args 300000 gasPrice)
    end; reflexivity.
  - match goal with
    | |- context [sendTransaction net ?h2 provider name args 300000 gasPrice] =>
        destruct (sendTransaction net h2 provider name args 300000 gasPrice)
    end; reflexivity.
Qed.

Section Loops.

Variable net : EvmNetwork.
Variable provider : string.
Variable contract : string -> bool.



End Loops.


(** * Results are objects *)

Ltac solve_unique_keys :=
  unfold unique_keys, failure, failure_details, confirmation_timed_out;
  cbn [map fst];
  repeat constructor; cbn; intuition discriminate.

#[local] Hint Extern 1 (unique_keys _) => solve_unique_keys : safe_db.

Ltac unique_by_cases :=
  repeat match goal with
         | |- context [if ?c then _ else _] => destruct c
         end; solve_unique_keys.

Section ResultKeys.

Variable host : Host.

Lemma connect_provider_keys net urls :
  safe any_event unique_keys true (connect_provider net urls).
Proof.
  induction urls as [| u urls IH]; cbn [connect_provider]; safe_auto.
Qed.

Lemma evm_outer_catch_keys a b c d e err :
  safe any_event unique_keys false (evm_outer_catch a b c d e err).
Proof.
  unfold evm_outer_catch. safe_auto.
Qed.

Lemma evm_confirm_keys net provider tx :
  safe any_event unique_keys true (evm_confirm net provider tx).
Proof.
  unfold evm_confirm. safe_auto.
Qed.

Lemma base_try_mint_keys net provider contract fs lastError :
  safe any_event unique_keys true (base_try_mint net provider contract fs lastError).
Proof.
  revert lastError.
  induction fs as [| [name args] fs IH]; intros lastError;
    cbn [base_try_mint]; safe_auto.
Qed.

Lemma bsc_try_mint_keys net provider contract gasPrice fs lastError :
  safe any_event unique_keys true
       (bsc_try_mint net provider contract gasPrice fs lastError).
Proof.
  revert lastError.
  induction fs as [| [name args] fs IH]; intros lastError;
    cbn [bsc_try_mint]; safe_auto.
Qed.

Lemma base_no_tx_keys lastError : unique_keys (base_no_tx lastError).
Proof. unfold base_no_tx. unique_by_cases. Qed.

Lemma bsc_no_tx_keys lastError : unique_keys (bsc_no_tx lastError).
Proof. unfold bsc_no_tx. unique_by_cases. Qed.

Lemma bsc_gasPrice_keys net provider :
  safe any_event unique_keys true (bsc_gasPrice net provider).
Proof.
  unfold bsc_gasPrice. safe_auto.
Qed.

#[local] Hint Resolve connect_provider_keys evm_confirm_keys base_try_mint_keys
  bsc_try_mint_keys base_no_tx_keys bsc_no_tx_keys bsc_gasPrice_keys : safe_db.

Lemma base_after_connect_keys lib net provider pk ca q :
  safe any_event unique_keys true (base_after_connect lib net provider pk ca q).
Proof.
  unfold base_after_connect. safe_auto.
Qed.

Lemma bsc_after_connect_keys lib net provider pk ca q :
  safe any_event unique_keys true (bsc_after_connect lib net provider pk ca q).
Proof.
  unfold bsc_after_connect. safe_auto.
Qed.

Lemma sui_request_keys indexer attempts lastError :
  safe any_event unique_keys true (sui_request indexer attempts lastError).
Proof.
  revert lastError.
  induction attempts as [| n attempts IH]; intros lastError;
    cbn [sui_request]; safe_auto.
Qed.

Lemma sui_http_error_keys response : unique_keys (sui_http_error response).
Proof. unfold sui_http_error. unique_by_cases. Qed.

Lemma sui_graphql_error_keys errors :
  safe any_event unique_keys true (sui_graphql_error errors).
Proof.
  unfold sui_graphql_error. safe_auto.
Qed.

#[local] Hint Resolve sui_request_keys sui_http_error_keys sui_graphql_error_keys
  : safe_db.

Lemma sui_interpret_keys response q c :
  safe any_event unique_keys true (sui_interpret host response q c).
Proof.
  unfold sui_interpret. safe_auto.
Qed.

Lemma sui_outer_catch_keys err :
  safe any_event unique_keys false (sui_outer_catch err).
Proof.
  unfold sui_outer_catch. safe_auto.
Qed.

Lemma mintBASE_keys lib net input h :
  exists t r, mintBASE host lib net input h = ((h ++ t)%list, Returned r) /\
              Forall any_event t /\ unique_keys r.
Proof.
  unfold mintBASE. apply run_try_returns.
  - safe_auto. apply base_after_connect_keys.
  - intros e. apply evm_outer_catch_keys.
Qed.

Lemma mintBSC_keys lib net input h :
  exists t r, mintBSC host lib net input h = ((h ++ t)%list, Returned r) /\
              Forall any_event t /\ unique_keys r.
Proof.
  unfold mintBSC. apply run_try_returns.
  - safe_auto. apply bsc_after_connect_keys.
  - intros e. apply evm_outer_catch_keys.
Qed.

Lemma mintSUI_keys env indexer input h :
  exists t r, mintSUI host env indexer input h = ((h ++ t)%list, Returned r) /\
              Forall any_event t /\ unique_keys r.
Proof.
  unfold mintSUI. apply run_try_returns.
  - safe_auto. apply sui_interpret_keys.
  - intros e. apply sui_outer_catch_keys.
Qed.

End ResultKeys.

(** * What the dispatcher answers *)

Lemma get_wrapped_same (result : JSObject) (k : string) :
  unique_keys result -> get result "success" <> JUndefined ->
  get (spread [("success", JBool true)] result) k = get result k.
Proof.
  intros Hu Hs. rewrite get_wrapped by assumption.
  unfold get in *. destruct (lookup k result) eqn:Hl; [ reflexivity |].
  destruct (String.eqb_spec k "success") as [-> | _]; [| reflexivity ].
  rewrite Hl in Hs. now destruct Hs.
Qed.

Lemma wrapped_result_ok (result : JSObject) :
  unique_keys result -> result_ok result = true ->
  result_ok (spread [("success", JBool true)] result) = true.
Proof.
  intros Hu Hok.
  assert (Hs : get result "success" <> JUndefined).
  { intros H. unfold result_ok in Hok. rewrite H in Hok. discriminate. }
  unfold result_ok, presentb in *.
  now rewrite !get_wrapped_same by assumption.
Qed.

(** X2.  An exception that escapes the selected executor is answered with HTTP
    500 and [{success: false, msg: "Minting error", error: <its message>}];
    the calls the executor made before it threw stay in the log. *)
Theorem executor_exception_is_a_500
    (host : Host) (mintSUI mintBSC mintBASE executor : JSObject -> AsyncFn JSObject)
    (body : JSObject) (s : string) (h h' : History) (e : JSError) :
  get body "chain" = JString s ->
  (toUpperCase host s = "SUI" /\ executor = mintSUI \/
   toUpperCase host s = "BSC" /\ executor = mintBSC \/
   toUpperCase host s = "BASE" /\ executor = mintBASE) ->
  executor (omit "chain" body) h = (h', Rejected e) ->
  handleMint host mintSUI mintBSC mintBASE body h =
    (h', Returned (mkResponse 500
            [("success", JBool false); ("msg", JString "Minting error");
             ("error", JString (err_message e))])).
Proof.
  intros Hchain Htag Hexec.
  unfold handleMint, run, try_catch, bind, attempt, await.
  rewrite Hchain. cbn [call_toUpperCase].
  destruct Htag as [[-> ->] | [[-> ->] | [-> ->]]]; cbn;
    rewrite Hexec; reflexivity.
Qed.

Lemma executor_exception_is_a_500_witness :
  handleMint example_host
    (fun _ h => ((h ++ [EvAxios 1 0])%list, Rejected refused))
    (mintBSC example_host (mock_ethers (fun _ => true)) offline_evm)
    (mintBASE example_host (mock_ethers (fun _ => true)) offline_evm)
    [("chain", JString "Sui"); ("mintQuantity", JInt 1)] [] =
  ([EvAxios 1 0],
   Returned (mkResponse 500
     [("success", JBool false); ("msg", JString "Minting error");
      ("error", JString "connect ECONNREFUSED")])).
Proof.
  exact (executor_exception_is_a_500 example_host
           (fun _ h => ((h ++ [EvAxios 1 0])%list, Rejected refused))
           (mintBSC example_host (mock_ethers (fun _ => true)) offline_evm)
           (mintBASE example_host (mock_ethers (fun _ => true)) offline_evm)
           (fun _ h => ((h ++ [EvAxios 1 0])%list, Rejected refused))
           [("chain", JString "Sui"); ("mintQuantity", JInt 1)] "Sui"
           [] [EvAxios 1 0] refused
           eq_refl (or_introl (conj eq_refl eq_refl)) eq_refl).
Defined.

Lemma wrapped_evm_result_ok (result : JSObject) :
  unique_keys result -> evm_well_formed result ->
  exactly_one (get (spread [("success", JBool true)] result) "success" = JBool true)
              (failure_with_code (spread [("success", JBool true)] result)).
Proof.
  intros Hu Hok. apply evm_well_formed_spec in Hok.
  assert (Hs : get result "success" <> JUndefined).
  { destruct Hok as [[H _] | [[H _] _]]; rewrite H; discriminate. }
  unfold failure_with_code, present in *.
  now rewrite !get_wrapped_same by assumption.
Qed.

(** X3.  With the three executors of the repository behind it, the handler
    answers a request whose chain is text with 200 or 400, never 500.  For
    SUI the 200 body is the executor's result and keeps its invariant
    (success with a transaction hash, or failure with a code); for BSC and
    BASE the 200 body reads success true, or success false with a code
    (nothing is said here of the hash of a success); for SOL it is the stub;
    for any other text the status is 400. *)
Theorem controller_answers_text_chains
    (host : Host) (env : Env) (indexer : Indexer) (ethers : Ethers) (evm : EvmNetwork)
    (body : JSObject) (s : string) (h : History) :
  get body "chain" = JString s ->
  exists h' response,
    controller host env indexer ethers evm body h = (h', Returned response) /\
    (toUpperCase host s = "SUI" /\
     status response = 200 /\
     exactly_one (success_with_hash (json response))
                 (failure_with_code (json response))
     \/
     In (toUpperCase host s) ["BSC"; "BASE"] /\
     status response = 200 /\
     exactly_one (get (json response) "success" = JBool true)
                 (failure_with_code (json response))
     \/
     toUpperCase host s = "SOL" /\ h' = h /\ response = mkResponse 200 sol_stub
     \/
     ~ In (toUpperCase host s) ["SUI"; "BSC"; "BASE"; "SOL"] /\ h' = h /\
     status response = 400).
Proof.
  intros Hchain. unfold controller.
  destruct (String.eqb_spec (toUpperCase host s) "SUI") as [Hsui | Hsui].
  { destruct (mintSUI_returns host env indexer (omit "chain" body) h)
      as (t & r & Hrun & _ & Hok).
    destruct (mintSUI_keys host env indexer (omit "chain" body) h)
      as (t' & r' & Hrun' & _ & Hu).
    rewrite Hrun in Hrun'. injection Hrun' as _ <-.
    do 2 eexists. split.
    - eapply handleMint_dispatched; [ eassumption | | exact Hrun ]. auto.
    - left. split; [ exact Hsui |]. split; [ reflexivity |].
      apply result_ok_spec. now apply wrapped_result_ok. }
  destruct (String.eqb_spec (toUpperCase host s) "BSC") as [Hbsc | Hbsc].
  { destruct (mintBSC_returns host ethers evm (omit "chain" body) h)
      as (t & r & Hrun & _ & Hok).
    destruct (mintBSC_keys host ethers evm (omit "chain" body) h)
      as (t' & r' & Hrun' & _ & Hu).
    rewrite Hrun in Hrun'. injection Hrun' as _ <-.
    do 2 eexists. split.
    - eapply handleMint_dispatched; [ eassumption | | exact Hrun ]. auto.
    - right. left. rewrite Hbsc. split; [ cbn; auto |]. split; [ reflexivity |].
      now apply wrapped_evm_result_ok. }
  destruct (String.eqb_spec (toUpperCase host s) "BASE") as [Hbase | Hbase].
  { destruct (mintBASE_returns host ethers evm (omit "chain" body) h)
      as (t & r & Hrun & _ & Hok).
    destruct (mintBASE_keys host ethers evm (omit "chain" body) h)
      as (t' & r' & Hrun' & _ & Hu).
    rewrite Hrun in Hrun'. injection Hrun' as _ <-.
    do 2 eexists. split.
    - eapply handleMint_dispatched; [ eassumption | | exact Hrun ]. auto.
    - right. left. rewrite Hbase. split; [ cbn; auto |]. split; [ reflexivity |].
      now apply wrapped_evm_result_ok. }
  apply String.eqb_neq in Hsui, Hbsc, Hbase.
  destruct (String.eqb_spec (toUpperCase host s) "SOL") as [Hsol | Hsol].
  - do 2 eexists. split.
    + unfold handleMint, run, try_catch, bind, attempt. rewrite Hchain.
      cbn [call_toUpperCase]. rewrite Hsui, Hbsc, Hbase, Hsol. reflexivity.
    + right. right. left. auto.
  - do 2 eexists. split.
    + unfold handleMint, run, try_catch, bind, attempt. rewrite Hchain.
      cbn [call_toUpperCase]. rewrite Hsui, Hbsc, Hbase.
      apply String.eqb_neq in Hsol. rewrite Hsol. reflexivity.
    + right. right. right. split; [| split; reflexivity ].
      apply String.eqb_neq in Hsui, Hbsc, Hbase.
      cbn. intros [H | [H | [H | [H | []]]]]; congruence.
Qed.

Lemma controller_answers_text_chains_witness :
  exists h' response,
    wired_handleMint offline_evm offline_indexer
      [("chain", JString "bsc"); ("privateKey", JString key64)] [] =
      (h', Returned response) /\
    status response <> 500.
Proof.
  destruct (controller_answers_text_chains example_host example_env offline_indexer
              (mock_ethers (fun _ => true)) offline_evm
              [("chain", JString "bsc"); ("privateKey", JString key64)] "bsc" []
              eq_refl)
    as (h' & response & Hrun & Hcases).
  exists h', response. split; [ exact Hrun |].
  destruct Hcases as [(_ & Hs & _) | [(_ & Hs & _) | [(_ & _ & ->) | (_ & _ & Hs)]]];
    try rewrite Hs; discriminate.
Defined.

(** * Conversions that throw *)

Lemma ToString_throws (host : Host) (v : JSValue) (e : JSError) :
  ToString host v = Thrown e -> e = cannot_convert.
Proof.
  unfold ToString. destruct (convertible v); [ discriminate | now intros [= <-] ].
Qed.

Lemma ToNumber_throws (host : Host) (v : JSValue) (e : JSError) :
  ToNumber host v = Thrown e -> e = cannot_convert.
Proof.
  destruct v as [| | b | n | s | l | o]; cbn [ToNumber]; try discriminate.
  - destruct b; discriminate.
  - destruct (ToString host (JArray l)) eqn:H; [ discriminate | ].
    intros [= <-]. now apply ToString_throws in H.
  - destruct (ToString host (JObject o)) eqn:H; [ discriminate | ].
    intros [= <-]. now apply ToString_throws in H.
Qed.

Lemma ToNumber_ToString (host : Host) (v : JSValue) (x : JSNumber) :
  ToNumber host v = Ok x -> exists s, ToString host v = Ok s.
Proof.
  destruct v as [| | b | n | s | l | o]; cbn [ToNumber]; intros H;
    try (eexists; reflexivity).
  - destruct (ToString host (JArray l)); [ eauto | discriminate ].
  - destruct (ToString host (JObject o)); [ eauto | discriminate ].
Qed.

Lemma js_lt_throws host v n e : js_lt host v n = Thrown e -> e = cannot_convert.
Proof.
  unfold js_lt. destruct (ToNumber host v) eqn:H; [ discriminate | ].
  intros [= <-]. now apply ToNumber_throws in H.
Qed.

Lemma js_gt_throws host v n e : js_gt host v n = Thrown e -> e = cannot_convert.
Proof.
  unfold js_gt. destruct (ToNumber host v) eqn:H; [ discriminate | ].
  intros [= <-]. now apply ToNumber_throws in H.
Qed.

Lemma falsy_or_lt_throws host v n e :
  falsy_or_lt host v n = Thrown e -> e = cannot_convert.
Proof.
  unfold falsy_or_lt. destruct (negb (ToBoolean v)); [ discriminate | ].
  apply js_lt_throws.
Qed.

Lemma js_gt_ToString host v n b :
  js_gt host v n = Ok b -> exists s, ToString host v = Ok s.
Proof.
  unfold js_gt. destruct (ToNumber host v) eqn:H; [ | discriminate ].
  intros _. eapply ToNumber_ToString; eauto.
Qed.

(** * The SUI executor *)

Lemma sui_ready_inv host env input :
  sui_ready host env input = true ->
  ToBoolean (get input "privateKey") = true /\
  ToBoolean (get input "collectionId") = true /\
  ToBoolean (get input "mintStage") = true /\
  falsy_or_lt host (get input "mintQuantity") 1 = Ok false /\
  js_gt host (get input "mintQuantity") 100 = Ok false /\
  (exists key_length,
     getProp (get input "privateKey") "length" = Ok key_length /\
     js_lt host key_length 32 = Ok false) /\
  callMatch (get input "collectionId") = Ok true /\
  env_set (INDEXER_ENDPOINT env) = true /\
  env_set (TRADEPORT_API_USER env) = true /\
  env_set (TRADEPORT_API_KEY env) = true.
Proof.
  unfold sui_ready. intros H.
  repeat (apply andb_true_iff in H; destruct H as [H ?]).
  destruct (getProp (get input "privateKey") "length") as [key_length |];
    [| discriminate ].
  destruct (callMatch (get input "collectionId")) as [[|] |]; try discriminate.
  repeat split; auto using passes_inv.
  exists key_length. split; [ reflexivity |]. now apply passes_inv.
Qed.

(** An input that is ready has a quantity with a string form. *)
Lemma sui_ready_quantity_text host env input :
  sui_ready host env input = true ->
  exists quantityText, ToString host (get input "mintQuantity") = Ok quantityText.
Proof.
  intros H. apply sui_ready_inv in H.
  destruct H as (_ & _ & _ & _ & H & _). eapply js_gt_ToString; eauto.
Qed.

(** Once every check has passed, [mintSUI] is its retry loop and what
    follows it. *)
Lemma mintSUI_ready host env indexer input h :
  sui_ready host env input = true ->
  mintSUI host env indexer input h =
  run (try_catch
         (requested <- sui_request indexer [1; 2; 3] None ;;
          sui_after_request host (get input "mintQuantity")
                            (get input "collectionId") requested)
         sui_outer_catch) h.
Proof.
  intros H. destruct (sui_ready_quantity_text host env input H) as [text Htext].
  apply sui_ready_inv in H.
  destruct H as (H1 & H2 & H3 & H4 & H5 & (len & H6 & H7) & H8 & H9 & H10 & H11).
  unfold mintSUI. rewrite H1, H2, H3. cbn [negb].
  unfold run, try_catch, bind, attempt.
  rewrite H4, H5, H6, H7, H8, H9, H10, H11, Htext. reflexivity.
Qed.

Lemma mintSUI_not_ready
    (host : Host) (env : Env) (indexer : Indexer) (input : JSObject) (h : History) :
  sui_ready host env input = false ->
  exists r code,
    mintSUI host env indexer input h = (h, Returned r) /\
    is_failure r /\
    get r "code" = JString code /\
    In code sui_local_codes.
Proof.
  intros Hnot. unfold mintSUI, is_failure, sui_local_codes.
  destruct (ToBoolean (get input "privateKey")) eqn:H1;
    [| do 2 eexists; repeat split; cbn; tauto ].
  destruct (ToBoolean (get input "collectionId")) eqn:H2;
    [| do 2 eexists; repeat split; cbn; tauto ].
  destruct (ToBoolean (get input "mintStage")) eqn:H3;
    [| do 2 eexists; repeat split; cbn; tauto ].
  cbn [negb]. unfold run, try_catch, bind, attempt.
  destruct (falsy_or_lt host (get input "mintQuantity") 1) as [[|] | e] eqn:H4;
    [ do 2 eexists; repeat split; cbn; tauto | |
      apply falsy_or_lt_throws in H4; subst e;
      do 2 eexists; repeat split; cbn; tauto ].
  destruct (js_gt host (get input "mintQuantity") 100) as [[|] | e] eqn:H5;
    [ do 2 eexists; repeat split; cbn; tauto | |
      apply js_gt_throws in H5; subst e;
      do 2 eexists; repeat split; cbn; tauto ].
  destruct (getProp (get input "privateKey") "length") as [len | e] eqn:H6.
  2:{ exfalso. destruct (get input "privateKey"); cbn in H1, H6; try discriminate;
        repeat match type of H6 with
               | context [if ?c then _ else _] => destruct c
               end; discriminate. }
  destruct (js_lt host len 32) as [[|] | e] eqn:H7;
    [ do 2 eexists; repeat split; cbn; tauto | |
      apply js_lt_throws in H7; subst e;
      do 2 eexists; repeat split; cbn; tauto ].
  destruct (callMatch (get input "collectionId")) as [[|] | e] eqn:H8.
  3:{ assert (He : err_name e = "TypeError").
      { destruct (get input "collectionId"); cbn in H8; try discriminate;
          injection H8 as <-; reflexivity. }
      unfold sui_outer_catch. rewrite He. cbn.
      do 2 eexists; repeat split; cbn; tauto. }
  2:{ do 2 eexists; repeat split; cbn; tauto. }
  cbn [negb].
  destruct (env_set (INDEXER_ENDPOINT env)) eqn:H9;
    [| do 2 eexists; repeat split; cbn; tauto ].
  destruct (env_set (TRADEPORT_API_USER env)) eqn:H10;
    [| do 2 eexists; repeat split; cbn; tauto ].
  destruct (env_set (TRADEPORT_API_KEY env)) eqn:H11;
    [| do 2 eexists; repeat split; cbn; tauto ].
  exfalso. unfold sui_ready in Hnot.
  rewrite H1, H2, H3, H4, H5, H6, H7, H8, H9, H10, H11 in Hnot. discriminate.
Qed.

(** X4.  [mintSUI] sends a request only when every check on the input and on the
    configuration has passed: otherwise it returns a failure with one of the
    local codes and leaves the log as it was.  (TYPE_ERROR is the answer to a
    collectionId that is not text, and to a quantity or a key length whose
    comparison throws.) *)
Theorem sui_requests_only_when_ready
    (host : Host) (env : Env) (indexer : Indexer) (input : JSObject) (h : History) :
  sui_ready host env input = false ->
  exists r code,
    mintSUI host env indexer input h = (h, Returned r) /\
    is_failure r /\
    get r "code" = JString code /\
    In code sui_local_codes.
Proof.
  apply mintSUI_not_ready.
Qed.

Lemma sui_requests_only_when_ready_witness :
  sui_ready example_host example_env (sample_sui_input (JInt 101)) = false /\
  sui_ready example_host (mkEnv None (Some "user") (Some "key"))
            (sample_sui_input (JInt 2)) = false /\
  exists r code,
    mintSUI example_host example_env offline_indexer (sample_sui_input (JInt 101)) [] =
      ([], Returned r) /\
    is_failure r /\ get r "code" = JString code /\ In code sui_local_codes.
Proof.
  split; [ reflexivity | split; [ reflexivity |] ].
  exact (sui_requests_only_when_ready example_host example_env offline_indexer
           (sample_sui_input (JInt 101)) [] eq_refl).
Defined.

Lemma run_try_bind_return {R A} (m : M R A) (k : A -> M R Empty_set)
    (handler : JSError -> M R Empty_set) h h1 r :
  m h = (h1, Return r) ->
  run (try_catch (bind m k) handler) h = (h1, Returned r).
Proof.
  intros Hm. unfold run, try_catch, bind. now rewrite Hm.
Qed.

(** The retry loop: the log it leaves, and how it ends. *)
Lemma sui_request_outcomes indexer lastError h :
  exists t,
    fst (sui_request indexer [1; 2; 3] lastError h) = (h ++ t)%list /\
    In t sui_request_logs /\
    match snd (sui_request indexer [1; 2; 3] lastError h) with
    | Normal (Some _, _) => True
    | Normal (None, Some e) =>
        sui_gave_up e = failure_details
                          "Failed to connect to SUI network after multiple attempts"
                          "CONNECTION_FAILED" (JString (err_message e))
    | Normal (None, None) => False
    | Return r => exists e, r = sui_gave_up e
    | Throw _ => False
    end.
Proof.
  cbn [sui_request]. unfold bind, try_catch, call, ret, return_, sui_request_logs, sui_gave_up.
  destruct (axios indexer h 1) as [r1 | e1]; cbn.
  { eexists. split; [ reflexivity |]. cbn. auto. }
  destruct (axios indexer _ 2) as [r2 | e2]; cbn.
  { eexists. split; [ rewrite <- !app_assoc; reflexivity |]. cbn. auto. }
  destruct (axios indexer _ 3) as [r3 | e3]; cbn.
  { eexists. split; [ rewrite <- !app_assoc; reflexivity |]. cbn. auto. }
  destruct (code_is e3 "ECONNABORTED") eqn:H1; cbn.
  { eexists. split; [ rewrite <- !app_assoc; reflexivity |]. cbn. split; [ auto |].
    exists e3. now rewrite H1. }
  destruct (code_is e3 "ENOTFOUND") eqn:H2; cbn.
  { eexists. split; [ rewrite <- !app_assoc; reflexivity |]. cbn. split; [ auto |].
    exists e3. now rewrite H1, H2. }
  destruct (code_is e3 "ECONNREFUSED") eqn:H3; cbn.
  { eexists. split; [ rewrite <- !app_assoc; reflexivity |]. cbn. split; [ auto |].
    exists e3. now rewrite H1, H2, H3. }
  eexists. split; [ rewrite <- !app_assoc; reflexivity |]. cbn. split; [ auto |].
  now rewrite H1, H2, H3.
Qed.

#[local] Hint Extern 1 (any_result _) => exact I : safe_db.
#[local] Hint Extern 1 (is_failure _) => reflexivity : safe_db.

Lemma no_event_nil (t : list Event) : Forall no_event t -> t = [].
Proof.
  destruct 1 as [| e t He _]; [ reflexivity | destruct He ].
Qed.

Lemma sui_graphql_error_silent P errors :
  (forall msg code details, P (failure_details msg code details)) ->
  safe no_event P true (sui_graphql_error errors).
Proof.
  intros HP. unfold sui_graphql_error. safe_auto.
Qed.

Lemma sui_http_error_is_failure response : is_failure (sui_http_error response).
Proof.
  unfold sui_http_error.
  repeat match goal with
         | |- context [if ?c then _ else _] => destruct c
         end; reflexivity.
Qed.

Lemma sui_interpret_silent host response q c :
  safe no_event any_result true (sui_interpret host response q c).
Proof.
  unfold sui_interpret. safe_auto.
  apply sui_graphql_error_silent. intros; exact I.
Qed.

Lemma sui_outer_catch_silent P err :
  (forall msg code details, P (failure_details msg code details)) ->
  safe no_event P false (sui_outer_catch err).
Proof.
  intros HP. unfold sui_outer_catch. safe_auto.
Qed.

Lemma sui_after_request_silent host q c requested :
  safe no_event any_result true (sui_after_request host q c requested).
Proof.
  unfold sui_after_request. destruct requested as [[response |] lastError].
  - apply sui_interpret_silent.
  - apply safe_return. exact I.
Qed.

(** X5.  For every input, configuration and indexer, [mintSUI] returns after at
    most three requests, each with a timeout of 300000 ms, with pauses of
    1000 ms and 2000 ms between them and no other call: its log is empty or
    one of the three logs of the retry loop. *)
Theorem sui_makes_at_most_three_requests
    (host : Host) (env : Env) (indexer : Indexer) (input : JSObject) (h : History) :
  exists t r,
    mintSUI host env indexer input h = ((h ++ t)%list, Returned r) /\
    (t = [] \/ In t sui_request_logs).
Proof.
  destruct (sui_ready host env input) eqn:Hready.
  - rewrite mintSUI_ready by assumption.
    destruct (sui_request_outcomes indexer None h) as (t & Ht & Hin & Hc).
    destruct (sui_request indexer [1; 2; 3] None h) as [h1 c] eqn:Hreq.
    cbn in Ht, Hc. subst h1. destruct c as [requested | r | e].
    + erewrite run_try_bind_normal by exact Hreq.
      destruct (run_try_returns no_event any_result
                  (sui_after_request host (get input "mintQuantity")
                     (get input "collectionId") requested)
                  sui_outer_catch
                  (sui_after_request_silent _ _ _ _)
                  (fun e => sui_outer_catch_silent any_result e (fun _ _ _ => I))
                  (h ++ t)%list) as (t' & r & Hrun & Hsilent & _).
      apply no_event_nil in Hsilent. subst t'. rewrite app_nil_r in Hrun.
      eauto.
    + erewrite run_try_bind_return by exact Hreq. eauto.
    + destruct Hc.
  - destruct (mintSUI_not_ready host env indexer input h Hready)
      as (r & code & Hrun & _).
    exists [], r. rewrite app_nil_r. auto.
Qed.

Lemma sui_request_first_answer indexer rest lastError h response :
  axios indexer h 1 = Ok response ->
  sui_request indexer (1 :: rest) lastError h =
    ((h ++ [EvAxios 1 300000])%list, Normal (Some response, lastError)).
Proof.
  intros Ha. cbn [sui_request]. unfold bind, try_catch, call, ret.
  now rewrite Ha.
Qed.

(** X6.  An answer of the indexer is not retried: when the first attempt is
    answered with an HTTP status of 400 or more, [mintSUI] returns after that
    one request, with INVALID_CREDENTIALS for 401, ACCESS_FORBIDDEN for 403,
    ENDPOINT_NOT_FOUND for 404, RATE_LIMITED for 429 and HTTP_ERROR
    otherwise. *)
Theorem sui_http_error_is_not_retried
    (host : Host) (env : Env) (indexer : Indexer) (input : JSObject) (h : History)
    (response : AxiosResponse) :
  sui_ready host env input = true ->
  axios indexer h 1 = Ok response ->
  400 <= ax_status response ->
  exists r,
    mintSUI host env indexer input h = ((h ++ [EvAxios 1 300000])%list, Returned r) /\
    is_failure r /\
    get r "code" = JString (sui_http_code (ax_status response)).
Proof.
  intros Hready Ha Hstatus. apply Z.leb_le in Hstatus.
  exists (sui_http_error response). split; [| split ].
  - rewrite mintSUI_ready by assumption.
    erewrite run_try_bind_normal by (apply sui_request_first_answer; exact Ha).
    unfold sui_after_request, sui_interpret. now rewrite Hstatus.
  - apply sui_http_error_is_failure.
  - unfold sui_http_error, sui_http_code.
    repeat match goal with
           | |- context [if ?c then _ else _] => destruct c
           end; reflexivity.
Qed.

Lemma sui_http_error_is_not_retried_witness :
  exists r,
    mintSUI example_host example_env
            (scripted_indexer (fun _ => Ok (mkAxiosResponse 429 JNull)))
            (sample_sui_input (JInt 2)) [] = ([EvAxios 1 300000], Returned r) /\
    is_failure r /\
    get r "code" = JString "RATE_LIMITED".
Proof.
  refine (sui_http_error_is_not_retried example_host example_env
            (scripted_indexer (fun _ => Ok (mkAxiosResponse 429 JNull)))
            (sample_sui_input (JInt 2)) [] (mkAxiosResponse 429 JNull)
            eq_refl eq_refl _).
  cbn. lia.
Defined.

Lemma sui_request_three_failures indexer h e1 e2 e3 :
  axios indexer h 1 = Thrown e1 ->
  axios indexer (h ++ [EvAxios 1 300000; EvSleep 1000])%list 2 = Thrown e2 ->
  axios indexer (h ++ [EvAxios 1 300000; EvSleep 1000;
                       EvAxios 2 300000; EvSleep 2000])%list 3 = Thrown e3 ->
  sui_request indexer [1; 2; 3] None h =
    ((h ++ sui_full_log)%list,
     if code_is e3 "ECONNABORTED" || code_is e3 "ENOTFOUND" || code_is e3 "ECONNREFUSED"
     then Return (sui_gave_up e3)
     else Normal (None, Some e3)).
Proof.
  intros H1 H2 H3.
  cbn [sui_request].
  unfold bind, try_catch, call, ret, return_, sui_gave_up, sui_full_log, sui_timeout_ms.
  rewrite H1. cbn. rewrite <- ?app_assoc. cbn [app]. rewrite H2. cbn.
  rewrite <- ?app_assoc. cbn [app]. rewrite H3. cbn.
  rewrite <- ?app_assoc. cbn [app].
  destruct (code_is e3 "ECONNABORTED"); [ reflexivity |].
  destruct (code_is e3 "ENOTFOUND"); [ reflexivity |].
  destruct (code_is e3 "ECONNREFUSED"); reflexivity.
Qed.

(** X7.  When all three attempts fail in transport, [mintSUI] gives up after the
    third, and only the code of the last error decides the answer:
    REQUEST_TIMEOUT for ECONNABORTED, NETWORK_UNREACHABLE for ENOTFOUND,
    CONNECTION_REFUSED for ECONNREFUSED, and CONNECTION_FAILED with the
    last error's message as details for anything else. *)
Theorem sui_gives_up_after_three_failures
    (host : Host) (env : Env) (indexer : Indexer) (input : JSObject) (h : History)
    (e1 e2 e3 : JSError) :
  sui_ready host env input = true ->
  axios indexer h 1 = Thrown e1 ->
  axios indexer (h ++ [EvAxios 1 300000; EvSleep 1000])%list 2 = Thrown e2 ->
  axios indexer (h ++ [EvAxios 1 300000; EvSleep 1000;
                       EvAxios 2 300000; EvSleep 2000])%list 3 = Thrown e3 ->
  mintSUI host env indexer input h =
    ((h ++ sui_full_log)%list, Returned (sui_gave_up e3)).
Proof.
  intros Hready H1 H2 H3. rewrite mintSUI_ready by assumption.
  pose proof (sui_request_three_failures indexer h e1 e2 e3 H1 H2 H3) as Hreq.
  destruct (code_is e3 "ECONNABORTED" || code_is e3 "ENOTFOUND"
            || code_is e3 "ECONNREFUSED") eqn:Hcode.
  - now erewrite run_try_bind_return by exact Hreq.
  - erewrite run_try_bind_normal by exact Hreq.
    apply orb_false_iff in Hcode. destruct Hcode as [Hcode Hc3].
    apply orb_false_iff in Hcode. destruct Hcode as [Hc1 Hc2].
    unfold sui_gave_up. now rewrite Hc1, Hc2, Hc3.
Qed.

Lemma sui_gives_up_after_three_failures_witness :
  mintSUI example_host example_env
          (scripted_indexer
             (fun n => if n =? 3
                       then Thrown (mkError "Error" "socket hang up" (Some "ECONNRESET"))
                       else Thrown refused))
          (sample_sui_input (JInt 2)) [] =
    (sui_full_log,
     Returned (failure_details "Failed to connect to SUI network after multiple attempts"
                               "CONNECTION_FAILED" (JString "socket hang up"))).
Proof.
  exact (sui_gives_up_after_three_failures example_host example_env
           (scripted_indexer
              (fun n => if n =? 3
                        then Thrown (mkError "Error" "socket hang up" (Some "ECONNRESET"))
                        else Thrown refused))
           (sample_sui_input (JInt 2)) [] refused refused
           (mkError "Error" "socket hang up" (Some "ECONNRESET"))
           eq_refl eq_refl eq_refl eq_refl).
Defined.

(** X8.  A reported mint: when the first attempt is answered with a status below
    400 and a body whose [data.mintNFT] has a truthy [success] and a truthy
    [transactionBlockDigest] that has a string form, and that reports no
    GraphQL error, [mintSUI] returns success with code MINT_SUCCESS, the
    digest as [transactionHash], the quantity and the collection id of the
    request, and a message that holds the string form of the quantity. *)
Theorem sui_reports_the_mint
    (host : Host) (env : Env) (indexer : Indexer) (input : JSObject) (h : History)
    (response : AxiosResponse) (body data mintNFT : JSObject) :
  sui_ready host env input = true ->
  axios indexer h 1 = Ok response ->
  ax_status response < 400 ->
  ax_data response = JObject body ->
  no_graphql_errors (get body "errors") ->
  get body "data" = JObject data ->
  get data "mintNFT" = JObject mintNFT ->
  ToBoolean (get mintNFT "success") = true ->
  ToBoolean (get mintNFT "transactionBlockDigest") = true ->
  convertible (get mintNFT "transactionBlockDigest") = true ->
  exists quantityText,
    ToString host (get input "mintQuantity") = Ok quantityText /\
    mintSUI host env indexer input h =
      ((h ++ [EvAxios 1 300000])%list,
       Returned [("success", JBool true);
                 ("msg", JString ("Successfully minted " ++ quantityText ++ " NFT(s)"));
                 ("code", JString "MINT_SUCCESS");
                 ("transactionHash", get mintNFT "transactionBlockDigest");
                 ("quantity", get input "mintQuantity");
                 ("collectionId", get input "collectionId")]).
Proof.
  intros Hready Ha Hstatus Hdata Herrors Hd Hm Hs Hdigest Hconv.
  destruct (sui_ready_quantity_text host env input Hready) as [quantityText Htext].
  exists quantityText. split; [ exact Htext | ].
  rewrite mintSUI_ready by assumption.
  erewrite run_try_bind_normal by (apply sui_request_first_answer; exact Ha).
  assert (Hlt : (400 <=? ax_status response) = false) by (apply Z.leb_gt; lia).
  unfold sui_after_request, sui_interpret. rewrite Hlt, Hdata.
  unfold run, try_catch, bind, attempt, ret, return_. cbn [ToBoolean negb getProp].
  destruct Herrors as [He | He]; rewrite He; cbn [ToBoolean getProp];
    rewrite ?Hd; cbn; rewrite ?Hm; cbn; rewrite Hs, Hdigest; cbn;
    unfold ToString at 1; rewrite Hconv, Htext; reflexivity.
Qed.

Lemma sui_reports_the_mint_witness :
  exists quantityText,
    ToString example_host (JInt 2) = Ok quantityText /\
    mintSUI example_host example_env
            (scripted_indexer (fun _ => Ok (minted_response "0xDEAD")))
            [("collectionId", JString "abc123"); ("mintQuantity", JInt 2);
             ("mintStage", JString "public"); ("privateKey", JString key64)] [] =
      ([EvAxios 1 300000],
       Returned [("success", JBool true);
                 ("msg", JString ("Successfully minted " ++ quantityText ++ " NFT(s)"));
                 ("code", JString "MINT_SUCCESS");
                 ("transactionHash", JString "0xDEAD");
                 ("quantity", JInt 2);
                 ("collectionId", JString "abc123")]).
Proof.
  refine (sui_reports_the_mint example_host example_env
            (scripted_indexer (fun _ => Ok (minted_response "0xDEAD")))
            [("collectionId", JString "abc123"); ("mintQuantity", JInt 2);
             ("mintStage", JString "public"); ("privateKey", JString key64)] []
            (minted_response "0xDEAD")
            [("data", JObject [("mintNFT",
               JObject [("success", JBool true);
                        ("transactionBlockDigest", JString "0xDEAD")])])]
            [("mintNFT", JObject [("success", JBool true);
                                  ("transactionBlockDigest", JString "0xDEAD")])]
            [("success", JBool true); ("transactionBlockDigest", JString "0xDEAD")]
            eq_refl eq_refl _ eq_refl _ eq_refl eq_refl eq_refl eq_refl eq_refl).
  - cbn. lia.
  - left. reflexivity.
Defined.

Lemma length_gt_0 (host : Host) (A : Type) (x : A) (l : list A) :
  js_gt host (JInt (Z.of_nat (List.length (x :: l)))) 0 = Ok true.
Proof.
  reflexivity.
Qed.

Lemma sui_graphql_error_text (first : JSObject) (rest : list JSValue)
    (message : string) (h : History) :
  get first "message" = JString message ->
  exists msg,
    sui_graphql_error (JArray (JObject first :: rest)) h =
      (h, Return (failure_details msg
                    (first_rule sui_graphql_rules "GRAPHQL_ERROR" message)
                    (JString message))).
Proof.
  intros Hm.
  unfold sui_graphql_error, bind, attempt, return_, ret.
  cbn [getProp String.eqb Ascii.eqb Bool.eqb hd]. rewrite Hm.
  cbn [callIncludes first_rule sui_graphql_rules existsb].
  destruct (includes message "insufficient"); [ eexists; reflexivity |].
  destruct (includes message "not found"); [ eexists; reflexivity |].
  destruct (includes message "unauthorized"); [ eexists; reflexivity |].
  destruct (includes message "sold out"); [ eexists; reflexivity |].
  destruct (includes message "exceeds"); [ eexists; reflexivity |].
  destruct (includes message "not active"); eexists; reflexivity.
Qed.

(** X9.  A response that carries a non-empty list of GraphQL errors is never
    reported as a mint, whatever else it holds: [mintSUI] returns a failure
    after that one request.  When the first error is an object with a text
    [message], the code is that of the first rule of the table whose pattern
    occurs in the message (GRAPHQL_ERROR when none does), and the message is
    returned as details. *)
Theorem sui_graphql_errors_are_failures
    (host : Host) (env : Env) (indexer : Indexer) (input : JSObject) (h : History)
    (response : AxiosResponse) (body : JSObject) (first : JSValue) (rest : list JSValue) :
  sui_ready host env input = true ->
  axios indexer h 1 = Ok response ->
  ax_status response < 400 ->
  ax_data response = JObject body ->
  get body "errors" = JArray (first :: rest) ->
  exists r,
    mintSUI host env indexer input h = ((h ++ [EvAxios 1 300000])%list, Returned r) /\
    is_failure r /\
    (forall fields message,
       first = JObject fields -> get fields "message" = JString message ->
       get r "code" = JString (first_rule sui_graphql_rules "GRAPHQL_ERROR" message) /\
       get r "details" = JString message).
Proof.
  intros Hready Ha Hstatus Hdata Herrors.
  rewrite mintSUI_ready by assumption.
  erewrite run_try_bind_normal by (apply sui_request_first_answer; exact Ha).
  assert (Hlt : (400 <=? ax_status response) = false) by (apply Z.leb_gt; lia).
  assert (Hrun : run (try_catch
                        (sui_after_request host (get input "mintQuantity")
                           (get input "collectionId") (Some response, None))
                        sui_outer_catch) (h ++ [EvAxios 1 300000])%list =
                 run (try_catch (sui_graphql_error (JArray (first :: rest)))
                        sui_outer_catch) (h ++ [EvAxios 1 300000])%list).
  { unfold sui_after_request, sui_interpret. rewrite Hlt, Hdata.
    unfold run, try_catch, bind at 1 2 3, attempt, ret.
    cbn [ToBoolean negb getProp]. rewrite Herrors.
    cbn [ToBoolean getProp String.eqb Ascii.eqb Bool.eqb].
    now rewrite length_gt_0. }
  cbv beta. rewrite Hrun.
  destruct (run_try_returns no_event is_failure
              (sui_graphql_error (JArray (first :: rest))) sui_outer_catch
              (sui_graphql_error_silent is_failure _ (fun _ _ _ => eq_refl))
              (fun e => sui_outer_catch_silent is_failure e (fun _ _ _ => eq_refl))
              (h ++ [EvAxios 1 300000])%list) as (t & r & Hr & Hsilent & Hfail).
  apply no_event_nil in Hsilent. subst t. rewrite app_nil_r in Hr.
  exists r. split; [ exact Hr |]. split; [ exact Hfail |].
  intros fields message -> Hm.
  destruct (sui_graphql_error_text fields rest message (h ++ [EvAxios 1 300000])%list Hm)
    as (msg & Hg).
  unfold run, try_catch in Hr. rewrite Hg in Hr. injection Hr as <-.
  split; reflexivity.
Qed.

Lemma sui_graphql_errors_are_failures_witness :
  let answer :=
    mkAxiosResponse 200
      (JObject [("errors",
                 JArray [JObject [("message", JString "collection not found")]]);
                ("data", JObject [("mintNFT",
                   JObject [("success", JBool true);
                            ("transactionBlockDigest", JString "0xDEAD")])])]) in
  exists r,
    mintSUI example_host example_env (scripted_indexer (fun _ => Ok answer))
            (sample_sui_input (JInt 2)) [] = ([EvAxios 1 300000], Returned r) /\
    is_failure r /\
    get r "code" = JString "COLLECTION_NOT_FOUND".
Proof.
  intros answer.
  destruct (sui_graphql_errors_are_failures example_host example_env
              (scripted_indexer (fun _ => Ok answer)) (sample_sui_input (JInt 2)) []
              answer
              [("errors",
                JArray [JObject [("message", JString "collection not found")]]);
               ("data", JObject [("mintNFT",
                  JObject [("success", JBool true);
                           ("transactionBlockDigest", JString "0xDEAD")])])]
              (JObject [("message", JString "collection not found")]) [])
    as (r & Hrun & Hfail & Hcode); try reflexivity.
  exists r. split; [ exact Hrun |]. split; [ exact Hfail |].
  exact (proj1 (Hcode [("message", JString "collection not found")]
                  "collection not found" eq_refl eq_refl)).
Defined.

(** * The EVM and Solana executors: validation *)

Section InvalidInput.

Variable host : Host.
Variable input : JSObject.

Ltac reject :=
  eexists; split; [ reflexivity | left; do 2 eexists; split; [ reflexivity | cbn; tauto ] ].

Ltac conversion_throws H :=
  apply falsy_or_lt_throws in H; subst;
  eexists; split; [ reflexivity | right; split; reflexivity ].

Lemma mintBASE_invalid lib net h :
  evm_input_valid host lib input = false ->
  exists r,
    mintBASE host lib net input h = (h, Returned r) /\
    ((exists msg code,
        r = failure msg code /\
        In code ["MISSING_PRIVATE_KEY"; "MISSING_CONTRACT_ADDRESS"; "INVALID_QUANTITY";
                 "INVALID_ADDRESS_FORMAT"]) \/
     (falsy_or_lt host (get input "mintQuantity") 1 = Thrown cannot_convert /\
      r = conversion_failed
            "Transaction failed. Please verify your inputs and try again.")).
Proof.
  intros Hnot. unfold mintBASE.
  destruct (ToBoolean (get input "privateKey")) eqn:H1; [| reject ].
  destruct (ToBoolean (get input "contractAddress")) eqn:H2; [| reject ].
  cbn [negb]. unfold run, try_catch, bind, attempt.
  destruct (falsy_or_lt host (get input "mintQuantity") 1) as [[|] | e] eqn:H3;
    [ reject | | conversion_throws H3 ].
  destruct (isAddress lib (get input "contractAddress")) eqn:H4; [| reject ].
  exfalso. unfold evm_input_valid in Hnot. rewrite H1, H2, H3, H4 in Hnot. discriminate.
Qed.

Lemma mintBSC_invalid lib net h :
  evm_input_valid host lib input = false ->
  exists r,
    mintBSC host lib net input h = (h, Returned r) /\
    ((exists msg code,
        r = failure msg code /\
        In code ["MISSING_PRIVATE_KEY"; "MISSING_CONTRACT_ADDRESS"; "INVALID_QUANTITY";
                 "INVALID_ADDRESS_FORMAT"]) \/
     (falsy_or_lt host (get input "mintQuantity") 1 = Thrown cannot_convert /\
      r = conversion_failed
            "BSC transaction failed. Please verify your inputs and try again.")).
Proof.
  intros Hnot. unfold mintBSC.
  destruct (ToBoolean (get input "privateKey")) eqn:H1; [| reject ].
  destruct (ToBoolean (get input "contractAddress")) eqn:H2; [| reject ].
  cbn [negb]. unfold run, try_catch, bind, attempt.
  destruct (falsy_or_lt host (get input "mintQuantity") 1) as [[|] | e] eqn:H3;
    [ reject | | conversion_throws H3 ].
  destruct (isAddress lib (get input "contractAddress")) eqn:H4; [| reject ].
  exfalso. unfold evm_input_valid in Hnot. rewrite H1, H2, H3, H4 in Hnot. discriminate.
Qed.

Lemma mintSOL_invalid lib net h :
  sol_input_valid host input = false ->
  exists r,
    mintSOL host lib net input h = (h, Returned r) /\
    ((exists msg code,
        r = failure msg code /\
        In code ["MISSING_PRIVATE_KEY"; "MISSING_CONTRACT_ADDRESS"; "INVALID_QUANTITY"]) \/
     (falsy_or_lt host (get input "mintQuantity") 1 = Thrown cannot_convert /\
      r = conversion_failed
            "Solana minting failed. Please verify your inputs and try again.")).
Proof.
  intros Hnot. unfold mintSOL.
  destruct (ToBoolean (get input "privateKey")) eqn:H1; [| reject ].
  destruct (ToBoolean (get input "contractAddress")) eqn:H2; [| reject ].
  cbn [negb]. unfold run, try_catch, bind, attempt.
  destruct (falsy_or_lt host (get input "mintQuantity") 1) as [[|] | e] eqn:H3;
    [ reject | | conversion_throws H3 ].
  exfalso. unfold sol_input_valid in Hnot. rewrite H1, H2, H3 in Hnot. discriminate.
Qed.

End InvalidInput.

(** X10.  BASE, BSC and SOL make no call, not even a probe, unless the input
    passes validation: a private key and a contract address that are truthy,
    a quantity for which [!mintQuantity || mintQuantity < 1] is evaluated
    and is false and, on BASE and BSC, an address that [ethers.isAddress]
    accepts.  Otherwise they return a failure and leave the log as it was:
    a failure with a validation code or, when the comparison of the quantity
    throws (the quantity is an object that cannot be converted to a
    primitive), the UNKNOWN_ERROR of the outer handler, with the message of
    the TypeError as details. *)
Theorem invalid_input_makes_no_call
    (host : Host) (ethers : Ethers) (evm : EvmNetwork)
    (solana : SolanaLib) (solnet : SolanaNetwork) (input : JSObject) (h : History) :
  (evm_input_valid host ethers input = false ->
   (exists r,
      mintBASE host ethers evm input h = (h, Returned r) /\
      ((exists msg code,
          r = failure msg code /\
          In code ["MISSING_PRIVATE_KEY"; "MISSING_CONTRACT_ADDRESS"; "INVALID_QUANTITY";
                   "INVALID_ADDRESS_FORMAT"]) \/
       (falsy_or_lt host (get input "mintQuantity") 1 = Thrown cannot_convert /\
        r = conversion_failed
              "Transaction failed. Please verify your inputs and try again."))) /\
   (exists r,
      mintBSC host ethers evm input h = (h, Returned r) /\
      ((exists msg code,
          r = failure msg code /\
          In code ["MISSING_PRIVATE_KEY"; "MISSING_CONTRACT_ADDRESS"; "INVALID_QUANTITY";
                   "INVALID_ADDRESS_FORMAT"]) \/
       (falsy_or_lt host (get input "mintQuantity") 1 = Thrown cannot_convert /\
        r = conversion_failed
              "BSC transaction failed. Please verify your inputs and try again.")))) /\
  (sol_input_valid host input = false ->
   exists r,
     mintSOL host solana solnet input h = (h, Returned r) /\
     ((exists msg code,
         r = failure msg code /\
         In code ["MISSING_PRIVATE_KEY"; "MISSING_CONTRACT_ADDRESS"; "INVALID_QUANTITY"]) \/
      (falsy_or_lt host (get input "mintQuantity") 1 = Thrown cannot_convert /\
       r = conversion_failed
             "Solana minting failed. Please verify your inputs and try again."))).
Proof.
  split.
  - intros Hnot. split.
    + now apply mintBASE_invalid.
    + now apply mintBSC_invalid.
  - now apply mintSOL_invalid.
Qed.

Lemma invalid_input_makes_no_call_witness :
  let unconvertible := JObject [("toString", JInt 1)] in
  let input := [("privateKey", JString key64); ("contractAddress", JString "0x123");
                ("mintQuantity", unconvertible)] in
  evm_input_valid example_host (mock_ethers (fun _ => true)) input = false /\
  isAddress (mock_ethers (fun _ => true)) (JString "0x123") = false /\
  mintBSC example_host (mock_ethers (fun _ => true))
          (first_endpoint_evm ether (fun _ _ => Ok 100000) Pending) input [] =
    ([], Returned (conversion_failed
                     "BSC transaction failed. Please verify your inputs and try again.")).
Proof.
  intros unconvertible input.
  split; [ reflexivity | split; [ reflexivity | ] ].
  destruct (proj2 (proj1 (invalid_input_makes_no_call example_host
                            (mock_ethers (fun _ => true))
                            (first_endpoint_evm ether (fun _ _ => Ok 100000) Pending)
                            (mock_solana (Ok bytes64))
                            (scripted_solana (fun _ => true) 0 Pending)
                            input []) eq_refl))
    as (r & Hrun & [(msg & code & -> & _) | (_ & ->)]).
  - exfalso. vm_compute in Hrun. discriminate Hrun.
  - exact Hrun.
Defined.

(** * The loops over the mint candidates *)

Lemma submissions_app t1 t2 :
  submissions (t1 ++ t2) = (submissions t1 + submissions t2)%nat.
Proof.
  unfold submissions. now rewrite filter_app, length_app.
Qed.

(** * No success without a confirmation *)

Section ReturnsOnly.

Context {R : Type}.
Variable Q : History -> R -> Prop.

Lemma returns_only_ret {A} (a : A) : returns_only Q (ret (R := R) a).
Proof. intros h. exact I. Qed.

Lemma returns_only_throw {A} (e : JSError) :
  returns_only Q (throw (R := R) (A := A) e).
Proof. intros h. exact I. Qed.

Lemma returns_only_return {A} (r : R) :
  (forall h, Q h r) -> returns_only Q (return_ (A := A) r).
Proof. intros Hr h. apply Hr. Qed.

Lemma returns_only_call {A} (ev : Event) (answer : History -> Attempt A) :
  returns_only Q (call (R := R) ev answer).
Proof. intros h. unfold call. now destruct (answer h). Qed.

Lemma returns_only_attempt {A} (x : Attempt A) :
  returns_only Q (attempt (R := R) x).
Proof. intros h. unfold attempt. now destruct x. Qed.

Lemma returns_only_bind {A B} (m : M R A) (k : A -> M R B) :
  returns_only Q m -> (forall a, returns_only Q (k a)) ->
  returns_only Q (bind m k).
Proof.
  intros Hm Hk h. specialize (Hm h). unfold bind.
  destruct (m h) as [h1 [a | r | e]]; auto. apply Hk.
Qed.

Lemma returns_only_try {A} (m : M R A) (handler : JSError -> M R A) :
  returns_only Q m -> (forall e, returns_only Q (handler e)) ->
  returns_only Q (try_catch m handler).
Proof.
  intros Hm Hh h. specialize (Hm h). unfold try_catch.
  destruct (m h) as [h1 [a | r | e]]; auto. apply Hh.
Qed.

Lemma run_returns_only (body : M R Empty_set) :
  returns_only Q body ->
  forall h,
    match run body h with
    | (h', Returned r) => Q h' r
    | (_, Rejected _) => True
    end.
Proof.
  intros Hb h. specialize (Hb h). unfold run.
  now destruct (body h) as [h1 [[] | r | e]].
Qed.

End ReturnsOnly.

Lemma failure_is_failure_or Q msg code h : failure_or Q h (failure msg code).
Proof. now left. Qed.

Lemma failure_details_is_failure_or Q msg code details h :
  failure_or Q h (failure_details msg code details).
Proof. now left. Qed.

#[local] Hint Resolve failure_is_failure_or failure_details_is_failure_or : safe_db.

Ltac returns_step :=
  match goal with
  | |- returns_only _ (ret _) => apply returns_only_ret
  | |- returns_only _ (throw _) => apply returns_only_throw
  | |- returns_only _ (return_ _) => apply returns_only_return; intros ?
  | |- returns_only _ (call _ _) => apply returns_only_call
  | |- returns_only _ (attempt _) => apply returns_only_attempt
  | |- returns_only _ (try_catch _ _) => apply returns_only_try; [ | intros ? ]
  | |- returns_only _ (if ?c then _ else _) => destruct c eqn:?
  | |- returns_only _ (match ?x with _ => _ end) => destruct x eqn:?
  end.

Section Confirmed.

Variable host : Host.

Lemma evm_confirm_honest net provider tx h :
  just_submitted net provider tx h ->
  match evm_confirm net provider tx h with
  | (h', Return r) => failure_or (confirmed_by_receipt net) h' r
  | _ => True
  end.
Proof.
  intros Hs. unfold evm_confirm, try_catch, bind, call, confirmation_timeout_ms.
  destruct (wait net h provider tx) as [receipt | e |] eqn:Hw; cbn.
  - destruct (rc_status receipt =? 0) eqn:Hst; cbn; [ now left |].
    right. exists h, provider, tx, receipt. apply Z.eqb_neq in Hst. auto.
  - destruct (includes (err_message e) "timeout"); cbn; [ now left | exact I ].
  - now left.
Qed.

Lemma base_try_mint_submitted net provider contract fs : forall lastError h,
  match base_try_mint net provider contract fs lastError h with
  | (h', Normal (Some tx, _)) => just_submitted net provider tx h'
  | (_, Normal (None, _)) => True
  | _ => False
  end.
Proof.
  induction fs as [| [name args] fs IH]; intros lastError h; [ exact I |].
  rewrite base_try_mint_step.
  destruct (contract name); [| apply IH ].
  destruct (estimateGas net h provider name args) as [gasEstimate | e]; [| apply IH ].
  destruct (sendTransaction net (h ++ [EvEstimateGas provider name args])%list
              provider name args 500000 (20 * gwei)) as [tx | e] eqn:Hs; [| apply IH ].
  exists (h ++ [EvEstimateGas provider name args])%list, name, args, 500000, (20 * gwei).
  split; [ now rewrite <- app_assoc | exact Hs ].
Qed.

Lemma bsc_try_mint_submitted net provider contract gasPrice fs : forall lastError h,
  match bsc_try_mint net provider contract gasPrice fs lastError h with
  | (h', Normal (Some tx, _)) => just_submitted net provider tx h'
  | (_, Normal (None, _)) => True
  | _ => False
  end.
Proof.
  induction fs as [| [name args] fs IH]; intros lastError h; [ exact I |].
  rewrite bsc_try_mint_step. cbv zeta.
  destruct (contract name); [| apply IH ].
  assert (Hfixed : forall h2,
            match
              match sendTransaction net h2 provider name args 300000 gasPrice with
              | Ok tx =>
                  ((h2 ++ [EvSend provider name args 300000 gasPrice])%list,
                   Normal (Some tx, lastError))
              | Thrown e =>
                  bsc_try_mint net provider contract gasPrice fs (Some e)
                    (h2 ++ [EvSend provider name args 300000 gasPrice])%list
              end
            with
            | (h', Normal (Some tx, _)) => just_submitted net provider tx h'
            | (_, Normal (None, _)) => True
            | _ => False
            end).
  { intros h2.
    destruct (sendTransaction net h2 provider name args 300000 gasPrice)
      as [tx | e] eqn:Hs; [| apply IH ].
    exists h2, name, args, 300000, gasPrice. auto. }
  destruct (estimateGas net h provider name args) as [gasEstimate | e]; [| apply Hfixed ].
  destruct (sendTransaction net (h ++ [EvEstimateGas provider name args])%list
              provider name args (gasEstimate + 50000) gasPrice) as [tx | e] eqn:Hs;
    [| apply Hfixed ].
  exists (h ++ [EvEstimateGas provider name args])%list, name, args,
         (gasEstimate + 50000), gasPrice. auto.
Qed.

Lemma base_no_tx_is_failure lastError : is_failure (base_no_tx lastError).
Proof.
  unfold is_failure, base_no_tx.
  repeat match goal with
         | |- context [if ?c then _ else _] => destruct c
         end; reflexivity.
Qed.

Lemma bsc_no_tx_is_failure lastError : is_failure (bsc_no_tx lastError).
Proof.
  unfold is_failure, bsc_no_tx.
  repeat match goal with
         | |- context [if ?c then _ else _] => destruct c
         end; reflexivity.
Qed.

Lemma base_mint_and_confirm_honest net provider contract fs :
  returns_only (failure_or (confirmed_by_receipt net))
    (minted <- base_try_mint net provider contract fs None ;;
     match minted with
     | (None, lastError) => return_ (base_no_tx lastError)
     | (Some txHash, _) => evm_confirm net provider txHash
     end).
Proof.
  intros h. unfold bind.
  pose proof (base_try_mint_submitted net provider contract fs None h) as Hm.
  destruct (base_try_mint net provider contract fs None h)
    as [h1 [[[tx |] lastError] | r | e]]; try contradiction.
  - now apply evm_confirm_honest.
  - left. apply base_no_tx_is_failure.
Qed.

Lemma bsc_mint_and_confirm_honest net provider contract gasPrice fs :
  returns_only (failure_or (confirmed_by_receipt net))
    (minted <- bsc_try_mint net provider contract gasPrice fs None ;;
     match minted with
     | (None, lastError) => return_ (bsc_no_tx lastError)
     | (Some txHash, _) => evm_confirm net provider txHash
     end).
Proof.
  intros h. unfold bind.
  pose proof (bsc_try_mint_submitted net provider contract gasPrice fs None h) as Hm.
  destruct (bsc_try_mint net provider contract gasPrice fs None h)
    as [h1 [[[tx |] lastError] | r | e]]; try contradiction.
  - now apply evm_confirm_honest.
  - left. apply bsc_no_tx_is_failure.
Qed.

End Confirmed.

Ltac returns_auto :=
  repeat (first [ apply base_mint_and_confirm_honest
                | apply bsc_mint_and_confirm_honest
                | apply returns_only_bind; [ | intros ? ]
                | returns_step ];
          auto with safe_db).

Section ConfirmedExecutors.

Variable host : Host.

Lemma connect_provider_returns_only (Q : History -> JSObject -> Prop) net urls :
  returns_only Q (connect_provider net urls).
Proof.
  induction urls as [| u urls IH]; cbn [connect_provider]; returns_auto.
Qed.

Lemma evm_outer_catch_returns_only Q a b c d e err :
  returns_only (failure_or Q) (evm_outer_catch a b c d e err).
Proof.
  unfold evm_outer_catch. returns_auto.
Qed.

Lemma base_after_connect_honest lib net provider pk ca q :
  returns_only (failure_or (confirmed_by_receipt net))
    (base_after_connect lib net provider pk ca q).
Proof.
  unfold base_after_connect. returns_auto.
Qed.

Lemma bsc_gasPrice_returns_only (Q : History -> JSObject -> Prop) net provider :
  returns_only Q (bsc_gasPrice net provider).
Proof.
  unfold bsc_gasPrice. returns_auto.
Qed.

Lemma bsc_after_connect_honest lib net provider pk ca q :
  returns_only (failure_or (confirmed_by_receipt net))
    (bsc_after_connect lib net provider pk ca q).
Proof.
  unfold bsc_after_connect. returns_auto. apply bsc_gasPrice_returns_only.
Qed.

Lemma mintBASE_honest lib net input h :
  match mintBASE host lib net input h with
  | (h', Returned r) => failure_or (confirmed_by_receipt net) h' r
  | (_, Rejected _) => True
  end.
Proof.
  unfold mintBASE. apply run_returns_only.
  returns_auto;
    auto using connect_provider_returns_only, base_after_connect_honest,
               evm_outer_catch_returns_only.
Qed.

Lemma mintBSC_honest lib net input h :
  match mintBSC host lib net input h with
  | (h', Returned r) => failure_or (confirmed_by_receipt net) h' r
  | (_, Rejected _) => True
  end.
Proof.
  unfold mintBSC. apply run_returns_only.
  returns_auto;
    auto using connect_provider_returns_only, bsc_after_connect_honest,
               bsc_gasPrice_returns_only, evm_outer_catch_returns_only.
Qed.

End ConfirmedExecutors.

(** X13.  The BASE and BSC executors never report a success that they have not
    seen confirmed.  Whatever the input, the library and the answers of the
    network, the executor returns (it does not reject), and its result either
    has [success: false], or is built from a receipt with a status other than
    0 that arrived within the 300 seconds ([success: true], the gas used and
    the block number of the receipt, and as [txHash] what
    [receipt.transactionHash] gives), the wait for that receipt being the
    last call of the executor and the submission that the endpoint answered
    with the hash the call just before it. *)
Theorem evm_success_needs_a_receipt
    (host : Host) (lib : Ethers) (net : EvmNetwork) (input : JSObject) (h : History) :
  (exists h' r,
     mintBASE host lib net input h = (h', Returned r) /\
     (is_failure r \/ confirmed_by_receipt net h' r)) /\
  (exists h' r,
     mintBSC host lib net input h = (h', Returned r) /\
     (is_failure r \/ confirmed_by_receipt net h' r)).
Proof.
  split.
  - destruct (mintBASE_returns host lib net input h) as (t & r & Hrun & _).
    pose proof (mintBASE_honest host lib net input h) as Hh.
    rewrite Hrun in Hh. eauto.
  - destruct (mintBSC_returns host lib net input h) as (t & r & Hrun & _).
    pose proof (mintBSC_honest host lib net input h) as Hh.
    rewrite Hrun in Hh. eauto.
Qed.

Section ConfirmedSolana.

Variable host : Host.

Lemma connect_solana_returns_only (Q : History -> JSObject -> Prop) net urls :
  returns_only Q (connect_solana net urls).
Proof.
  induction urls as [| u urls IH]; cbn [connect_solana]; returns_auto.
Qed.

Lemma sol_keypair_returns_only Q lib pk :
  returns_only (failure_or Q) (sol_keypair lib pk).
Proof.
  unfold sol_keypair. returns_auto.
Qed.

Lemma sol_transaction_catch_returns_only Q err :
  returns_only (failure_or Q) (sol_transaction_catch err).
Proof.
  unfold sol_transaction_catch. returns_auto.
Qed.

Lemma sol_outer_catch_returns_only Q err :
  returns_only (failure_or Q) (sol_outer_catch err).
Proof.
  unfold sol_outer_catch. returns_auto.
Qed.

Lemma sol_send_and_confirm_honest net connection associatedTokenAccount :
  returns_only (failure_or (confirmed_on_solana net))
    (signature <- call (EvSendRawTransaction connection sol_maxRetries)
                       (fun h => sendRawTransaction net h connection) ;;
     confirmation_err <-
       call (EvConfirmTransaction connection signature confirmation_timeout_ms)
            (fun h => race_timeout (confirmTransaction net h connection signature)) ;;
     when ToBoolean confirmation_err
       then_return
         [("success", JBool false);
          ("msg", JString ("Transaction failed: " ++ JSON_stringify host confirmation_err));
          ("code", JString "TRANSACTION_FAILED");
          ("signature", JString signature)] ;;
     return_ (A := Empty_set)
             [("success", JBool true);
              ("txHash", JString signature);
              ("associatedTokenAccount", JString associatedTokenAccount)]).
Proof.
  intros h.
  unfold bind, call, return_, sol_maxRetries, confirmation_timeout_ms.
  destruct (sendRawTransaction net h connection) as [signature | e] eqn:Hsend;
    [| exact I ].
  destruct (confirmTransaction net (h ++ [EvSendRawTransaction connection 3])%list
              connection signature) as [confirmation_err | e |] eqn:Hconfirm;
    cbn [race_timeout]; try exact I.
  destruct (ToBoolean confirmation_err) eqn:Herr; [ now left |].
  right. exists h, connection, signature, confirmation_err, associatedTokenAccount.
  repeat split; auto. now rewrite <- app_assoc.
Qed.

Lemma sol_transaction_honest lib net connection keypair mint q :
  returns_only (failure_or (confirmed_on_solana net))
    (sol_transaction host lib net connection keypair mint q).
Proof.
  unfold sol_transaction.
  apply returns_only_try; [| intros e; apply sol_transaction_catch_returns_only ].
  repeat (first [ apply sol_send_and_confirm_honest
                | apply returns_only_bind; [ | intros ? ]
                | returns_step ];
          auto with safe_db).
Qed.

Lemma sol_after_connect_honest lib net connection pk ca q :
  returns_only (failure_or (confirmed_on_solana net))
    (sol_after_connect host lib net connection pk ca q).
Proof.
  unfold sol_after_connect.
  repeat (first [ apply sol_transaction_honest
                | apply sol_keypair_returns_only
                | apply returns_only_bind; [ | intros ? ]
                | returns_step ];
          auto with safe_db).
Qed.

Lemma mintSOL_honest lib net input h :
  match mintSOL host lib net input h with
  | (h', Returned r) => failure_or (confirmed_on_solana net) h' r
  | (_, Rejected _) => True
  end.
Proof.
  unfold mintSOL. apply run_returns_only.
  repeat (first [ apply sol_after_connect_honest
                | apply connect_solana_returns_only
                | apply sol_outer_catch_returns_only
                | apply returns_only_bind; [ | intros ? ]
                | returns_step ];
          auto with safe_db).
Qed.

End ConfirmedSolana.

(** X14.  The SOL executor never reports a success that it has not seen
    confirmed.  Whatever the input, the library and the answers of the
    network, the executor returns, and its result either has
    [success: false], or carries as [txHash] the signature with which the
    endpoint answered the submission of the raw transaction, the
    confirmation of that signature came within the 300 seconds without an
    error, and the submission and the confirmation are the last two calls of
    the executor. *)
Theorem sol_success_needs_a_confirmation
    (host : Host) (lib : SolanaLib) (net : SolanaNetwork) (input : JSObject)
    (h : History) :
  exists h' r,
    mintSOL host lib net input h = (h', Returned r) /\
    (is_failure r \/ confirmed_on_solana net h' r).
Proof.
  destruct (mintSOL_returns host lib net input h) as (t & r & Hrun & _).
  pose proof (mintSOL_honest host lib net input h) as Hh.
  rewrite Hrun in Hh. eauto.
Qed.

Section ReportedSui.

Variable host : Host.

Lemma sui_graphql_error_returns_only Q errors :
  returns_only (failure_or Q) (sui_graphql_error errors).
Proof.
  unfold sui_graphql_error.
  repeat (first [ apply returns_only_attempt
                | apply returns_only_bind; [ | intros ? ]
                | returns_step ];
          auto with safe_db).
Qed.

Lemma sui_outer_catch_returns_only Q err :
  returns_only (failure_or Q) (sui_outer_catch err).
Proof.
  unfold sui_outer_catch. returns_auto.
Qed.

Lemma sui_request_answered indexer attempts : forall lastError h,
  match sui_request indexer attempts lastError h with
  | (h', Normal (Some response, _)) =>
      exists h0 n, h' = (h0 ++ [EvAxios n 300000])%list /\
                   axios indexer h0 n = Ok response
  | (_, Return r) => is_failure r
  | _ => True
  end.
Proof.
  induction attempts as [| n attempts IH]; intros lastError h; [ exact I |].
  cbn [sui_request]. unfold bind at 1. unfold try_catch, bind at 1, call, ret, sui_timeout_ms.
  destruct (axios indexer h n) as [response | e] eqn:Hax; cbv beta iota.
  - exists h, n. auto.
  - unfold bind.
    destruct (n =? sui_maxRetries).
    + destruct (code_is e "ECONNABORTED"); [ reflexivity |].
      destruct (code_is e "ENOTFOUND"); [ reflexivity |].
      destruct (code_is e "ECONNREFUSED"); [ reflexivity |].
      apply IH.
    + apply IH.
Qed.


Lemma sui_interpret_honest indexer input response h :
  (exists h0 n, h = (h0 ++ [EvAxios n 300000])%list /\ axios indexer h0 n = Ok response) ->
  match sui_interpret host response (get input "mintQuantity")
                      (get input "collectionId") h with
  | (h', Return r) => failure_or (reported_by_indexer host indexer input) h' r
  | _ => True
  end.
Proof.
  intros (h0 & n & -> & Hax).
  unfold sui_interpret.
  destruct (400 <=? ax_status response) eqn:Hst;
    [ left; apply sui_http_error_is_failure |].
  destruct (negb (ToBoolean (ax_data response))) eqn:Hdata; [ now left |].
  cbv zeta.
  unfold bind at 1. unfold attempt at 1.
  destruct (getProp (ax_data response) "errors") as [errors | e]; [| exact I ].
  unfold bind at 1.
  destruct (ToBoolean errors);
    [ unfold bind at 1, attempt at 1;
      destruct (getProp errors "length") as [len | e]; [| exact I ];
      unfold attempt at 1; destruct (js_gt host len 0) as [[|] | e];
      [ apply (sui_graphql_error_returns_only
                 (reported_by_indexer host indexer input) errors) | | exact I ]
    | unfold ret at 1 ].
  all: unfold bind, attempt, ret, return_.
  all: destruct (getProp (ax_data response) "data") as [data_data | e] eqn:Hdd;
    [| exact I ].
  all: destruct (ToBoolean data_data) eqn:Htd; [| now left ].
  all: destruct (getProp data_data "mintNFT") as [mintNFT | e] eqn:Hm; [| exact I ].
  all: cbn [negb orb].
  all: destruct (ToBoolean mintNFT) eqn:Htm; cbn [negb]; [| now left ].
  all: destruct (getProp mintNFT "success") as [succeeded | e] eqn:Hs; [| exact I ].
  all: destruct (ToBoolean succeeded) eqn:Hts; cbn [negb].
  all: try (destruct (getProp mintNFT "error") as [mint_error | e]; [| exact I ];
            destruct (getPropOpt mint_error "message"); [| exact I ];
            destruct (getPropOpt mint_error "code"); [| exact I ];
            destruct (ToString host _); [| exact I ];
            now left).
  all: destruct (getProp mintNFT "transactionBlockDigest") as [digest | e] eqn:Hdg;
    [| exact I ].
  all: cbv beta iota; destruct (ToBoolean digest) eqn:Htdg; [| now left ].
  all: destruct (ToString host digest); [| exact I ].
  all: destruct (ToString host (get input "mintQuantity")) as [quantityText | e] eqn:Hq;
    [| exact I ].
  all: assert (Hlt : ax_status response < 400) by (apply Z.leb_gt in Hst; lia).
  all: right; exists h0, n, response, data_data, mintNFT, succeeded, digest, quantityText.
  all: repeat split; assumption.
Qed.

Lemma sui_request_and_interpret_honest indexer input attempts :
  returns_only (failure_or (reported_by_indexer host indexer input))
    (requested <- sui_request indexer attempts None ;;
     match requested with
     | (None, lastError) =>
         return_ (failure_details
                    "Failed to connect to SUI network after multiple attempts"
                    "CONNECTION_FAILED"
                    (match lastError with
                     | Some e => JString (err_message e)
                     | None => JUndefined
                     end))
     | (Some response, _) =>
         sui_interpret host response (get input "mintQuantity")
                       (get input "collectionId")
     end).
Proof.
  intros h. unfold bind.
  pose proof (sui_request_answered indexer attempts None h) as Hreq.
  destruct (sui_request indexer attempts None h)
    as [h1 [[[response |] lastError] | r | e]]; auto.
  - now apply sui_interpret_honest.
  - now left.
  - now left.
Qed.

Lemma mintSUI_honest env indexer input h :
  match mintSUI host env indexer input h with
  | (h', Returned r) => failure_or (reported_by_indexer host indexer input) h' r
  | (_, Rejected _) => True
  end.
Proof.
  unfold mintSUI. apply run_returns_only.
  apply returns_only_try; [| intros e; apply sui_outer_catch_returns_only ].
  repeat (first [ apply sui_request_and_interpret_honest
                | apply returns_only_attempt
                | apply returns_only_bind; [ | intros ? ]
                | returns_step ];
          auto with safe_db).
Qed.

End ReportedSui.

(** X15.  The SUI executor never reports a success that the indexer has not
    reported.  Whatever the input, the configuration and the answers of the
    indexer, the executor returns, and its result either has
    [success: false], or is the MINT_SUCCESS built from the last request: the
    indexer answered that request with a status below 400 and a body whose
    [data.mintNFT] has a truthy [success] and a truthy
    [transactionBlockDigest], which is the [transactionHash] of the result;
    [quantity] and [collectionId] are those of the request. *)
Theorem sui_success_needs_a_digest
    (host : Host) (env : Env) (indexer : Indexer) (input : JSObject) (h : History) :
  exists h' r,
    mintSUI host env indexer input h = (h', Returned r) /\
    (is_failure r \/ reported_by_indexer host indexer input h' r).
Proof.
  destruct (mintSUI_returns host env indexer input h) as (t & r & Hrun & _).
  pose proof (mintSUI_honest host env indexer input h) as Hh.
  rewrite Hrun in Hh. eauto.
Qed.

(** * No call to the contract before the checks *)

Ltac stopped_before t :=
  let Ht := fresh "Ht" in
  intros Ht; cbn [fst] in Ht; rewrite <- ?app_assoc in Ht;
  apply app_inv_head in Ht; subst t; left; repeat constructor.

Lemma base_checks_before_calls lib net provider pk ca q h :
  exists t,
    fst (base_after_connect lib net provider pk ca q h) = (h ++ t)%list /\
    (no_contract_call t \/
     evm_checks_passed lib net base_min_balance provider pk ca h).
Proof.
  destruct (base_after_connect_safe lib net provider pk ca q h) as (t & Ht & _ & _).
  exists t. split; [ exact Ht |]. revert Ht.
  unfold base_after_connect, bind, try_catch, call, return_, ret.
  destruct (newWallet lib pk) as [wallet | e] eqn:Hw; [| stopped_before t ].
  destruct (getBalance net _ provider wallet) as [balance | e] eqn:Hb;
    [| stopped_before t ].
  destruct (balance <? base_min_balance) eqn:Hlt; [ stopped_before t |].
  destruct (newContract lib ca) as [contract | e] eqn:Hc; [| stopped_before t ].
  destruct (getCode net _ provider ca) as [code | e] eqn:Hcode; [| stopped_before t ].
  destruct (String.eqb code "0x") eqn:Hx; [ stopped_before t |].
  intros _. right. exists wallet, balance, contract, code.
  rewrite <- !app_assoc in Hcode. apply Z.ltb_ge in Hlt. apply String.eqb_neq in Hx.
  repeat split; assumption.
Qed.

Lemma bsc_checks_before_calls lib net provider pk ca q h :
  exists t,
    fst (bsc_after_connect lib net provider pk ca q h) = (h ++ t)%list /\
    (no_contract_call t \/
     evm_checks_passed lib net bsc_min_balance provider pk ca h).
Proof.
  destruct (bsc_after_connect_safe lib net provider pk ca q h) as (t & Ht & _ & _).
  exists t. split; [ exact Ht |]. revert Ht.
  unfold bsc_after_connect, bind, try_catch, call, return_, ret.
  destruct (newWallet lib pk) as [wallet | e] eqn:Hw; [| stopped_before t ].
  destruct (getBalance net _ provider wallet) as [balance | e] eqn:Hb;
    [| stopped_before t ].
  destruct (balance <? bsc_min_balance) eqn:Hlt; [ stopped_before t |].
  destruct (newContract lib ca) as [contract | e] eqn:Hc; [| stopped_before t ].
  destruct (getCode net _ provider ca) as [code | e] eqn:Hcode; [| stopped_before t ].
  destruct (String.eqb code "0x") eqn:Hx; [ stopped_before t |].
  intros _. right. exists wallet, balance, contract, code.
  rewrite <- !app_assoc in Hcode. apply Z.ltb_ge in Hlt. apply String.eqb_neq in Hx.
  repeat split; assumption.
Qed.

(** X16.  Once connected, the BASE and BSC executors make no call to the mint
    contract (no gas estimate, no submission) unless every check before the
    loop has passed: the key made a wallet, the endpoint reported a balance
    of at least 0.001 ETH (0.005 BNB on BSC), the contract instance was
    built, and the endpoint reported code other than "0x" at the address. *)
Theorem evm_contract_calls_need_checks
    (lib : Ethers) (net : EvmNetwork) (provider : string)
    (privateKey contractAddress mintQuantity : JSValue) (h : History) :
  (exists t,
     fst (base_after_connect lib net provider privateKey contractAddress
            mintQuantity h) = (h ++ t)%list /\
     (no_contract_call t \/
      evm_checks_passed lib net base_min_balance provider privateKey
        contractAddress h)) /\
  (exists t,
     fst (bsc_after_connect lib net provider privateKey contractAddress
            mintQuantity h) = (h ++ t)%list /\
     (no_contract_call t \/
      evm_checks_passed lib net bsc_min_balance provider privateKey
        contractAddress h)).
Proof.
  split; [ apply base_checks_before_calls | apply bsc_checks_before_calls ].
Qed.

Lemma sol_keypair_outcome lib pk h :
  exists tk,
    fst (sol_keypair lib pk h) = (h ++ tk)%list /\
    nothing_submitted tk /\
    match snd (sol_keypair lib pk h) with
    | Throw _ => False
    | _ => True
    end.
Proof.
  assert (Hsafe : safe (fun e => is_network e = false) well_formed false
                    (sol_keypair lib pk)).
  { unfold sol_keypair. apply safe_try; [ safe_auto | intros e; safe_auto ]. }
  destruct (Hsafe h) as (t & Ht & Hl & Hc).
  exists t. split; [ exact Ht |]. split; [ now apply local_calls_submit_nothing |].
  destruct (snd (sol_keypair lib pk h)); auto. discriminate.
Qed.

(** X17.  Once connected, the SOL executor submits no transaction unless every
    check before the transaction has passed: the key made a keypair, the
    contract address parsed, the endpoint reported a balance of at least
    0.01 SOL, and the mint account exists and is owned by the token
    program. *)
Theorem sol_submission_needs_checks
    (host : Host) (lib : SolanaLib) (net : SolanaNetwork) (connection : string)
    (privateKey contractAddress mintQuantity : JSValue) (h : History) :
  exists t,
    fst (sol_after_connect host lib net connection privateKey contractAddress
           mintQuantity h) = (h ++ t)%list /\
    (nothing_submitted t \/
     sol_checks_passed lib net connection privateKey contractAddress h).
Proof.
  destruct (sol_after_connect_safe host lib net connection privateKey contractAddress
              mintQuantity h) as (t & Ht & _ & _).
  exists t. split; [ exact Ht |]. revert Ht.
  destruct (sol_keypair_outcome lib privateKey h) as (tk & Htk & Hlocal & Hthrow).
  unfold sol_after_connect. unfold bind at 1.
  destruct (sol_keypair lib privateKey h) as [h1 [keypair | r | e]] eqn:Hk;
    cbn [fst snd] in Htk, Hthrow; subst h1; [| | contradiction ].
  2:{ intros Ht. cbn [fst] in Ht. apply app_inv_head in Ht. subst t. now left. }
  assert (Hstop : forall t', nothing_submitted t' -> nothing_submitted (tk ++ t')%list)
    by (intros t' Ht'; apply Forall_app; auto).
  unfold bind, try_catch, call, return_, ret.
  destruct (newPublicKey lib contractAddress) as [mint | e] eqn:Hm.
  2:{ intros Ht. cbn [fst] in Ht. rewrite <- ?app_assoc in Ht.
      apply app_inv_head in Ht. subst t. left. apply Hstop. repeat constructor. }
  destruct (sol_getBalance net _ connection keypair) as [balance | e] eqn:Hb.
  2:{ intros Ht. cbn [fst] in Ht. rewrite <- ?app_assoc in Ht.
      apply app_inv_head in Ht. subst t. left. apply Hstop. repeat constructor. }
  destruct (balance <? sol_min_balance) eqn:Hlt.
  { intros Ht. cbn [fst] in Ht. rewrite <- ?app_assoc in Ht.
    apply app_inv_head in Ht. subst t. left. apply Hstop. repeat constructor. }
  destruct (getAccountInfo net _ connection mint) as [[info |] | e] eqn:Hinfo.
  2,3: intros Ht; cbn [fst] in Ht; rewrite <- ?app_assoc in Ht;
       apply app_inv_head in Ht; subst t; left; apply Hstop; repeat constructor.
  destruct (negb (String.eqb (ai_owner info) TOKEN_PROGRAM_ID)) eqn:Howner.
  { intros Ht. cbn [fst] in Ht. rewrite <- ?app_assoc in Ht.
    apply app_inv_head in Ht. subst t. left. apply Hstop. repeat constructor. }
  intros _. right. exists tk, keypair, mint, balance, info.
  repeat rewrite <- app_assoc in Hb. repeat rewrite <- app_assoc in Hinfo.
  cbn [app] in Hb, Hinfo. apply Z.ltb_ge in Hlt.
  apply negb_false_iff, String.eqb_eq in Howner.
  repeat split; assumption.
Qed.

(** * A mint that goes through *)

Lemma base_after_checks lib net provider pk ca q h wallet contract :
  evm_checked lib net base_min_balance provider pk ca h wallet contract ->
  base_after_connect lib net provider pk ca q h =
  (minted <- base_try_mint net provider contract (base_mintFunctions wallet q) None ;;
   match minted with
   | (None, lastError) => return_ (base_no_tx lastError)
   | (Some txHash, _) => evm_confirm net provider txHash
   end) (h ++ evm_checks_log provider wallet ca)%list.
Proof.
  intros (balance & code & Hw & Hb & Hmin & Hc & Hcode & Hx).
  apply Z.ltb_ge in Hmin. apply String.eqb_neq in Hx.
  unfold base_after_connect.
  unfold bind at 1. unfold try_catch at 1. unfold call at 1. rewrite Hw. cbv beta iota.
  unfold bind at 1. unfold try_catch at 1. unfold bind at 1. unfold call at 1.
  rewrite Hb. cbv beta iota. rewrite Hmin. unfold ret at 1. cbv beta iota.
  unfold bind at 1. unfold try_catch at 1. unfold call at 1. rewrite Hc. cbv beta iota.
  unfold bind at 1. unfold try_catch at 1. unfold bind at 1. unfold call at 1.
  rewrite <- !app_assoc. cbn [app]. rewrite Hcode. cbv beta iota. rewrite Hx.
  unfold ret at 1. cbv beta iota.
  rewrite <- ?app_assoc. reflexivity.
Qed.

Lemma evm_confirmed net provider tx h receipt :
  wait net h provider tx = Resolved receipt ->
  rc_status receipt <> 0 ->
  evm_confirm net provider tx h =
    ((h ++ [EvWait provider tx 300000])%list, Return (receipt_result receipt)).
Proof.
  intros Hw Hst. apply Z.eqb_neq in Hst.
  unfold evm_confirm, try_catch, bind, call, confirmation_timeout_ms.
  rewrite Hw. cbn [race_timeout]. cbv beta iota. now rewrite Hst.
Qed.

(** X18.  The BASE executor, end to end, on a mint that goes through: on a valid
    input, with an endpoint that answers the probe and checks that pass, the
    executor submits the first candidate of its list that the contract
    exposes, after one gas estimate, with 500000 gas at 20 gwei; when the
    receipt arrives in time with a status other than 0, the result reads
    [success: true] with the gas used and the block number of the receipt
    and, as [txHash], what [receipt.transactionHash] gives ([undefined]: the
    receipt names its hash [hash]); the estimate, the submission and the
    wait are the only calls after the checks. *)
Theorem base_mints_the_first_exposed_candidate
    (host : Host) (lib : Ethers) (net : EvmNetwork) (input : JSObject) (h : History)
    (pre : list string) (u : string) (post : list string)
    (wallet : string) (contract : string -> bool)
    (skipped : list MintFunction) (name : string) (args : list JSValue)
    (rest : list MintFunction) (gasEstimate : Z) (tx : string) (receipt : Receipt) :
  let connected := (h ++ map EvGetNetwork (pre ++ [u]))%list in
  let checked :=
    (connected ++ evm_checks_log u wallet (get input "contractAddress"))%list in
  evm_input_valid host lib input = true ->
  base_rpcUrls = (pre ++ u :: post)%list ->
  (forall v, In v pre -> evm_probe_fails net v) ->
  getNetwork net (h ++ map EvGetNetwork pre)%list u = Ok tt ->
  evm_checked lib net base_min_balance u (get input "privateKey")
              (get input "contractAddress") connected wallet contract ->
  base_mintFunctions wallet (get input "mintQuantity")
    = (skipped ++ (name, args) :: rest)%list ->
  Forall (unexposed contract) skipped ->
  contract name = true ->
  estimateGas net checked u name args = Ok gasEstimate ->
  sendTransaction net (checked ++ [EvEstimateGas u name args])%list u name args
                  500000 (20 * gwei) = Ok tx ->
  wait net (checked ++ [EvEstimateGas u name args;
                        EvSend u name args 500000 (20 * gwei)])%list u tx
    = Resolved receipt ->
  rc_status receipt <> 0 ->
  mintBASE host lib net input h =
    ((checked ++ [EvEstimateGas u name args;
                  EvSend u name args 500000 (20 * gwei);
                  EvWait u tx 300000])%list,
     Returned (receipt_result receipt)).
Proof.
  intros connected checked Hv Hurls Hfail Hlive Hchecked Hfs Hskip Hexposed
         He Hs Hw Hst.
  rewrite mintBASE_valid by assumption. rewrite Hurls.
  erewrite run_try_bind_normal by now apply connect_provider_first.
  cbv beta iota. fold connected.
  unfold run, try_catch.
  rewrite (base_after_checks lib net u _ _ _ connected wallet contract Hchecked).
  fold checked. unfold bind at 1.
  rewrite Hfs, (base_skips_unexposed net u contract skipped _ _ _ Hskip).
  rewrite (base_fixed_budget net u contract name args rest None checked
             gasEstimate tx Hexposed He Hs).
  rewrite (evm_confirmed net u tx _ receipt Hw Hst).
  now rewrite <- app_assoc.
Qed.

Lemma base_mints_the_first_exposed_candidate_witness :
  let lib := mock_ethers (fun name => String.eqb name "publicMint") in
  let net := scripted_evm (fun u => String.eqb u "https://mainnet.base.org/") ether
               (Ok None) (fun _ _ => Ok 100000) (fun _ _ _ => Ok "0xTX")
               (Resolved (mkReceipt 1 "0xRECEIPT" 90000 123)) in
  evm_input_valid example_host lib (sample_evm_input (JInt 1)) = true /\
  mintBASE example_host lib net (sample_evm_input (JInt 1)) [] =
    ([EvGetNetwork "https://base.drpc.org/";
      EvGetNetwork "https://mainnet.base.org/";
      EvLocal "new ethers.Wallet";
      EvGetBalance "https://mainnet.base.org/" "0xWALLET";
      EvLocal "new ethers.Contract";
      EvGetCode "https://mainnet.base.org/"
        (JString "0x00000000000000000000000000000000000000aa");
      EvEstimateGas "https://mainnet.base.org/" "publicMint" [JInt 1];
      EvSend "https://mainnet.base.org/" "publicMint" [JInt 1] 500000 (20 * gwei);
      EvWait "https://mainnet.base.org/" "0xTX" 300000],
     Returned [("success", JBool true); ("txHash", JUndefined);
               ("gasUsed", JString "90000"); ("blockNumber", JInt 123)]).
Proof.
  intros lib net.
  assert (Hv : evm_input_valid example_host lib (sample_evm_input (JInt 1)) = true)
    by reflexivity.
  split; [ exact Hv |].
  refine (base_mints_the_first_exposed_candidate example_host lib net
            (sample_evm_input (JInt 1)) []
            ["https://base.drpc.org/"] "https://mainnet.base.org/"
            ["https://base-mainnet.public.blastapi.io"]
            "0xWALLET" (fun name => String.eqb name "publicMint")
            [("mint", [JInt 1])] "publicMint" [JInt 1]
            [("mint", [JString "0xWALLET"; JInt 1]);
             ("mintTo", [JString "0xWALLET"; JInt 1])]
            100000 "0xTX" (mkReceipt 1 "0xRECEIPT" 90000 123)
            Hv eq_refl _ eq_refl _ eq_refl _ eq_refl eq_refl eq_refl eq_refl _).
  - intros v [<- | []] h0. exists refused. reflexivity.
  - exists ether, "0x6080".
    split; [ reflexivity |]. split; [ reflexivity |].
    split; [ vm_compute; discriminate |]. split; [ reflexivity |].
    split; [ reflexivity | discriminate ].
  - repeat constructor.
  - discriminate.
Defined.

Lemma bsc_after_checks lib net provider pk ca q h wallet contract :
  evm_checked lib net bsc_min_balance provider pk ca h wallet contract ->
  bsc_after_connect lib net provider pk ca q h =
  (gasPrice <- bsc_gasPrice net provider ;;
   minted <- bsc_try_mint net provider contract gasPrice
               (bsc_mintFunctions wallet q) None ;;
   match minted with
   | (None, lastError) => return_ (bsc_no_tx lastError)
   | (Some txHash, _) => evm_confirm net provider txHash
   end) (h ++ evm_checks_log provider wallet ca)%list.
Proof.
  intros (balance & code & Hw & Hb & Hmin & Hc & Hcode & Hx).
  apply Z.ltb_ge in Hmin. apply String.eqb_neq in Hx.
  unfold bsc_after_connect.
  unfold bind at 1. unfold try_catch at 1. unfold call at 1. rewrite Hw. cbv beta iota.
  unfold bind at 1. unfold try_catch at 1. unfold bind at 1. unfold call at 1.
  rewrite Hb. cbv beta iota. rewrite Hmin. unfold ret at 1. cbv beta iota.
  unfold bind at 1. unfold try_catch at 1. unfold call at 1. rewrite Hc. cbv beta iota.
  unfold bind at 1. unfold try_catch at 1. unfold bind at 1. unfold call at 1.
  rewrite <- !app_assoc. cbn [app]. rewrite Hcode. cbv beta iota. rewrite Hx.
  unfold ret at 1. cbv beta iota.
  rewrite <- ?app_assoc. reflexivity.
Qed.

Lemma bsc_gasPrice_is_price_of net provider h :
  bsc_gasPrice net provider h =
    ((h ++ [EvGetFeeData provider])%list,
     Normal (bsc_price_of (getFeeData net h provider))).
Proof.
  unfold bsc_gasPrice, try_catch, bind, call, bsc_price_of.
  destruct (getFeeData net h provider) as [[price |] | e]; reflexivity.
Qed.

(** X19.  The BSC executor, end to end, on a mint that goes through: on a valid
    input, with an endpoint that answers the probe and checks that pass, the
    executor asks for the fee data once, then submits the first candidate of
    its list that the contract exposes, with the gas estimate plus 50000 and
    the gas price of the fee data (5 gwei when the fee data cannot be had or
    has no price); when the receipt arrives in time with a status other than
    0, the result reads [success: true] with the gas used and the block
    number of the receipt and, as [txHash], what [receipt.transactionHash]
    gives ([undefined]: the receipt names its hash [hash]). *)
Theorem bsc_mints_the_first_exposed_candidate
    (host : Host) (lib : Ethers) (net : EvmNetwork) (input : JSObject) (h : History)
    (pre : list string) (u : string) (post : list string)
    (wallet : string) (contract : string -> bool)
    (skipped : list MintFunction) (name : string) (args : list JSValue)
    (rest : list MintFunction) (gasEstimate : Z) (tx : string) (receipt : Receipt) :
  let connected := (h ++ map EvGetNetwork (pre ++ [u]))%list in
  let checked :=
    (connected ++ evm_checks_log u wallet (get input "contractAddress"))%list in
  let gasPrice := bsc_price_of (getFeeData net checked u) in
  let priced := (checked ++ [EvGetFeeData u])%list in
  evm_input_valid host lib input = true ->
  bsc_rpcUrls = (pre ++ u :: post)%list ->
  (forall v, In v pre -> evm_probe_fails net v) ->
  getNetwork net (h ++ map EvGetNetwork pre)%list u = Ok tt ->
  evm_checked lib net bsc_min_balance u (get input "privateKey")
              (get input "contractAddress") connected wallet contract ->
  bsc_mintFunctions wallet (get input "mintQuantity")
    = (skipped ++ (name, args) :: rest)%list ->
  Forall (unexposed contract) skipped ->
  contract name = true ->
  estimateGas net priced u name args = Ok gasEstimate ->
  sendTransaction net (priced ++ [EvEstimateGas u name args])%list u name args
                  (gasEstimate + 50000) gasPrice = Ok tx ->
  wait net (priced ++ [EvEstimateGas u name args;
                       EvSend u name args (gasEstimate + 50000) gasPrice])%list u tx
    = Resolved receipt ->
  rc_status receipt <> 0 ->
  mintBSC host lib net input h =
    ((priced ++ [EvEstimateGas u name args;
                 EvSend u name args (gasEstimate + 50000) gasPrice;
                 EvWait u tx 300000])%list,
     Returned (receipt_result receipt)).
Proof.
  intros connected checked gasPrice priced Hv Hurls Hfail Hlive Hchecked Hfs Hskip
         Hexposed He Hs Hw Hst.
  rewrite mintBSC_valid by assumption. rewrite Hurls.
  erewrite run_try_bind_normal by now apply connect_provider_first.
  cbv beta iota. fold connected.
  unfold run, try_catch.
  rewrite (bsc_after_checks lib net u _ _ _ connected wallet contract Hchecked).
  fold checked. unfold bind at 1. rewrite bsc_gasPrice_is_price_of.
  fold gasPrice. fold priced. unfold bind at 1.
  rewrite Hfs, (bsc_skips_unexposed net u contract gasPrice skipped _ _ _ Hskip).
  rewrite (bsc_estimated_budget net u contract gasPrice name args rest None priced
             gasEstimate tx Hexposed He Hs).
  rewrite (evm_confirmed net u tx _ receipt Hw Hst).
  now rewrite <- app_assoc.
Qed.

Lemma bsc_mints_the_first_exposed_candidate_witness :
  let lib := mock_ethers (fun name => String.eqb name "publicMint") in
  let net := scripted_evm (fun u => String.eqb u "https://bsc-dataseed.binance.org/")
               ether (Ok (Some (3 * gwei))) (fun _ _ => Ok 100000)
               (fun _ _ _ => Ok "0xTX")
               (Resolved (mkReceipt 1 "0xRECEIPT" 90000 123)) in
  evm_input_valid example_host lib (sample_evm_input (JInt 2)) = true /\
  mintBSC example_host lib net (sample_evm_input (JInt 2)) [] =
    ([EvGetNetwork "https://bsc-dataseed.binance.org/";
      EvLocal "new ethers.Wallet";
      EvGetBalance "https://bsc-dataseed.binance.org/" "0xWALLET";
      EvLocal "new ethers.Contract";
      EvGetCode "https://bsc-dataseed.binance.org/"
        (JString "0x00000000000000000000000000000000000000aa");
      EvGetFeeData "https://bsc-dataseed.binance.org/";
      EvEstimateGas "https://bsc-dataseed.binance.org/" "publicMint" [JInt 2];
      EvSend "https://bsc-dataseed.binance.org/" "publicMint" [JInt 2]
             150000 (3 * gwei);
      EvWait "https://bsc-dataseed.binance.org/" "0xTX" 300000],
     Returned [("success", JBool true); ("txHash", JUndefined);
               ("gasUsed", JString "90000"); ("blockNumber", JInt 123)]).
Proof.
  intros lib net.
  assert (Hv : evm_input_valid example_host lib (sample_evm_input (JInt 2)) = true)
    by reflexivity.
  split; [ exact Hv |].
  refine (bsc_mints_the_first_exposed_candidate example_host lib net
            (sample_evm_input (JInt 2)) []
            [] "https://bsc-dataseed.binance.org/"
            ["https://bsc-dataseed1.defibit.io/";
             "https://bsc-dataseed1.ninicoin.io/";
             "https://bsc.drpc.org/"]
            "0xWALLET" (fun name => String.eqb name "publicMint")
            [("mint", [JInt 2])] "publicMint" [JInt 2]
            [("batchMint", [JInt 2]);
             ("mint", [JString "0xWALLET"; JInt 2]);
             ("mintTo", [JString "0xWALLET"; JInt 2])]
            100000 "0xTX" (mkReceipt 1 "0xRECEIPT" 90000 123)
            Hv eq_refl _ eq_refl _ eq_refl _ eq_refl eq_refl eq_refl eq_refl _).
  - intros v [].
  - exists ether, "0x6080".
    split; [ reflexivity |]. split; [ reflexivity |].
    split; [ vm_compute; discriminate |]. split; [ reflexivity |].
    split; [ reflexivity | discriminate ].
  - repeat constructor.
  - discriminate.
Defined.

(** * Submissions that the endpoint refuses *)

Lemma base_no_tx_code lastError :
  code_of (base_no_tx lastError) =
  JString (first_rule base_no_tx_rules "MINT_FUNCTION_FAILED" (message_of lastError)).
Proof.
  unfold code_of, base_no_tx, base_no_tx_rules, message_of.
  cbn [first_rule existsb]. rewrite !orb_false_r.
  repeat match goal with
         | |- context [if ?c then _ else _] => destruct c
         end; reflexivity.
Qed.

Lemma bsc_no_tx_code lastError :
  code_of (bsc_no_tx lastError) =
  JString (first_rule bsc_no_tx_rules "MINT_FUNCTION_FAILED" (message_of lastError)).
Proof.
  unfold code_of, bsc_no_tx, bsc_no_tx_rules, base_no_tx_rules, message_of.
  cbn [app first_rule existsb]. rewrite !orb_false_r.
  repeat match goal with
         | |- context [if ?c then _ else _] => destruct c
         end; reflexivity.
Qed.

Lemma loop_outcome_skip net provider gasLimit gasPrice start h t h' outcome :
  nothing_submitted t ->
  loop_outcome net provider gasLimit gasPrice start (h ++ t)%list h' outcome ->
  loop_outcome net provider gasLimit gasPrice start h h' outcome.
Proof.
  intros Hq. destruct outcome as [[tx |] lastError]; [ auto |].
  intros (t' & -> & [[Hn ->] | (e & t1 & t2 & name & args & -> & Hn & Hs & ->)]).
  - exists (t ++ t')%list. split; [ now rewrite <- ?app_assoc |].
    left. split; [ now apply Forall_app | reflexivity ].
  - exists (t ++ t1 ++ EvSend provider name args gasLimit gasPrice :: t2)%list.
    split; [ now rewrite <- ?app_assoc |].
    right. exists e, (t ++ t1)%list, t2, name, args.
    rewrite <- !app_assoc. rewrite <- app_assoc in Hs. auto.
Qed.

Lemma loop_outcome_refused net provider gasLimit gasPrice h t name args e h' outcome :
  sendTransaction net (h ++ t)%list provider name args gasLimit gasPrice = Thrown e ->
  loop_outcome net provider gasLimit gasPrice (Some e)
    ((h ++ t) ++ [EvSend provider name args gasLimit gasPrice])%list h' outcome ->
  forall start, loop_outcome net provider gasLimit gasPrice start h h' outcome.
Proof.
  intros Hs Ho start. destruct outcome as [[tx |] lastError]; [ auto |].
  destruct Ho as (t' & -> & [[Hn ->] | (e' & t1 & t2 & name' & args' & -> & Hn & Hs' & ->)]).
  - exists (t ++ EvSend provider name args gasLimit gasPrice :: t')%list.
    split; [ now rewrite <- !app_assoc |].
    right. exists e, t, t', name, args. auto.
  - exists (t ++ EvSend provider name args gasLimit gasPrice
              :: t1 ++ EvSend provider name' args' gasLimit gasPrice :: t2)%list.
    split; [ now rewrite <- !app_assoc |].
    right. exists e', (t ++ EvSend provider name args gasLimit gasPrice :: t1)%list,
                  t2, name', args'.
    split; [ now rewrite <- app_assoc |].
    split; [ exact Hn |].
    split; [| reflexivity ].
    rewrite <- Hs'. f_equal. now rewrite <- !app_assoc.
Qed.

Lemma base_try_mint_outcome net provider contract fs : forall lastError h,
  match base_try_mint net provider contract fs lastError h with
  | (h', Normal outcome) =>
      loop_outcome net provider 500000 (20 * gwei) lastError h h' outcome
  | _ => False
  end.
Proof.
  induction fs as [| [name args] fs IH]; intros lastError h.
  - exists []. split; [ now rewrite app_nil_r |]. left. split; [ constructor | reflexivity ].
  - rewrite base_try_mint_step.
    destruct (contract name); [| apply IH ].
    destruct (estimateGas net h provider name args) as [gasEstimate | e].
    + destruct (sendTransaction net (h ++ [EvEstimateGas provider name args])%list
                  provider name args 500000 (20 * gwei)) as [tx | e] eqn:Hs.
      * exists (h ++ [EvEstimateGas provider name args])%list, name, args,
               500000, (20 * gwei).
        split; [ now rewrite <- app_assoc | exact Hs ].
      * specialize (IH (Some e)
                      (h ++ [EvEstimateGas provider name args;
                             EvSend provider name args 500000 (20 * gwei)])%list).
        destruct (base_try_mint net provider contract fs (Some e) _)
          as [h' [outcome | r | e']]; try contradiction.
        apply (loop_outcome_refused net provider 500000 (20 * gwei) h
                 [EvEstimateGas provider name args] name args e h' outcome Hs).
        now rewrite <- app_assoc.
    + specialize (IH lastError (h ++ [EvEstimateGas provider name args])%list).
      destruct (base_try_mint net provider contract fs lastError _)
        as [h' [outcome | r | e']]; try contradiction.
      apply (loop_outcome_skip net provider 500000 (20 * gwei) lastError h
               [EvEstimateGas provider name args]); [ repeat constructor | exact IH ].
Qed.

Lemma bsc_try_mint_outcome net provider contract gasPrice fs : forall lastError h,
  match bsc_try_mint net provider contract gasPrice fs lastError h with
  | (h', Normal outcome) =>
      loop_outcome net provider 300000 gasPrice lastError h h' outcome
  | _ => False
  end.
Proof.
  induction fs as [| [name args] fs IH]; intros lastError h.
  - exists []. split; [ now rewrite app_nil_r |]. left. split; [ constructor | reflexivity ].
  - rewrite bsc_try_mint_step. cbv zeta.
    destruct (contract name); [| apply IH ].
    assert (Hfixed : forall t,
              match
                match sendTransaction net (h ++ t)%list provider name args
                        300000 gasPrice with
                | Ok tx =>
                    (((h ++ t) ++ [EvSend provider name args 300000 gasPrice])%list,
                     Normal (Some tx, lastError))
                | Thrown e =>
                    bsc_try_mint net provider contract gasPrice fs (Some e)
                      ((h ++ t) ++ [EvSend provider name args 300000 gasPrice])%list
                end
              with
              | (h', Normal outcome) =>
                  loop_outcome net provider 300000 gasPrice lastError h h' outcome
              | _ => False
              end).
    { intros t.
      destruct (sendTransaction net (h ++ t)%list provider name args 300000 gasPrice)
        as [tx | e] eqn:Hs.
      - exists (h ++ t)%list, name, args, 300000, gasPrice. auto.
      - specialize (IH (Some e)
                      ((h ++ t) ++ [EvSend provider name args 300000 gasPrice])%list).
        destruct (bsc_try_mint net provider contract gasPrice fs (Some e) _)
          as [h' [outcome | r | e']]; try contradiction.
        now apply (loop_outcome_refused net provider 300000 gasPrice h t name args e). }
    destruct (estimateGas net h provider name args) as [gasEstimate | e].
    + destruct (sendTransaction net (h ++ [EvEstimateGas provider name args])%list
                  provider name args (gasEstimate + 50000) gasPrice) as [tx | e] eqn:Hs.
      * exists (h ++ [EvEstimateGas provider name args])%list, name, args,
               (gasEstimate + 50000), gasPrice. auto.
      * specialize (Hfixed [EvEstimateGas provider name args;
                            EvSend provider name args (gasEstimate + 50000) gasPrice]).
        now rewrite <- !app_assoc in *.
    + apply (Hfixed [EvEstimateGas provider name args]).
Qed.

(** X20.  How the loops over the candidates end, and how a loop that leaves no
    transaction is reported.  Whatever the network answers, the loop ends
    normally: with a transaction, right after the submission that the
    endpoint accepted; or with none, and then either nothing was submitted
    and the code is MINT_FUNCTION_FAILED, or the error that is classified is
    the one that the endpoint threw at the last submission of the log (on
    BSC: the last one with the fixed 300000 budget; an error of the
    submission with the estimated budget is not kept).  The classification
    is the first match of an ordered table of texts, MINT_FUNCTION_FAILED
    when none matches. *)
Theorem refused_submissions_are_classified
    (net : EvmNetwork) (provider : string) (contract : string -> bool)
    (gasPrice : Z) (fs : list MintFunction) (h : History) :
  (exists h' outcome,
     base_try_mint net provider contract fs None h = (h', Normal outcome) /\
     loop_outcome net provider 500000 (20 * gwei) None h h' outcome) /\
  (exists h' outcome,
     bsc_try_mint net provider contract gasPrice fs None h = (h', Normal outcome) /\
     loop_outcome net provider 300000 gasPrice None h h' outcome) /\
  (forall lastError,
     code_of (base_no_tx lastError) =
       JString (first_rule base_no_tx_rules "MINT_FUNCTION_FAILED"
                           (message_of lastError)) /\
     code_of (bsc_no_tx lastError) =
       JString (first_rule bsc_no_tx_rules "MINT_FUNCTION_FAILED"
                           (message_of lastError))) /\
  code_of (base_no_tx None) = JString "MINT_FUNCTION_FAILED" /\
  code_of (bsc_no_tx None) = JString "MINT_FUNCTION_FAILED".
Proof.
  split; [| split; [| split; [| split; reflexivity ] ] ].
  - pose proof (base_try_mint_outcome net provider contract fs None h) as H.
    destruct (base_try_mint net provider contract fs None h)
      as [h' [outcome | r | e]]; try contradiction. eauto.
  - pose proof (bsc_try_mint_outcome net provider contract gasPrice fs None h) as H.
    destruct (bsc_try_mint net provider contract gasPrice fs None h)
      as [h' [outcome | r | e]]; try contradiction. eauto.
  - intros lastError. split; [ apply base_no_tx_code | apply bsc_no_tx_code ].
Qed.

(** * No submission after an accepted one *)

#[local] Hint Extern 1 (not_submission _) => reflexivity : safe_db.

Lemma quiet_of_safe {R A} (P : R -> Prop) throws (m : M R A) :
  safe not_submission P throws m -> quiet m.
Proof.
  intros Hm h. destruct (Hm h) as (t & Ht & HE & _). exists t. auto.
Qed.

Lemma submissions_quiet (t : list Event) : nothing_submitted t -> submissions t = 0%nat.
Proof.
  unfold submissions. induction 1 as [| e t He _ IH]; [ reflexivity |].
  cbn. now rewrite He.
Qed.

Lemma accepted_is_submission net h e : accepted net h e = true -> is_submission e = true.
Proof.
  destruct e; cbn; auto; discriminate.
Qed.

Lemma sol_accepted_is_submission net h e :
  sol_accepted net h e = true -> is_submission e = true.
Proof.
  destruct e; cbn; auto; discriminate.
Qed.

Section Discipline.

Context {R : Type}.
Variable acc : History -> Event -> bool.
Hypothesis acc_is_submission : forall h e, acc h e = true -> is_submission e = true.

Lemma stops_quiet t : forall h, nothing_submitted t -> stops_when_accepted acc h t.
Proof.
  induction t as [| e t IH]; intros h Hq; [ exact I |].
  inversion Hq as [| ? ? He Ht]; subst. cbn [stops_when_accepted]. split.
  - intros Ha. apply acc_is_submission in Ha. congruence.
  - now apply IH.
Qed.

Lemma stops_quiet_prefix p : forall h t,
  nothing_submitted p ->
  stops_when_accepted acc (h ++ p)%list t ->
  stops_when_accepted acc h (p ++ t)%list.
Proof.
  induction p as [| e p IH]; intros h t Hq Ht.
  - now rewrite app_nil_r in Ht.
  - inversion Hq as [| ? ? He Hp]; subst. cbn [app stops_when_accepted]. split.
    + intros Ha. apply acc_is_submission in Ha. congruence.
    + apply IH; [ exact Hp |]. now rewrite <- app_assoc.
Qed.

Lemma stops_quiet_suffix t : forall h s,
  stops_when_accepted acc h t ->
  nothing_submitted s ->
  stops_when_accepted acc h (t ++ s)%list.
Proof.
  induction t as [| e t IH]; intros h s Ht Hs.
  - now apply stops_quiet.
  - cbn [app stops_when_accepted] in *. destruct Ht as [Ha Ht]. split.
    + intros Hacc. apply Forall_app. split; [ now apply Ha | exact Hs ].
    + now apply IH.
Qed.

Lemma disciplined_quiet {A} n (m : M R A) : quiet m -> disciplined acc n m.
Proof.
  intros Hm h. destruct (Hm h) as (t & Ht & Hq). exists t.
  split; [ exact Ht |]. split; [ now apply stops_quiet |].
  rewrite submissions_quiet by assumption. lia.
Qed.

Lemma disciplined_call {A} (ev : Event) (answer : History -> Attempt A) :
  disciplined acc 1 (call (R := R) ev answer).
Proof.
  intros h. exists [ev]. unfold call.
  split; [ now destruct (answer h) |].
  split; [ cbn; repeat split; constructor |].
  unfold submissions. cbn. destruct (is_submission ev); cbn; lia.
Qed.

Lemma disciplined_prefix {A B} n (m : M R A) (k : A -> M R B) :
  quiet m -> (forall a, disciplined acc n (k a)) -> disciplined acc n (bind m k).
Proof.
  intros Hm Hk h. destruct (Hm h) as (p & Hp & Hq). unfold bind.
  destruct (m h) as [h1 [a | r | e]]; cbn [fst] in Hp; subst h1.
  - destruct (Hk a (h ++ p)%list) as (t & Ht & Hs & Hn).
    exists (p ++ t)%list. rewrite Ht, app_assoc. split; [ reflexivity |].
    split; [ now apply stops_quiet_prefix |].
    rewrite submissions_app, submissions_quiet by assumption. lia.
  - exists p. split; [ reflexivity |]. split; [ now apply stops_quiet |].
    rewrite submissions_quiet by assumption. lia.
  - exists p. split; [ reflexivity |]. split; [ now apply stops_quiet |].
    rewrite submissions_quiet by assumption. lia.
Qed.

Lemma disciplined_suffix {A B} n (m : M R A) (k : A -> M R B) :
  disciplined acc n m -> (forall a, quiet (k a)) -> disciplined acc n (bind m k).
Proof.
  intros Hm Hk h. destruct (Hm h) as (t & Ht & Hs & Hn). unfold bind.
  destruct (m h) as [h1 [a | r | e]]; cbn [fst] in Ht; subst h1;
    [| exists t; auto .. ].
  destruct (Hk a (h ++ t)%list) as (s & Hs' & Hq).
  exists (t ++ s)%list. rewrite Hs', app_assoc. split; [ reflexivity |].
  split; [ now apply stops_quiet_suffix |].
  rewrite submissions_app, (submissions_quiet s) by assumption. lia.
Qed.

Lemma disciplined_try {A} n (m : M R A) (handler : JSError -> M R A) :
  disciplined acc n m -> (forall e, quiet (handler e)) ->
  disciplined acc n (try_catch m handler).
Proof.
  intros Hm Hk h. destruct (Hm h) as (t & Ht & Hs & Hn). unfold try_catch.
  destruct (m h) as [h1 [a | r | e]]; cbn [fst] in Ht; subst h1;
    [ exists t; auto .. |].
  destruct (Hk e (h ++ t)%list) as (s & Hs' & Hq).
  exists (t ++ s)%list. rewrite Hs', app_assoc. split; [ reflexivity |].
  split; [ now apply stops_quiet_suffix |].
  rewrite submissions_app, (submissions_quiet s) by assumption. lia.
Qed.

Lemma disciplined_run n (body : M R Empty_set) :
  disciplined acc n body ->
  forall h, exists t,
    fst (run body h) = (h ++ t)%list /\
    stops_when_accepted acc h t /\
    (submissions t <= n)%nat.
Proof.
  intros Hb h. destruct (Hb h) as (t & Ht & Hs & Hn). exists t.
  unfold run. destruct (body h) as [h1 [[] | r | e]]; auto.
Qed.

End Discipline.

Lemma base_try_mint_disciplined net provider contract fs : forall lastError,
  disciplined (accepted net) (List.length fs) (base_try_mint net provider contract fs lastError).
Proof.
  induction fs as [| [name args] fs IH]; intros lastError h.
  - exists []. cbn. rewrite app_nil_r. auto.
  - rewrite base_try_mint_step. cbn [List.length].
    destruct (contract name).
    2:{ destruct (IH lastError h) as (t & Ht & Hs & Hn). exists t. auto. }
    destruct (estimateGas net h provider name args) as [gasEstimate | e].
    + destruct (sendTransaction net (h ++ [EvEstimateGas provider name args])%list
                  provider name args 500000 (20 * gwei)) as [tx | e] eqn:Hsend.
      * exists [EvEstimateGas provider name args;
                EvSend provider name args 500000 (20 * gwei)].
        split; [ reflexivity |]. split.
        -- cbn [stops_when_accepted accepted].
           repeat split; try discriminate. constructor.
        -- unfold submissions. cbn. lia.
      * destruct (IH (Some e)
                    (h ++ [EvEstimateGas provider name args;
                           EvSend provider name args 500000 (20 * gwei)])%list)
          as (t & Ht & Hs & Hn).
        exists ([EvEstimateGas provider name args;
                 EvSend provider name args 500000 (20 * gwei)] ++ t)%list.
        split; [ etransitivity; [ exact Ht | now rewrite <- !app_assoc ] |].
        split.
        -- cbn [app stops_when_accepted accepted]. rewrite Hsend.
           repeat split; try discriminate. now rewrite <- app_assoc.
        -- rewrite submissions_app. unfold submissions at 1. cbn. lia.
    + destruct (IH lastError (h ++ [EvEstimateGas provider name args])%list)
        as (t & Ht & Hs & Hn).
      exists ([EvEstimateGas provider name args] ++ t)%list.
      split; [ etransitivity; [ exact Ht | now rewrite <- !app_assoc ] |].
      split.
      * apply (stops_quiet_prefix _ (accepted_is_submission net)); [ repeat constructor | exact Hs ].
      * rewrite submissions_app. unfold submissions at 1. cbn. lia.
Qed.

Lemma bsc_try_mint_disciplined net provider contract gasPrice fs : forall lastError,
  disciplined (accepted net) (2 * List.length fs)
    (bsc_try_mint net provider contract gasPrice fs lastError).
Proof.
  induction fs as [| [name args] fs IH]; intros lastError h.
  - exists []. cbn. rewrite app_nil_r. auto.
  - rewrite bsc_try_mint_step. cbn [List.length]. cbv zeta.
    destruct (contract name).
    2:{ destruct (IH lastError h) as (t & Ht & Hs & Hn). exists t.
        repeat split; auto. lia. }
    assert (Hfixed : forall p,
              stops_when_accepted (accepted net) h p ->
              (forall t', stops_when_accepted (accepted net) (h ++ p)%list t' ->
                          stops_when_accepted (accepted net) h (p ++ t')%list) ->
              (submissions p <= 1)%nat ->
              exists t,
                fst (match sendTransaction net (h ++ p)%list provider name args
                             300000 gasPrice with
                     | Ok tx =>
                         (((h ++ p) ++ [EvSend provider name args 300000 gasPrice])%list,
                          Normal (Some tx, lastError))
                     | Thrown e =>
                         bsc_try_mint net provider contract gasPrice fs (Some e)
                           ((h ++ p) ++ [EvSend provider name args 300000 gasPrice])%list
                     end) = (h ++ t)%list /\
                stops_when_accepted (accepted net) h t /\
                (submissions t <= 2 * S (List.length fs))%nat).
    { intros p Hp Hext Hone.
      destruct (sendTransaction net (h ++ p)%list provider name args 300000 gasPrice)
        as [tx | e] eqn:Hsend.
      - exists (p ++ [EvSend provider name args 300000 gasPrice])%list.
        split; [ cbn [fst]; now rewrite <- app_assoc |]. split.
        + apply Hext. cbn [stops_when_accepted]. repeat split. constructor.
        + rewrite submissions_app. unfold submissions at 2. cbn. lia.
      - destruct (IH (Some e)
                    ((h ++ p) ++ [EvSend provider name args 300000 gasPrice])%list)
          as (t & Ht & Hs & Hn).
        exists (p ++ EvSend provider name args 300000 gasPrice :: t)%list.
        split; [ etransitivity; [ exact Ht | now rewrite <- !app_assoc ] |].
        split.
        + apply Hext. cbn [stops_when_accepted accepted]. rewrite Hsend.
          split; [ discriminate | exact Hs ].
        + rewrite submissions_app.
          change (EvSend provider name args 300000 gasPrice :: t)
            with ([EvSend provider name args 300000 gasPrice] ++ t)%list.
          rewrite submissions_app. unfold submissions at 2. cbn. lia. }
    destruct (estimateGas net h provider name args) as [gasEstimate | e].
    + destruct (sendTransaction net (h ++ [EvEstimateGas provider name args])%list
                  provider name args (gasEstimate + 50000) gasPrice) as [tx | e] eqn:Hsend.
      * exists [EvEstimateGas provider name args;
                EvSend provider name args (gasEstimate + 50000) gasPrice].
        split; [ cbn [fst]; now rewrite <- app_assoc |]. split.
        -- cbn [stops_when_accepted accepted].
           repeat split; try discriminate. constructor.
        -- unfold submissions. cbn. lia.
      * destruct (Hfixed [EvEstimateGas provider name args;
                          EvSend provider name args (gasEstimate + 50000) gasPrice])
          as (t & Ht & Hs & Hn).
        -- cbn [stops_when_accepted accepted]. rewrite Hsend.
           repeat split; discriminate.
        -- intros t' Ht'. cbn [app stops_when_accepted accepted]. rewrite Hsend.
           repeat split; try discriminate. now rewrite <- app_assoc.
        -- unfold submissions. cbn. lia.
        -- exists t. rewrite <- !app_assoc. rewrite <- !app_assoc in Ht.
           cbn [app] in *. auto.
    + destruct (Hfixed [EvEstimateGas provider name args]) as (t & Ht & Hs & Hn).
      * cbn [stops_when_accepted accepted]. repeat split; discriminate.
      * intros t' Ht'. apply (stops_quiet_prefix _ (accepted_is_submission net)); [ repeat constructor | exact Ht' ].
      * unfold submissions. cbn. lia.
      * exists t. auto.
Qed.

Ltac quiet_auto :=
  apply (quiet_of_safe any_result true); safe_auto.

Section DisciplinedExecutors.

Variable host : Host.

Lemma connect_provider_quiet net urls : quiet (connect_provider net urls).
Proof.
  apply (quiet_of_safe any_result true).
  induction urls as [| u urls IH]; cbn [connect_provider]; safe_auto.
Qed.

Lemma connect_solana_quiet net urls : quiet (connect_solana net urls).
Proof.
  apply (quiet_of_safe any_result true).
  induction urls as [| u urls IH]; cbn [connect_solana]; safe_auto.
Qed.

Lemma evm_confirm_quiet net provider tx : quiet (evm_confirm net provider tx).
Proof.
  unfold evm_confirm. quiet_auto.
Qed.

Lemma evm_outer_catch_quiet a b c d e err : quiet (evm_outer_catch a b c d e err).
Proof.
  unfold evm_outer_catch. quiet_auto.
Qed.

Lemma base_after_connect_disciplined lib net provider pk ca q :
  disciplined (accepted net) 4 (base_after_connect lib net provider pk ca q).
Proof.
  pose proof (accepted_is_submission net) as Hacc.
  unfold base_after_connect.
  apply disciplined_prefix; [ exact Hacc | quiet_auto | intros wallet ].
  apply disciplined_prefix; [ exact Hacc | quiet_auto | intros _ ].
  apply disciplined_prefix; [ exact Hacc | quiet_auto | intros contract ].
  apply disciplined_prefix; [ exact Hacc | quiet_auto | intros _ ].
  apply disciplined_suffix; [ exact Hacc | | ].
  - apply (base_try_mint_disciplined net provider contract
             (base_mintFunctions wallet q)).
  - intros [[tx |] lastError]; [ apply evm_confirm_quiet | quiet_auto ].
Qed.

Lemma bsc_after_connect_disciplined lib net provider pk ca q :
  disciplined (accepted net) 10 (bsc_after_connect lib net provider pk ca q).
Proof.
  pose proof (accepted_is_submission net) as Hacc.
  unfold bsc_after_connect.
  apply disciplined_prefix; [ exact Hacc | quiet_auto | intros wallet ].
  apply disciplined_prefix; [ exact Hacc | quiet_auto | intros _ ].
  apply disciplined_prefix; [ exact Hacc | quiet_auto | intros contract ].
  apply disciplined_prefix; [ exact Hacc | quiet_auto | intros _ ].
  apply disciplined_prefix;
    [ exact Hacc | unfold bsc_gasPrice; quiet_auto | intros gasPrice ].
  apply disciplined_suffix; [ exact Hacc | | ].
  - apply (bsc_try_mint_disciplined net provider contract gasPrice
             (bsc_mintFunctions wallet q)).
  - intros [[tx |] lastError]; [ apply evm_confirm_quiet | quiet_auto ].
Qed.

Lemma mintBASE_disciplined lib net input h :
  exists t,
    fst (mintBASE host lib net input h) = (h ++ t)%list /\
    stops_when_accepted (accepted net) h t /\
    (submissions t <= 4)%nat.
Proof.
  pose proof (accepted_is_submission net) as Hacc.
  unfold mintBASE. apply disciplined_run.
  apply disciplined_try; [ exact Hacc | | intros e; apply evm_outer_catch_quiet ].
  repeat match goal with
         | |- disciplined _ _ (if ?c then _ else _) =>
             destruct c; [ apply disciplined_quiet; [ exact Hacc | quiet_auto ] |]
         end.
  apply disciplined_prefix; [ exact Hacc | quiet_auto | intros too_low ].
  destruct too_low; [ apply disciplined_quiet; [ exact Hacc | quiet_auto ] |].
  repeat match goal with
         | |- disciplined _ _ (if ?c then _ else _) =>
             destruct c; [ apply disciplined_quiet; [ exact Hacc | quiet_auto ] |]
         end.
  apply disciplined_prefix;
    [ exact Hacc | apply connect_provider_quiet | intros [provider |] ].
  - apply base_after_connect_disciplined.
  - apply disciplined_quiet; [ exact Hacc | quiet_auto ].
Qed.

Lemma mintBSC_disciplined lib net input h :
  exists t,
    fst (mintBSC host lib net input h) = (h ++ t)%list /\
    stops_when_accepted (accepted net) h t /\
    (submissions t <= 10)%nat.
Proof.
  pose proof (accepted_is_submission net) as Hacc.
  unfold mintBSC. apply disciplined_run.
  apply disciplined_try; [ exact Hacc | | intros e; apply evm_outer_catch_quiet ].
  repeat match goal with
         | |- disciplined _ _ (if ?c then _ else _) =>
             destruct c; [ apply disciplined_quiet; [ exact Hacc | quiet_auto ] |]
         end.
  apply disciplined_prefix; [ exact Hacc | quiet_auto | intros too_low ].
  destruct too_low; [ apply disciplined_quiet; [ exact Hacc | quiet_auto ] |].
  repeat match goal with
         | |- disciplined _ _ (if ?c then _ else _) =>
             destruct c; [ apply disciplined_quiet; [ exact Hacc | quiet_auto ] |]
         end.
  apply disciplined_prefix;
    [ exact Hacc | apply connect_provider_quiet | intros [provider |] ].
  - apply bsc_after_connect_disciplined.
  - apply disciplined_quiet; [ exact Hacc | quiet_auto ].
Qed.

End DisciplinedExecutors.

(** X21.  The BASE and BSC executors never submit again once a submission has been
    accepted.  Whatever the input, the library and the answers of the
    network, in the log of one invocation no submission follows a submission
    that the endpoint answered with a transaction, and the invocation submits
    at most 4 transactions on BASE (one per candidate) and at most 10 on BSC
    (two per candidate). *)
Theorem evm_stops_at_the_first_acceptance
    (host : Host) (lib : Ethers) (net : EvmNetwork) (input : JSObject) (h : History) :
  (exists t,
     fst (mintBASE host lib net input h) = (h ++ t)%list /\
     stops_when_accepted (accepted net) h t /\
     (submissions t <= 4)%nat) /\
  (exists t,
     fst (mintBSC host lib net input h) = (h ++ t)%list /\
     stops_when_accepted (accepted net) h t /\
     (submissions t <= 10)%nat).
Proof.
  split; [ apply mintBASE_disciplined | apply mintBSC_disciplined ].
Qed.

Section DisciplinedSolana.

Variable host : Host.

Lemma sol_transaction_disciplined lib net connection keypair mint q :
  disciplined (sol_accepted net) 1
    (sol_transaction host lib net connection keypair mint q).
Proof.
  pose proof (sol_accepted_is_submission net) as Hacc.
  unfold sol_transaction.
  apply disciplined_try;
    [ exact Hacc | | intros e; unfold sol_transaction_catch; quiet_auto ].
  apply disciplined_prefix; [ exact Hacc | quiet_auto | intros ata ].
  apply disciplined_prefix; [ exact Hacc | quiet_auto | intros accountInfo ].
  apply disciplined_prefix; [ exact Hacc | quiet_auto | intros _ ].
  apply disciplined_prefix; [ exact Hacc | quiet_auto | intros _ ].
  apply disciplined_prefix; [ exact Hacc | quiet_auto | intros latest ].
  apply disciplined_prefix; [ exact Hacc | quiet_auto | intros _ ].
  apply disciplined_suffix; [ exact Hacc | apply disciplined_call | intros signature ].
  quiet_auto.
Qed.

Lemma sol_after_connect_disciplined lib net connection pk ca q :
  disciplined (sol_accepted net) 1
    (sol_after_connect host lib net connection pk ca q).
Proof.
  pose proof (sol_accepted_is_submission net) as Hacc.
  unfold sol_after_connect.
  apply disciplined_prefix;
    [ exact Hacc | unfold sol_keypair; quiet_auto | intros keypair ].
  apply disciplined_prefix; [ exact Hacc | quiet_auto | intros mint ].
  apply disciplined_prefix; [ exact Hacc | quiet_auto | intros _ ].
  apply disciplined_prefix; [ exact Hacc | quiet_auto | intros _ ].
  apply sol_transaction_disciplined.
Qed.

Lemma mintSOL_disciplined lib net input h :
  exists t,
    fst (mintSOL host lib net input h) = (h ++ t)%list /\
    stops_when_accepted (sol_accepted net) h t /\
    (submissions t <= 1)%nat.
Proof.
  pose proof (sol_accepted_is_submission net) as Hacc.
  unfold mintSOL. apply disciplined_run.
  apply disciplined_try;
    [ exact Hacc | | intros e; unfold sol_outer_catch; quiet_auto ].
  repeat match goal with
         | |- disciplined _ _ (if ?c then _ else _) =>
             destruct c; [ apply disciplined_quiet; [ exact Hacc | quiet_auto ] |]
         end.
  apply disciplined_prefix; [ exact Hacc | quiet_auto | intros too_low ].
  destruct too_low; [ apply disciplined_quiet; [ exact Hacc | quiet_auto ] |].
  repeat match goal with
         | |- disciplined _ _ (if ?c then _ else _) =>
             destruct c; [ apply disciplined_quiet; [ exact Hacc | quiet_auto ] |]
         end.
  apply disciplined_prefix;
    [ exact Hacc | apply connect_solana_quiet | intros [connection |] ].
  - apply sol_after_connect_disciplined.
  - apply disciplined_quiet; [ exact Hacc | quiet_auto ].
Qed.

End DisciplinedSolana.

(** X22.  The SOL executor submits at most one transaction in an invocation,
    whatever the input, the library and the answers of the network: an error
    of the submission or of the confirmation is reported, never answered with
    a second submission. *)
Theorem sol_submits_at_most_once
    (host : Host) (lib : SolanaLib) (net : SolanaNetwork) (input : JSObject)
    (h : History) :
  exists t,
    fst (mintSOL host lib net input h) = (h ++ t)%list /\
    (submissions t <= 1)%nat.
Proof.
  destruct (mintSOL_disciplined host lib net input h) as (t & Ht & _ & Hn).
  eauto.
Qed.

(** * A success without a hash *)

Lemma receipt_result_has_no_hash (receipt : Receipt) :
  get (receipt_result receipt) "txHash" = JUndefined /\
  ~ success_with_hash (receipt_result receipt).
Proof.
  split; [ reflexivity |].
  intros [_ [H | H]]; now apply H.
Qed.

(** X24.  A success of the BASE or of the BSC executor carries no transaction
    hash.  Whenever one of them returns a result that reads [success: true],
    that result is the one built from a receipt; its [txHash] is what
    [receipt.transactionHash] gives, [undefined], the receipt naming its
    hash [hash]; and it has no [transactionHash] either.  So the invariant
    {success with a transaction hash present} fails on every success of
    these two executors. *)
Theorem evm_success_carries_no_hash
    (host : Host) (lib : Ethers) (net : EvmNetwork) (input : JSObject)
    (h h' : History) (r : JSObject) :
  mintBASE host lib net input h = (h', Returned r) \/
  mintBSC host lib net input h = (h', Returned r) ->
  get r "success" = JBool true ->
  (exists receipt, rc_status receipt <> 0 /\ r = receipt_result receipt) /\
  get r "txHash" = JUndefined /\
  ~ success_with_hash r.
Proof.
  intros Hrun Hs.
  assert (Hc : is_failure r \/ confirmed_by_receipt net h' r).
  { destruct Hrun as [Hrun | Hrun].
    - pose proof (mintBASE_honest host lib net input h) as Hh. now rewrite Hrun in Hh.
    - pose proof (mintBSC_honest host lib net input h) as Hh. now rewrite Hrun in Hh. }
  destruct Hc as [Hf | (h0 & provider & tx & receipt & _ & _ & _ & Hst & ->)].
  - unfold is_failure in Hf. congruence.
  - split; [ eauto | apply receipt_result_has_no_hash ].
Qed.

Lemma evm_success_carries_no_hash_witness :
  let net := first_endpoint_evm ether (fun _ _ => Ok 100000)
               (Resolved (mkReceipt 1 "0xTX" 90000 123)) in
  let r := [("success", JBool true); ("txHash", JUndefined);
            ("gasUsed", JString "90000"); ("blockNumber", JInt 123)] in
  mintBASE example_host (mock_ethers (fun _ => true)) net (sample_evm_input (JInt 1)) [] =
    ((base_log_before_mint ++
      [EvEstimateGas "https://base.drpc.org/" "mint" [JInt 1];
       EvSend "https://base.drpc.org/" "mint" [JInt 1] 500000 20000000000;
       EvWait "https://base.drpc.org/" "0xTX" 300000])%list,
     Returned r) /\
  get r "txHash" = JUndefined /\
  ~ success_with_hash r.
Proof.
  intros net r.
  assert (Hrun : mintBASE example_host (mock_ethers (fun _ => true)) net
                          (sample_evm_input (JInt 1)) [] =
                   ((base_log_before_mint ++
                     [EvEstimateGas "https://base.drpc.org/" "mint" [JInt 1];
                      EvSend "https://base.drpc.org/" "mint" [JInt 1] 500000 20000000000;
                      EvWait "https://base.drpc.org/" "0xTX" 300000])%list,
                    Returned r)) by reflexivity.
  split; [ exact Hrun |].
  exact (proj2 (evm_success_carries_no_hash example_host (mock_ethers (fun _ => true))
                  net (sample_evm_input (JInt 1)) [] _ r (or_introl Hrun) eq_refl)).
Defined.

(** * A quantity that cannot be converted *)

Lemma unconvertible_comparison_throws (host : Host) (v : JSValue) (n : Z) :
  convertible v = false -> falsy_or_lt host v n = Thrown cannot_convert.
Proof.
  intros Hv. unfold falsy_or_lt, js_lt.
  destruct v as [| | b | x | s | l | o]; try discriminate;
    cbn [ToBoolean negb ToNumber]; unfold ToString; now rewrite Hv.
Qed.

(** X25.  A quantity that cannot be converted to a primitive (an object with an
    own property [toString], or an array that holds one) is not answered by
    the validation.  In a request whose required fields are present, the
    comparison [mintQuantity < 1] throws a TypeError and the outer handler
    answers it, no call having been made: TYPE_ERROR on SUI, UNKNOWN_ERROR on
    BASE, BSC and SOL, each with the message of the TypeError as details. *)
Theorem unconvertible_quantity_is_not_validated
    (host : Host) (ethers : Ethers) (evm : EvmNetwork)
    (solana : SolanaLib) (solnet : SolanaNetwork)
    (env : Env) (indexer : Indexer) (input : JSObject) (h : History) :
  convertible (get input "mintQuantity") = false ->
  ToBoolean (get input "privateKey") = true ->
  (ToBoolean (get input "collectionId") = true ->
   ToBoolean (get input "mintStage") = true ->
   mintSUI host env indexer input h =
     (h, Returned (failure_details "Type error in request" "TYPE_ERROR"
                     (JString (err_message cannot_convert))))) /\
  (ToBoolean (get input "contractAddress") = true ->
   mintBASE host ethers evm input h =
     (h, Returned (conversion_failed
                     "Transaction failed. Please verify your inputs and try again.")) /\
   mintBSC host ethers evm input h =
     (h, Returned (conversion_failed
                     "BSC transaction failed. Please verify your inputs and try again.")) /\
   mintSOL host solana solnet input h =
     (h, Returned (conversion_failed
                     "Solana minting failed. Please verify your inputs and try again."))).
Proof.
  intros Hq Hk.
  pose proof (unconvertible_comparison_throws host _ 1 Hq) as Hthrow.
  split.
  - intros Hc Hs. unfold mintSUI. rewrite Hk, Hc, Hs. cbn [negb].
    unfold run, try_catch, bind, attempt. now rewrite Hthrow.
  - intros Ha. repeat split.
    + unfold mintBASE. rewrite Hk, Ha. cbn [negb].
      unfold run, try_catch, bind, attempt. now rewrite Hthrow.
    + unfold mintBSC. rewrite Hk, Ha. cbn [negb].
      unfold run, try_catch, bind, attempt. now rewrite Hthrow.
    + unfold mintSOL. rewrite Hk, Ha. cbn [negb].
      unfold run, try_catch, bind, attempt. now rewrite Hthrow.
Qed.

Lemma unconvertible_quantity_is_not_validated_witness :
  let unconvertible := JObject [("toString", JInt 1)] in
  convertible unconvertible = false /\
  mintSUI example_host example_env offline_indexer (sample_sui_input unconvertible) [] =
    ([], Returned (failure_details "Type error in request" "TYPE_ERROR"
                     (JString "Cannot convert object to primitive value"))) /\
  mintBASE example_host (mock_ethers (fun _ => true)) offline_evm
           (sample_evm_input unconvertible) [] =
    ([], Returned (failure_details
                     "Transaction failed. Please verify your inputs and try again."
                     "UNKNOWN_ERROR"
                     (JString "Cannot convert object to primitive value"))).
Proof.
  intros unconvertible.
  split; [ reflexivity |]. split.
  - exact (proj1 (unconvertible_quantity_is_not_validated example_host
                    (mock_ethers (fun _ => true)) offline_evm
                    (mock_solana (Ok bytes64)) (scripted_solana (fun _ => false) 0 Pending)
                    example_env offline_indexer (sample_sui_input unconvertible) []
                    eq_refl eq_refl) eq_refl eq_refl).
  - exact (proj1 (proj2 (unconvertible_quantity_is_not_validated example_host
                    (mock_ethers (fun _ => true)) offline_evm
                    (mock_solana (Ok bytes64)) (scripted_solana (fun _ => false) 0 Pending)
                    example_env offline_indexer (sample_evm_input unconvertible) []
                    eq_refl eq_refl) eq_refl)).
Defined.
